(** * Research workflow orchestration: a shallow embedding

    The development follows the Python sources of the research assistant:
    [workflow/state.py] (the run record), [workflow/research_workflow.py]
    (graph, router, fan-in, error recovery, top-level guard), the agents
    under [agents/], the similarity search of [services/vector_store.py]
    and the request handlers of [app.py].

    Conventions of the embedding.
    - A Python [float] is a rational ([Q]); a Python [int] is a [Z]; [len]
      is a [nat].
    - A Python [str] is the [string] of the bytes of its UTF-8 encoding;
      [len] and slices count characters (code points), not bytes.  The
      character classes ([isdigit], whitespace, [lower]) are those of the
      ASCII range, which is what Python does on ASCII text.
    - A dict with a fixed set of keys (the run record, a source, an error
      entry) is a record; [{**state, k: v}] is a setter applied to the record.
    - A call that leaves the process (LLM completion, vector store, web
      search, the clock) is answered by an explicit input of the stage, so
      every stage is a total function of the record and of those answers; a
      raised exception is the [Raised] constructor of [Result]. *)

From Stdlib Require Import Bool List String Ascii ZArith QArith Qround Qabs Qminmax Lia.
From Stdlib Require Import Permutation Sorted DecimalString Lqa.
Import ListNotations.

Local Open Scope string_scope.
Local Open Scope list_scope.
Local Open Scope Z_scope.

(** [a + b] on [str] *)
Infix "+:+" := String.append (at level 60, right associativity).

(** ** Python string operations *)

Module PyStr.

(** [sub in s] *)
Fixpoint contains (sub s : string) : bool :=
  String.prefix sub s ||
  match s with
  | EmptyString => false
  | String _ t => contains sub t
  end.

(** [s.startswith(p)] *)
Definition startswith (s p : string) : bool := String.prefix p s.

(** A byte [10xxxxxx] continues the character begun before it; every other
    byte begins a character. *)
Definition is_continuation (c : ascii) : bool :=
  let n := nat_of_ascii c in ((128 <=? n) && (n <? 192))%nat.

(** [len(s)]: the number of characters *)
Fixpoint len (s : string) : nat :=
  match s with
  | EmptyString => 0%nat
  | String c t => if is_continuation c then len t else S (len t)
  end.

(** [s[:n]]: the first [n] characters, each with its continuation bytes *)
Fixpoint take (n : nat) (s : string) : string :=
  match s with
  | EmptyString => EmptyString
  | String c t =>
      if is_continuation c then String c (take n t)
      else match n with
           | O => EmptyString
           | S n' => String c (take n' t)
           end
  end.

(** the text holds ASCII characters only *)
Fixpoint is_ascii (s : string) : bool :=
  match s with
  | EmptyString => true
  | String c t => (nat_of_ascii c <? 128)%nat && is_ascii t
  end.

(** the last character, when there is one *)
Fixpoint last_char (s : string) : option ascii :=
  match s with
  | EmptyString => None
  | String c EmptyString => Some c
  | String _ t => last_char t
  end.

(** [s.endswith(c)] for a one-character suffix *)
Definition endswith_char (s : string) (c : ascii) : bool :=
  match last_char s with
  | Some d => Ascii.eqb d c
  | None => false
  end.

(** characters removed by [str.strip()] *)
Definition is_space (c : ascii) : bool :=
  let n := nat_of_ascii c in
  ((9 <=? n) && (n <=? 13) || (28 <=? n) && (n <=? 32))%nat.

(** [c.isdigit()] *)
Definition isdigit (c : ascii) : bool :=
  let n := nat_of_ascii c in ((48 <=? n) && (n <=? 57))%nat.

(** [s.lstrip()] *)
Fixpoint lstrip (s : string) : string :=
  match s with
  | EmptyString => EmptyString
  | String c t => if is_space c then lstrip t else s
  end.

(** [s.rstrip()] *)
Fixpoint rstrip (s : string) : string :=
  match s with
  | EmptyString => EmptyString
  | String c t =>
      match rstrip t with
      | EmptyString => if is_space c then EmptyString else String c EmptyString
      | t' => String c t'
      end
  end.

(** [s.strip()] *)
Definition strip (s : string) : string := rstrip (lstrip s).

(** [s.split(sep)] for a one-character separator: never empty, one more
    piece than there are separators. *)
Fixpoint split_char (sep : ascii) (s : string) : list string :=
  match s with
  | EmptyString => [EmptyString]
  | String c t =>
      if Ascii.eqb c sep then EmptyString :: split_char sep t
      else match split_char sep t with
           | [] => [String c EmptyString]
           | p :: ps => String c p :: ps
           end
  end.

(** [s.split(sep, 1)[-1]]: what follows the first separator, or all of [s]
    when it has none. *)
Fixpoint after_first (sep : ascii) (s : string) : option string :=
  match s with
  | EmptyString => None
  | String c t => if Ascii.eqb c sep then Some t else after_first sep t
  end.

Definition split1_last (sep : ascii) (s : string) : string :=
  match after_first sep s with
  | Some t => t
  | None => s
  end.

(** [sep.join(parts)] *)
Fixpoint join (sep : string) (parts : list string) : string :=
  match parts with
  | [] => EmptyString
  | [p] => p
  | p :: ps => p +:+ sep +:+ join sep ps
  end.

(** [str(n)] for a length or a counter *)
Definition of_nat (n : nat) : string := NilEmpty.string_of_uint (Nat.to_uint n).

(** the line feed *)
Definition nl : string := String (ascii_of_nat 10) EmptyString.

(** [c.lower()] on the ASCII letters *)
Definition lower_char (c : ascii) : ascii :=
  let n := nat_of_ascii c in
  if ((65 <=? n) && (n <=? 90))%nat then ascii_of_nat (n + 32) else c.

(** [s.lower()] *)
Fixpoint lower (s : string) : string :=
  match s with
  | EmptyString => EmptyString
  | String c t => String (lower_char c) (lower t)
  end.

(** [s.split()]: the maximal runs of characters that are not whitespace *)
Fixpoint split_ws (s : string) : list string :=
  match s with
  | EmptyString => []
  | String c t =>
      if is_space c then split_ws t
      else
        match t with
        | EmptyString => [String c EmptyString]
        | String d _ =>
            if is_space d then String c EmptyString :: split_ws t
            else match split_ws t with
                 | w :: ws => String c w :: ws
                 | [] => [String c EmptyString]
                 end
        end
  end.

(** [s.replace(a, b)] for single characters *)
Fixpoint replace_char (a b : ascii) (s : string) : string :=
  match s with
  | EmptyString => EmptyString
  | String c t => String (if Ascii.eqb c a then b else c) (replace_char a b t)
  end.

End PyStr.

(** ** The run record ([workflow/state.py]) *)

Inductive ResearchStep : Type :=
| INITIALIZED
| PLANNING
| PLANNING_COMPLETE
| INTERNAL_RESEARCH
| EXTERNAL_RESEARCH
| RESEARCH_COMPLETE
| QUALITY_ASSESSMENT
| QUALITY_ASSESSED
| REPORT_GENERATION
| SECTIONS_GENERATED
| REPORT_SYNTHESIS
| REPORT_COMPLETE
| ERROR_RECOVERY.

Definition ResearchStep_eq_dec (a b : ResearchStep) : {a = b} + {a <> b}.
Proof. decide equality. Defined.

Definition step_eqb (a b : ResearchStep) : bool :=
  if ResearchStep_eq_dec a b then true else false.

(** [Source]: [metadata] keeps the string-valued entries, which are the
    ones the assessor reads ([domain]). *)
Record Source : Type := {
  content : string;
  title : string;
  url : option string;
  source_type : string;
  relevance_score : Q;
  credibility_score : Q;
  question : string;
  metadata : list (string * string)
}.

Record QualityAssessment : Type := {
  source_diversity : Q;
  content_coverage : Q;
  source_credibility : Q;
  information_gaps : list string;
  overall_score : Q
}.

(** The plan dict built by the planner. *)
Record ResearchPlan : Type := {
  plan_topic : string;
  plan_questions : list string;
  internal_sources_available : nat;
  external_domains_identified : nat;
  estimated_duration_minutes : Z;
  research_strategy : string
}.

(** An entry of [errors]: the dict [{"type", "message", "step"}] that every
    handler appends. *)
Record ErrorInfo : Type := {
  type : string;
  message : string;
  step : string
}.

Record ResearchState : Type := {
  topic : string;
  research_plan : option ResearchPlan;
  research_questions : list string;
  internal_sources : list Source;
  external_sources : list Source;
  all_sources : list Source;
  quality_assessment : option QualityAssessment;
  quality_score : Q;
  report_sections : list (string * string);
  final_report : option string;
  current_step : ResearchStep;
  iteration_count : Z;
  errors : list ErrorInfo;
  start_time : option string;
  end_time : option string;
  processing_time : option Q
}.

(** [{**state, key: v}], one setter per key that some stage writes. *)
Definition set_research_plan (v : option ResearchPlan) (s : ResearchState) : ResearchState :=
  {| topic := topic s; research_plan := v;
     research_questions := research_questions s;
     internal_sources := internal_sources s;
     external_sources := external_sources s; all_sources := all_sources s;
     quality_assessment := quality_assessment s;
     quality_score := quality_score s; report_sections := report_sections s;
     final_report := final_report s; current_step := current_step s;
     iteration_count := iteration_count s; errors := errors s;
     start_time := start_time s; end_time := end_time s;
     processing_time := processing_time s |}.

Definition set_research_questions (v : list string) (s : ResearchState) : ResearchState :=
  {| topic := topic s; research_plan := research_plan s;
     research_questions := v; internal_sources := internal_sources s;
     external_sources := external_sources s; all_sources := all_sources s;
     quality_assessment := quality_assessment s;
     quality_score := quality_score s; report_sections := report_sections s;
     final_report := final_report s; current_step := current_step s;
     iteration_count := iteration_count s; errors := errors s;
     start_time := start_time s; end_time := end_time s;
     processing_time := processing_time s |}.

Definition set_internal_sources (v : list Source) (s : ResearchState) : ResearchState :=
  {| topic := topic s; research_plan := research_plan s;
     research_questions := research_questions s; internal_sources := v;
     external_sources := external_sources s; all_sources := all_sources s;
     quality_assessment := quality_assessment s;
     quality_score := quality_score s; report_sections := report_sections s;
     final_report := final_report s; current_step := current_step s;
     iteration_count := iteration_count s; errors := errors s;
     start_time := start_time s; end_time := end_time s;
     processing_time := processing_time s |}.

Definition set_external_sources (v : list Source) (s : ResearchState) : ResearchState :=
  {| topic := topic s; research_plan := research_plan s;
     research_questions := research_questions s;
     internal_sources := internal_sources s; external_sources := v;
     all_sources := all_sources s;
     quality_assessment := quality_assessment s;
     quality_score := quality_score s; report_sections := report_sections s;
     final_report := final_report s; current_step := current_step s;
     iteration_count := iteration_count s; errors := errors s;
     start_time := start_time s; end_time := end_time s;
     processing_time := processing_time s |}.

Definition set_all_sources (v : list Source) (s : ResearchState) : ResearchState :=
  {| topic := topic s; research_plan := research_plan s;
     research_questions := research_questions s;
     internal_sources := internal_sources s;
     external_sources := external_sources s; all_sources := v;
     quality_assessment := quality_assessment s;
     quality_score := quality_score s; report_sections := report_sections s;
     final_report := final_report s; current_step := current_step s;
     iteration_count := iteration_count s; errors := errors s;
     start_time := start_time s; end_time := end_time s;
     processing_time := processing_time s |}.

Definition set_quality_assessment (v : option QualityAssessment) (s : ResearchState) : ResearchState :=
  {| topic := topic s; research_plan := research_plan s;
     research_questions := research_questions s;
     internal_sources := internal_sources s;
     external_sources := external_sources s; all_sources := all_sources s;
     quality_assessment := v; quality_score := quality_score s;
     report_sections := report_sections s; final_report := final_report s;
     current_step := current_step s; iteration_count := iteration_count s;
     errors := errors s; start_time := start_time s; end_time := end_time s;
     processing_time := processing_time s |}.

Definition set_quality_score (v : Q) (s : ResearchState) : ResearchState :=
  {| topic := topic s; research_plan := research_plan s;
     research_questions := research_questions s;
     internal_sources := internal_sources s;
     external_sources := external_sources s; all_sources := all_sources s;
     quality_assessment := quality_assessment s; quality_score := v;
     report_sections := report_sections s; final_report := final_report s;
     current_step := current_step s; iteration_count := iteration_count s;
     errors := errors s; start_time := start_time s; end_time := end_time s;
     processing_time := processing_time s |}.

Definition set_report_sections (v : list (string * string)) (s : ResearchState) : ResearchState :=
  {| topic := topic s; research_plan := research_plan s;
     research_questions := research_questions s;
     internal_sources := internal_sources s;
     external_sources := external_sources s; all_sources := all_sources s;
     quality_assessment := quality_assessment s;
     quality_score := quality_score s; report_sections := v;
     final_report := final_report s; current_step := current_step s;
     iteration_count := iteration_count s; errors := errors s;
     start_time := start_time s; end_time := end_time s;
     processing_time := processing_time s |}.

Definition set_final_report (v : option string) (s : ResearchState) : ResearchState :=
  {| topic := topic s; research_plan := research_plan s;
     research_questions := research_questions s;
     internal_sources := internal_sources s;
     external_sources := external_sources s; all_sources := all_sources s;
     quality_assessment := quality_assessment s;
     quality_score := quality_score s; report_sections := report_sections s;
     final_report := v; current_step := current_step s;
     iteration_count := iteration_count s; errors := errors s;
     start_time := start_time s; end_time := end_time s;
     processing_time := processing_time s |}.

Definition set_current_step (v : ResearchStep) (s : ResearchState) : ResearchState :=
  {| topic := topic s; research_plan := research_plan s;
     research_questions := research_questions s;
     internal_sources := internal_sources s;
     external_sources := external_sources s; all_sources := all_sources s;
     quality_assessment := quality_assessment s;
     quality_score := quality_score s; report_sections := report_sections s;
     final_report := final_report s; current_step := v;
     iteration_count := iteration_count s; errors := errors s;
     start_time := start_time s; end_time := end_time s;
     processing_time := processing_time s |}.

Definition set_iteration_count (v : Z) (s : ResearchState) : ResearchState :=
  {| topic := topic s; research_plan := research_plan s;
     research_questions := research_questions s;
     internal_sources := internal_sources s;
     external_sources := external_sources s; all_sources := all_sources s;
     quality_assessment := quality_assessment s;
     quality_score := quality_score s; report_sections := report_sections s;
     final_report := final_report s; current_step := current_step s;
     iteration_count := v; errors := errors s; start_time := start_time s;
     end_time := end_time s; processing_time := processing_time s |}.

Definition set_errors (v : list ErrorInfo) (s : ResearchState) : ResearchState :=
  {| topic := topic s; research_plan := research_plan s;
     research_questions := research_questions s;
     internal_sources := internal_sources s;
     external_sources := external_sources s; all_sources := all_sources s;
     quality_assessment := quality_assessment s;
     quality_score := quality_score s; report_sections := report_sections s;
     final_report := final_report s; current_step := current_step s;
     iteration_count := iteration_count s; errors := v;
     start_time := start_time s; end_time := end_time s;
     processing_time := processing_time s |}.

Definition set_start_time (v : option string) (s : ResearchState) : ResearchState :=
  {| topic := topic s; research_plan := research_plan s;
     research_questions := research_questions s;
     internal_sources := internal_sources s;
     external_sources := external_sources s; all_sources := all_sources s;
     quality_assessment := quality_assessment s;
     quality_score := quality_score s; report_sections := report_sections s;
     final_report := final_report s; current_step := current_step s;
     iteration_count := iteration_count s; errors := errors s;
     start_time := v; end_time := end_time s;
     processing_time := processing_time s |}.

Definition set_end_time (v : option string) (s : ResearchState) : ResearchState :=
  {| topic := topic s; research_plan := research_plan s;
     research_questions := research_questions s;
     internal_sources := internal_sources s;
     external_sources := external_sources s; all_sources := all_sources s;
     quality_assessment := quality_assessment s;
     quality_score := quality_score s; report_sections := report_sections s;
     final_report := final_report s; current_step := current_step s;
     iteration_count := iteration_count s; errors := errors s;
     start_time := start_time s; end_time := v;
     processing_time := processing_time s |}.

Definition set_processing_time (v : option Q) (s : ResearchState) : ResearchState :=
  {| topic := topic s; research_plan := research_plan s;
     research_questions := research_questions s;
     internal_sources := internal_sources s;
     external_sources := external_sources s; all_sources := all_sources s;
     quality_assessment := quality_assessment s;
     quality_score := quality_score s; report_sections := report_sections s;
     final_report := final_report s; current_step := current_step s;
     iteration_count := iteration_count s; errors := errors s;
     start_time := start_time s; end_time := end_time s;
     processing_time := v |}.

(** The outcome of a call that may raise: the value, or the text of the
    exception ([str(e)]). *)
Inductive Result (A : Type) : Type :=
| Returned (a : A)
| Raised (msg : string).

Arguments Returned {A} a.
Arguments Raised {A} msg.

(** [ResearchState(...)] as the request handler builds it for a topic
    ([app.py], [/research]). *)
Definition initial_state (topic0 : string) (now : string) : ResearchState :=
  {| topic := topic0; research_plan := None; research_questions := [];
     internal_sources := []; external_sources := []; all_sources := [];
     quality_assessment := None; quality_score := 0; report_sections := [];
     final_report := None; current_step := INITIALIZED; iteration_count := 0;
     errors := []; start_time := Some now; end_time := None;
     processing_time := None |}.

(** ** The quality router ([ResearchWorkflow._quality_router]) *)

Inductive Route : Type :=
| route_generate_report
| route_retry_research
| route_replan
| route_error.

(** The string the router returns. *)
Definition route_name (r : Route) : string :=
  match r with
  | route_generate_report => "generate_report"
  | route_retry_research => "retry_research"
  | route_replan => "replan"
  | route_error => "error"
  end.

(** [a >= b] on floats *)
Definition Qge_bool (a b : Q) : bool := Qle_bool b a.

Definition is_critical (e : ErrorInfo) : bool :=
  PyStr.contains "critical" (type e).

Definition _quality_router (state : ResearchState) : Route :=
  let quality_score := quality_score state in
  let iteration_count := iteration_count state in
  let errors := errors state in
  let critical_errors := filter is_critical errors in
  match critical_errors with
  | _ :: _ => route_error
  | [] =>
      if iteration_count >=? 3 then route_generate_report
      else if Qge_bool quality_score (7 # 10) then route_generate_report
      else if Qge_bool quality_score (4 # 10) then route_retry_research
      else route_replan
  end.

(** [enumerate(l)] *)
Definition enumerate {A : Type} (l : list A) : list (nat * A) :=
  combine (seq 0 (List.length l)) l.

(** ** Research planner ([agents/research_planner.py]) *)

(** A hit of [VectorStoreService.similarity_search]; the store builds no
    [title] key, the researcher reads it with a default. *)
Record VectorHit : Type := {
  hit_text : string;
  hit_title : option string;
  hit_score : Q;
  hit_metadata : list (string * string)
}.

Module ResearchPlannerAgent.

(** What the collaborators answer during one [execute]: the completion for
    the questions prompt, the vector-store preview and the web preview (the
    [domain] entry of each result, when it has one). *)
Record IO : Type := {
  questions_completion : Result string;
  internal_preview : Result (list VectorHit);
  external_preview : Result (list (option string))
}.

(** The test of the parsing loop on one line:
    [line.strip() and (line[0].isdigit() or line.startswith('-'))]. *)
Definition is_item_line (line : string) : bool :=
  match PyStr.strip line with
  | EmptyString => false
  | String _ _ =>
      match line with
      | String c _ => PyStr.isdigit c || PyStr.startswith line "-"
      | EmptyString => false
      end
  end.

(** [line.split('.', 1)[-1].strip()] *)
Definition question_of_line (line : string) : string :=
  PyStr.strip (PyStr.split1_last "." line).

(** The loop over the lines of the response. *)
Fixpoint parse_lines (lines : list string) : list string :=
  match lines with
  | [] => []
  | line :: rest =>
      if is_item_line line then
        let question := question_of_line line in
        if PyStr.endswith_char question "?" then question :: parse_lines rest
        else parse_lines rest
      else parse_lines rest
  end.

(** What [_generate_research_questions] computes from the response. *)
Definition parse_questions (response : string) : list string :=
  firstn 6 (parse_lines (PyStr.split_char (ascii_of_nat 10) (PyStr.strip response))).

Definition _generate_research_questions (io : IO) : Result (list string) :=
  match questions_completion io with
  | Raised e => Raised e
  | Returned response => Returned (parse_questions response)
  end.

Definition _discover_internal_sources (io : IO) : list VectorHit :=
  match internal_preview io with
  | Returned results => results
  | Raised _ => []
  end.

(** [list(set(result.get('domain', 'unknown') for ...))]; only its length
    is used. *)
Definition _preview_external_sources (io : IO) : list string :=
  match external_preview io with
  | Returned search_results =>
      nodup string_dec
        (map (fun d => match d with Some x => x | None => "unknown" end)
             search_results)
  | Raised _ => []
  end.

Definition _estimate_duration (questions : list string) : Z :=
  let base_time := 5 # 1 in
  let complexity_multiplier :=
    if (4 <? List.length questions)%nat then 15 # 10 else 12 # 10 in
  Qfloor (inject_Z (Z.of_nat (List.length questions)) * base_time
          * complexity_multiplier)%Q.

Definition _handle_error (state : ResearchState) (error : string)
    (error_type : string) : ResearchState :=
  let error_info :=
    {| type := error_type; message := error; step := "planning" |} in
  let errors := errors state ++ [error_info] in
  set_current_step ERROR_RECOVERY (set_errors errors state).

Definition execute (state : ResearchState) (io : IO) : ResearchState :=
  let topic := topic state in
  match _generate_research_questions io with
  | Raised e => _handle_error state e "planning_failed"
  | Returned research_questions =>
      let internal_preview := _discover_internal_sources io in
      let external_preview := _preview_external_sources io in
      let plan :=
        {| plan_topic := topic;
           plan_questions := research_questions;
           internal_sources_available := List.length internal_preview;
           external_domains_identified := List.length external_preview;
           estimated_duration_minutes := _estimate_duration research_questions;
           research_strategy := "comprehensive_multi_source" |} in
      set_iteration_count (iteration_count state + 1)
        (set_current_step PLANNING_COMPLETE
           (set_research_questions research_questions
              (set_research_plan (Some plan) state)))
  end.

End ResearchPlannerAgent.

(** ** Ranking: [sorted(sources, key=..., reverse=True)]

    Python's sort is stable also when reversed: entries with equal keys keep
    their order.  The insertion below puts an entry before the first one
    whose key is not strictly greater. *)

Section Ranking.

Variable key : Source -> Q.

Fixpoint insert_desc (x : Source) (l : list Source) : list Source :=
  match l with
  | [] => [x]
  | y :: ys =>
      match Qlt_le_dec (key x) (key y) with
      | left _ => y :: insert_desc x ys
      | right _ => x :: l
      end
  end.

Fixpoint sorted_desc (l : list Source) : list Source :=
  match l with
  | [] => []
  | x :: xs => insert_desc x (sorted_desc xs)
  end.

End Ranking.

(** ** Vector store ([services/vector_store.py]) *)

Module VectorStoreService.

(** What the collection answers to one query: the first entries of
    [documents], [metadatas] and [distances]. *)
Record QueryResult : Type := {
  documents : list string;
  metadatas : list (list (string * string));
  distances : list Q
}.

(** The loop over [enumerate(results['documents'][0])] from position [i];
    [None] is the [IndexError] of a missing distance or metadata entry. *)
Fixpoint process_documents (threshold : Q) (results : QueryResult) (i : nat)
    (docs : list string) : option (list VectorHit) :=
  match docs with
  | [] => Some []
  | doc :: rest =>
      match nth_error (distances results) i with
      | None => None
      | Some distance =>
          let similarity_score := (1 - distance)%Q in
          if Qge_bool similarity_score threshold then
            match metadatas results with
            | [] =>
                option_map
                  (cons {| hit_text := doc; hit_title := None;
                           hit_score := similarity_score; hit_metadata := [] |})
                  (process_documents threshold results (S i) rest)
            | _ :: _ =>
                match nth_error (metadatas results) i with
                | None => None
                | Some metadata0 =>
                    option_map
                      (cons {| hit_text := doc; hit_title := None;
                               hit_score := similarity_score;
                               hit_metadata := metadata0 |})
                      (process_documents threshold results (S i) rest)
                end
            end
          else process_documents threshold results (S i) rest
      end
  end.

(** [similarity_search]: [query] is the embedding call followed by the
    collection query, for a text and a number of results; any exception
    gives the empty list. *)
Definition similarity_search (query : string -> nat -> Result QueryResult)
    (text : string) (k : nat) (threshold : Q) : list VectorHit :=
  match query text k with
  | Raised _ => []
  | Returned results =>
      match process_documents threshold results 0 (documents results) with
      | Some processed_results => processed_results
      | None => []
      end
  end.

End VectorStoreService.

(** ** Internal researcher ([agents/internal_researcher.py]) *)

Module InternalResearchAgent.

(** One [execute]: the result of each per-question task as [gather] returns
    it (position and question), and an exception raised inside the [try]
    block, if any. *)
Record IO : Type := {
  question_results : nat -> string -> Result (list VectorHit);
  failure : option string
}.

Definition source_of_hit (question0 : string) (result : VectorHit) : Source :=
  {| content := hit_text result;
     title := match hit_title result with
              | Some t => t
              | None => "Internal Document - " +:+ question0
              end;
     url := None;
     source_type := "internal";
     relevance_score := hit_score result;
     credibility_score := 9 # 10;
     question := question0;
     metadata := hit_metadata result |}.

(** The collection loop over [enumerate(question_results)]. *)
Definition collect (questions : list string)
    (results : nat -> string -> Result (list VectorHit)) : list Source :=
  flat_map
    (fun iq : nat * string =>
       match results (fst iq) (snd iq) with
       | Raised _ => []
       | Returned hits => map (source_of_hit (snd iq)) hits
       end)
    (enumerate questions).

Section WithHash.

(** Python's [hash] on strings. *)
Variable hash : string -> Z.

Definition content_hash (source : Source) : Z :=
  hash (PyStr.take 200 (content source)).

(** The loop of [_deduplicate_sources], [seen] being [seen_content]. *)
Fixpoint dedup_from (seen : list Z) (sources : list Source) : list Source :=
  match sources with
  | [] => []
  | source :: rest =>
      let h := content_hash source in
      if existsb (Z.eqb h) seen then dedup_from seen rest
      else source :: dedup_from (h :: seen) rest
  end.

Definition _deduplicate_sources (sources : list Source) : list Source :=
  dedup_from [] sources.

(** The step the agent reports: [INTERNAL_RESEARCH] unless the record is
    already at [EXTERNAL_RESEARCH]. *)
Definition reported_step (state : ResearchState) : ResearchStep :=
  if step_eqb (current_step state) EXTERNAL_RESEARCH then RESEARCH_COMPLETE
  else INTERNAL_RESEARCH.

Definition _handle_error (state : ResearchState) (error : string)
    : ResearchState :=
  let error_info :=
    {| type := "internal_research_failed"; message := error;
       step := "internal_research" |} in
  let errors := errors state ++ [error_info] in
  set_current_step (reported_step state)
    (set_errors errors (set_internal_sources [] state)).

Definition execute (state : ResearchState) (io : IO) : ResearchState :=
  match failure io with
  | Some e => _handle_error state e
  | None =>
      let questions := research_questions state in
      let internal_sources := collect questions (question_results io) in
      let internal_sources := _deduplicate_sources internal_sources in
      let internal_sources :=
        firstn 20 (sorted_desc relevance_score internal_sources) in
      set_current_step (reported_step state)
        (set_internal_sources internal_sources state)
  end.

End WithHash.

(** *** The per-question search *)

(** What the collaborators answer during one [_research_question]: the
    completion that expands the query, and the collection. *)
Record SearchIO : Type := {
  expand_completion : Result string;
  query : string -> nat -> Result VectorStoreService.QueryResult
}.

Definition _expand_query (sio : SearchIO) (query0 : string) : string :=
  match expand_completion sio with
  | Returned response => PyStr.strip response
  | Raised _ => query0
  end.

Definition _research_question (sio : SearchIO) (question0 : string)
    : list VectorHit :=
  let expanded_query := _expand_query sio question0 in
  let primary_results :=
    VectorStoreService.similarity_search (query sio) question0 10 (6 # 10) in
  let expanded_results :=
    if String.eqb expanded_query question0 then []
    else VectorStoreService.similarity_search (query sio) expanded_query 5 (5 # 10) in
  primary_results ++ expanded_results.

End InternalResearchAgent.

(** ** External researcher ([agents/external_researcher.py]) *)

(** A processed search result, as [_research_question] returns it. *)
Record SearchHit : Type := {
  sh_content : string;
  sh_title : string;
  sh_url : string;
  sh_relevance_score : option Q;
  sh_credibility_score : option Q;
  sh_metadata : list (string * string)
}.

Module ExternalResearchAgent.

Record IO : Type := {
  question_results : nat -> string -> Result (list SearchHit);
  failure : option string
}.

Definition source_of_hit (question0 : string) (result : SearchHit) : Source :=
  {| content := sh_content result;
     title := sh_title result;
     url := Some (sh_url result);
     source_type := "external";
     relevance_score :=
       match sh_relevance_score result with Some r => r | None => 5 # 10 end;
     credibility_score :=
       match sh_credibility_score result with Some c => c | None => 6 # 10 end;
     question := question0;
     metadata := sh_metadata result |}.

Definition collect (questions : list string)
    (results : nat -> string -> Result (list SearchHit)) : list Source :=
  flat_map
    (fun iq : nat * string =>
       match results (fst iq) (snd iq) with
       | Raised _ => []
       | Returned hits => map (source_of_hit (snd iq)) hits
       end)
    (enumerate questions).

Definition is_quality_source (source : Source) : bool :=
  Qge_bool (relevance_score source) (3 # 10)
  && Qge_bool (credibility_score source) (4 # 10)
  && (200 <=? PyStr.len (content source))%nat.

Definition _filter_quality_sources (sources : list Source) : list Source :=
  filter is_quality_source sources.

Definition rank_key (x : Source) : Q :=
  (credibility_score x * relevance_score x)%Q.

Definition reported_step (state : ResearchState) : ResearchStep :=
  if step_eqb (current_step state) INTERNAL_RESEARCH then RESEARCH_COMPLETE
  else EXTERNAL_RESEARCH.

Definition _handle_error (state : ResearchState) (error : string)
    : ResearchState :=
  let error_info :=
    {| type := "external_research_failed"; message := error;
       step := "external_research" |} in
  let errors := errors state ++ [error_info] in
  set_current_step (reported_step state)
    (set_errors errors (set_external_sources [] state)).

Definition execute (state : ResearchState) (io : IO) : ResearchState :=
  match failure io with
  | Some e => _handle_error state e
  | None =>
      let questions := research_questions state in
      let external_sources := collect questions (question_results io) in
      let external_sources := _filter_quality_sources external_sources in
      let external_sources := firstn 25 (sorted_desc rank_key external_sources) in
      set_current_step (reported_step state)
        (set_external_sources external_sources state)
  end.

(** *** Scoring and the per-question search *)

(** A raw search result: the dict [WebSearchService.search] builds, each key
    read with the default the agent gives it ([None]: the key is missing or
    holds no text). *)
Record RawResult : Type := {
  raw_title : option string;
  raw_url : option string;
  raw_content : option string;
  raw_domain : option string;
  raw_published_date : option string
}.

Definition get_or (default : string) (v : option string) : string :=
  match v with Some x => x | None => default end.

(** [set(text.lower().split())], kept as a list without repeats *)
Definition word_set (text : string) : list string :=
  nodup string_dec (PyStr.split_ws (PyStr.lower text)).

(** [_score_relevance]; [content] is [None] when the page could not be
    fetched ([content.lower()] then raises), and a question without words
    divides by zero: both give the fallback 0.5. *)
Definition _score_relevance (content : option string) (question0 : string) : Q :=
  let question_words := word_set question0 in
  match content with
  | None => 5 # 10
  | Some content =>
      let content_words := word_set content in
      let overlap :=
        List.length
          (filter (fun w => existsb (String.eqb w) content_words) question_words) in
      match question_words with
      | [] => 5 # 10
      | _ :: _ =>
          let relevance :=
            Qmin (inject_Z (Z.of_nat overlap)
                  / inject_Z (Z.of_nat (List.length question_words))) 1 in
          Qmax relevance (1 # 10)
      end
  end.

Definition high_trust : list string :=
  [ "edu"; "gov"; "org"; "ieee"; "acm"; "springer"; "nature"; "science" ].

Definition medium_trust : list string :=
  [ "wikipedia"; "stackoverflow"; "medium"; "github" ].

(** [any(t in domain for t in names)] *)
Definition any_in (names : list string) (domain : string) : bool :=
  existsb (fun t => PyStr.contains t domain) names.

(** [_score_credibility] on a result whose [content] holds a text. *)
Definition _score_credibility (result : RawResult) (content : string) : Q :=
  let credibility := 5 # 10 in
  let domain := PyStr.lower (get_or "" (raw_domain result)) in
  let url := PyStr.lower (get_or "" (raw_url result)) in
  let credibility :=
    if any_in high_trust domain then (credibility + (3 # 10))%Q
    else if any_in medium_trust domain then (credibility + (1 # 10))%Q
    else credibility in
  let credibility :=
    if PyStr.startswith url "https" then (credibility + (1 # 10))%Q
    else credibility in
  let content_length := PyStr.len content in
  let credibility :=
    if (1000 <? content_length)%nat then (credibility + (1 # 10))%Q
    else credibility in
  Qmin credibility 1.

(** [_process_search_result]: [None] is its own [None] (an exception inside:
    no [url] to fetch from, or a page that gave no text, on which
    [_score_credibility] raises).  [extract_content] is the fetch.  The
    [word_count] entry of the metadata is kept as its decimal text. *)
Definition _process_search_result (extract_content : string -> option string)
    (result : RawResult) (question0 : string) : option SearchHit :=
  let content :=
    match raw_content result with
    | Some (String c t) => Some (Some (String c t))
    | _ =>
        match raw_url result with
        | Some u => Some (extract_content u)
        | None => None
        end
    end in
  match content with
  | None => None
  | Some content =>
      let relevance_score := _score_relevance content question0 in
      match content with
      | None => None
      | Some text =>
          let credibility_score := _score_credibility result text in
          Some {| sh_content := text;
                  sh_title := get_or "" (raw_title result);
                  sh_url := get_or "" (raw_url result);
                  sh_relevance_score := Some relevance_score;
                  sh_credibility_score := Some credibility_score;
                  sh_metadata :=
                    [ ("domain", get_or "" (raw_domain result));
                      ("published_date", get_or "" (raw_published_date result));
                      ("word_count",
                       PyStr.of_nat (List.length (PyStr.split_ws text))) ] |}
      end
  end.

(** What the collaborators answer during one [_research_question]:
    [WebSearchService.search] (it returns a list, empty on any failure), the
    page fetch, and the two completions. *)
Record SearchIO : Type := {
  search : string -> nat -> list RawResult;
  extract_content : string -> option string;
  keywords_completion : Result string;
  rephrase_completion : Result string
}.

Definition _extract_keywords (sio : SearchIO) : string :=
  match keywords_completion sio with
  | Returned response => PyStr.strip response
  | Raised _ => EmptyString
  end.

Definition _rephrase_question (sio : SearchIO) (question0 : string) : string :=
  match rephrase_completion sio with
  | Returned response => PyStr.strip response
  | Raised _ => question0
  end.

(** The three search strategies, in order. *)
Definition all_results (sio : SearchIO) (question0 : string) : list RawResult :=
  let direct_results := search sio question0 5 in
  let keywords := _extract_keywords sio in
  let keyword_results :=
    match keywords with
    | EmptyString => []
    | String _ _ => search sio keywords 3
    end in
  let alt_question := _rephrase_question sio question0 in
  let alt_results :=
    if String.eqb alt_question question0 then [] else search sio alt_question 3 in
  direct_results ++ keyword_results ++ alt_results.

(** The processing loop: results whose processing gave [None] are left
    out. *)
Fixpoint processed_results (sio : SearchIO) (question0 : string)
    (results : list RawResult) : list SearchHit :=
  match results with
  | [] => []
  | result :: rest =>
      match _process_search_result (extract_content sio) result question0 with
      | Some processed_result =>
          processed_result :: processed_results sio question0 rest
      | None => processed_results sio question0 rest
      end
  end.

Definition _research_question (sio : SearchIO) (question0 : string)
    : list SearchHit :=
  processed_results sio question0 (all_results sio question0).

End ExternalResearchAgent.

(** ** Quality assessor ([agents/quality_assessor.py]) *)

(** The value of [float(text)]: a finite number, an infinity or a NaN. *)
Inductive PyFloat : Type :=
| Finite (q : Q)
| PosInf
| NegInf
| NaN.

(** [sum(l)] and [sum(l) / len(l)] *)
Definition Qsum (l : list Q) : Q := fold_left Qplus l 0%Q.

Definition Qlen {A : Type} (l : list A) : Q := inject_Z (Z.of_nat (List.length l)).

Definition Qmean (l : list Q) : Q := (Qsum l / Qlen l)%Q.

Module QualityAssessorAgent.

(** One [execute]: the completion answering the coverage prompt of the
    question at a given position. *)
Record IO : Type := {
  coverage_completion : nat -> string -> Result string
}.

Definition _assess_source_diversity (internal_sources external_sources : list Source)
    : Q :=
  let total_sources := (List.length internal_sources + List.length external_sources)%nat in
  if (total_sources =? 0)%nat then 0%Q
  else
    let internal_ratio := (Qlen internal_sources / inject_Z (Z.of_nat total_sources))%Q in
    let ideal_internal := 4 # 10 in
    let internal_score := (1 - Qabs (internal_ratio - ideal_internal) / ideal_internal)%Q in
    let external_domains :=
      nodup string_dec
        (map (fun source =>
                match find (fun kv => String.eqb (fst kv) "domain") (metadata source) with
                | Some kv => snd kv
                | None => "unknown"
                end)
             external_sources) in
    let domain_diversity :=
      Qmin (Qlen external_domains
            / inject_Z (Z.of_nat (Nat.max (List.length external_sources) 1))) 1 in
    let diversity_score := (internal_score * (6 # 10) + domain_diversity * (4 # 10))%Q in
    Qmax 0 (Qmin 1 diversity_score).

(** [[s for s in sources if s["question"] == question]] *)
Definition related_to (question0 : string) (sources : list Source) : list Source :=
  filter (fun s => String.eqb (question s) question0) sources.

Definition indent12 : string := "            ".

(** The text joined from [sources[:5]]. *)
Definition source_texts (sources : list Source) : string :=
  PyStr.join (PyStr.nl +:+ PyStr.nl)
    (map (fun s => "Source: " +:+ PyStr.take 500 (content s) +:+ "...")
         (firstn 5 sources)).

Definition coverage_prompt (question0 : string) (sources : list Source) : string :=
  PyStr.nl +:+
  PyStr.join PyStr.nl
    (map (String.append indent12)
       [ "Question: " +:+ question0;
         "";
         "Available sources:";
         source_texts sources;
         "";
         "Rate how well these sources answer the question on a scale of 0.0 to 1.0:";
         "- 1.0: Question is completely and comprehensively answered";
         "- 0.8: Question is well answered with minor gaps";
         "- 0.6: Question is partially answered";
         "- 0.4: Question is minimally addressed";
         "- 0.2: Question is barely touched upon";
         "- 0.0: Question is not addressed at all";
         "";
         "Provide only a single number between 0.0 and 1.0:";
         "" ]).

(** [max(0.0, min(1.0, score))] with Python's [min] and [max]: the first
    argument is kept unless the second compares strictly smaller (greater);
    every comparison with a NaN is false. *)
Definition clamp01 (score : PyFloat) : Q :=
  match score with
  | Finite q =>
      match Qlt_le_dec q 1 with
      | left _ => match Qlt_le_dec 0 q with left _ => q | right _ => 0%Q end
      | right _ => 1%Q
      end
  | PosInf => 1%Q
  | NegInf => 0%Q
  | NaN => 1%Q
  end.

Section WithFloat.

(** Python's [float] on strings; [None] is its [ValueError]. *)
Variable float : string -> option PyFloat.

(** [completion] answers the one prompt this call sends. *)
Definition _calculate_question_coverage (completion : string -> Result string)
    (question0 : string) (sources : list Source) : Q :=
  match sources with
  | [] => 0%Q
  | _ :: _ =>
      match completion (coverage_prompt question0 sources) with
      | Returned response =>
          match float (PyStr.strip response) with
          | Some score => clamp01 score
          | None => 5 # 10
          end
      | Raised _ =>
          let avg_relevance := Qmean (map relevance_score sources) in
          avg_relevance
      end
  end.

(** The loop of [_assess_content_coverage]; [i] is the position of the
    question. *)
Fixpoint coverage_scores (io : IO) (i : nat) (questions : list string)
    (sources : list Source) : list Q :=
  match questions with
  | [] => []
  | question0 :: rest =>
      let related_sources := related_to question0 sources in
      let score :=
        match related_sources with
        | [] => 0%Q
        | _ :: _ =>
            _calculate_question_coverage (coverage_completion io i) question0
              related_sources
        end in
      score :: coverage_scores io (S i) rest sources
  end.

Definition _assess_content_coverage (io : IO) (questions : list string)
    (sources : list Source) : Q :=
  match questions, sources with
  | [], _ => 0%Q
  | _, [] => 0%Q
  | _, _ => Qmean (coverage_scores io 0 questions sources)
  end.

Definition _assess_source_credibility (sources : list Source) : Q :=
  match sources with
  | [] => 0%Q
  | _ :: _ => Qmean (map credibility_score sources)
  end.

Fixpoint _identify_information_gaps (questions : list string)
    (sources : list Source) : list string :=
  match questions with
  | [] => []
  | question0 :: rest =>
      let related_sources := related_to question0 sources in
      match related_sources with
      | [] => question0 :: _identify_information_gaps rest sources
      | _ :: _ =>
          let total_content :=
            fold_left Nat.add
              (map (fun s => PyStr.len (content s)) related_sources) 0%nat in
          let avg_relevance := Qmean (map relevance_score related_sources) in
          if (total_content <? 1000)%nat || negb (Qge_bool avg_relevance (4 # 10))
          then question0 :: _identify_information_gaps rest sources
          else _identify_information_gaps rest sources
      end
  end.

(** The last step divides by [len(questions)]: with no question it raises
    [ZeroDivisionError]. *)
Definition _assess_research_quality (io : IO) (questions : list string)
    (internal_sources external_sources : list Source) : Result QualityAssessment :=
  let source_diversity := _assess_source_diversity internal_sources external_sources in
  let content_coverage :=
    _assess_content_coverage io questions (internal_sources ++ external_sources) in
  let source_credibility :=
    _assess_source_credibility (internal_sources ++ external_sources) in
  let information_gaps :=
    _identify_information_gaps questions (internal_sources ++ external_sources) in
  match questions with
  | [] => Raised "division by zero"
  | _ :: _ =>
      let overall_score :=
        (source_diversity * (2 # 10)
         + content_coverage * (4 # 10)
         + source_credibility * (3 # 10)
         + (1 - Qlen information_gaps / Qlen questions) * (1 # 10))%Q in
      Returned
        {| source_diversity := source_diversity;
           content_coverage := content_coverage;
           source_credibility := source_credibility;
           information_gaps := information_gaps;
           overall_score := overall_score |}
  end.

Definition _calculate_overall_score (assessment : QualityAssessment) : Q :=
  overall_score assessment.

Definition _handle_error (state : ResearchState) (error : string) : ResearchState :=
  let error_info :=
    {| type := "quality_assessment_failed"; message := error;
       step := "quality_assessment" |} in
  let errors := errors state ++ [error_info] in
  set_current_step QUALITY_ASSESSED
    (set_errors errors
       (set_all_sources (internal_sources state ++ external_sources state)
          (set_quality_score (6 # 10) state))).

Definition execute (state : ResearchState) (io : IO) : ResearchState :=
  let internal_sources := internal_sources state in
  let external_sources := external_sources state in
  let questions := research_questions state in
  match _assess_research_quality io questions internal_sources external_sources with
  | Raised e => _handle_error state e
  | Returned assessment =>
      let overall_score := _calculate_overall_score assessment in
      set_current_step QUALITY_ASSESSED
        (set_all_sources (internal_sources ++ external_sources)
           (set_quality_score overall_score
              (set_quality_assessment (Some assessment) state)))
  end.

End WithFloat.

End QualityAssessorAgent.

(** ** Report section generator ([agents/report_generator.py]) *)

Module ReportGeneratorAgent.

(** One [execute]: what each completion-backed section task yields (keyed
    by section name), and an exception raised inside the [try] block, if
    any. *)
Record IO : Type := {
  section_result : string -> Result string;
  failure : option string
}.

Definition is_type (t : string) (s : Source) : bool :=
  String.eqb (source_type s) t.

(** [enumerate(l, 1)] *)
Definition enumerate1 {A : Type} (l : list A) : list (nat * A) :=
  combine (seq 1 (List.length l)) l.

(** The numbered lines of the internal part. *)
Definition internal_entries (sources : list Source) : list string :=
  let internal_sources := filter (is_type "internal") sources in
  map (fun p : nat * Source =>
         PyStr.of_nat (fst p) +:+ ". " +:+ title (snd p))
      (enumerate1 (firstn 15 internal_sources)).

(** The numbered lines of the external part. *)
Definition external_entries (sources : list Source) : list string :=
  let external_sources := filter (is_type "external") sources in
  map (fun p : nat * Source =>
         let title0 := title (snd p) in
         match url (snd p) with
         | Some (String c u) =>
             PyStr.of_nat (fst p) +:+ ". " +:+ title0
               +:+ ". Retrieved from " +:+ String c u
         | _ => PyStr.of_nat (fst p) +:+ ". " +:+ title0
         end)
      (enumerate1 (firstn 20 external_sources)).

(** The list [references] before it is joined. *)
Definition references_lines (sources : list Source) : list string :=
  (match filter (is_type "internal") sources with
   | [] => []
   | _ :: _ => "## Internal Sources" :: internal_entries sources
   end)
  ++
  (match filter (is_type "external") sources with
   | [] => []
   | _ :: _ => (PyStr.nl +:+ "## External Sources") :: external_entries sources
   end).

Definition _generate_references (sources : list Source) : string :=
  PyStr.join PyStr.nl (references_lines sources).

Definition _handle_insufficient_sources (state : ResearchState) : ResearchState :=
  let topic := topic state in
  let minimal_sections :=
    [ ("executive_summary",
       "Research on '" +:+ topic +:+
       "' was conducted but insufficient sources were found to generate a comprehensive report.");
      ("introduction",
       "This report examines '" +:+ topic +:+
       "'. However, limited source material was available for analysis.");
      ("key_findings",
       "Limited findings available due to insufficient source material.");
      ("detailed_analysis",
       "Unable to provide detailed analysis due to lack of sufficient sources.");
      ("conclusion",
       "This research was limited by insufficient source material. Further investigation with additional resources is recommended.");
      ("references", "No sufficient sources available for citation.") ] in
  set_current_step SECTIONS_GENERATED (set_report_sections minimal_sections state).

Definition _handle_error (state : ResearchState) (error : string) : ResearchState :=
  let error_info :=
    {| type := "report_generation_failed"; message := error;
       step := "report_generation" |} in
  let errors := errors state ++ [error_info] in
  set_current_step ERROR_RECOVERY
    (set_errors errors (set_report_sections [] state)).

(** The five sections written by a completion, in the order of
    [section_tasks]; [references] comes last and is computed. *)
Definition completion_sections : list string :=
  [ "executive_summary"; "introduction"; "key_findings"; "detailed_analysis";
    "conclusion" ].

(** The slot of one section: its text, or the placeholder naming the error. *)
Definition section_slot (section_name : string) (result : Result string)
    : string * string :=
  match result with
  | Raised e => (section_name, "Error generating " +:+ section_name +:+ ": " +:+ e)
  | Returned text => (section_name, text)
  end.

Definition execute (state : ResearchState) (io : IO) : ResearchState :=
  match failure io with
  | Some e => _handle_error state e
  | None =>
      let sources := all_sources state in
      match sources with
      | [] => _handle_insufficient_sources state
      | _ :: _ =>
          let sections :=
            map (fun name => section_slot name (section_result io name))
                completion_sections
            ++ [ section_slot "references" (Returned (_generate_references sources)) ] in
          set_current_step SECTIONS_GENERATED (set_report_sections sections state)
      end
  end.

(** *** What the section prompts are built from *)

(** The bullet the previews start with (U+2022 in UTF-8) and a space. *)
Definition bullet : string :=
  String (ascii_of_nat 226) (String (ascii_of_nat 128) (String (ascii_of_nat 162) " ")).

(** [_extract_key_points] *)
Definition _extract_key_points (sources : list Source) : list string :=
  map (fun source => bullet +:+ PyStr.take 300 (content source) +:+ "...")
      (firstn 10 sources).

(** [_extract_context] *)
Definition _extract_context (sources : list Source) : list string :=
  map (fun source => bullet +:+ PyStr.take 200 (content source) +:+ "...") sources.

(** The lines of [_organize_findings_by_question] for one question. *)
Definition question_findings (sources : list Source) (question0 : string)
    : list string :=
  let related_sources :=
    filter (fun s => String.eqb (question s) question0) sources in
  match related_sources with
  | [] => []
  | _ :: _ =>
      (PyStr.nl +:+ "**" +:+ question0 +:+ "**")
      :: map (fun source => "- " +:+ PyStr.take 200 (content source) +:+ "...")
             (firstn 3 related_sources)
  end.

Definition _organize_findings_by_question (sources : list Source)
    (questions : list string) : string :=
  PyStr.join PyStr.nl (flat_map (question_findings sources) questions).

(** The sort key of [_prepare_analysis_content]. *)
Definition analysis_key (x : Source) : Q :=
  (relevance_score x * credibility_score x)%Q.

(** The sources [_prepare_analysis_content] quotes. *)
Definition analysis_sources (sources : list Source) : list Source :=
  firstn 15 (sorted_desc analysis_key sources).

Definition _prepare_analysis_content (sources : list Source) : string :=
  PyStr.join PyStr.nl
    (flat_map
       (fun source =>
          [ "Source: " +:+ title source;
            "Content: " +:+ PyStr.take 400 (content source) +:+ "...";
            "" ])
       (analysis_sources sources)).

(** The sources [_extract_conclusion_points] quotes. *)
Definition conclusion_sources (sources : list Source) : list Source :=
  firstn 3 (filter (is_type "internal") sources)
  ++ firstn 5 (filter (is_type "external") sources).

Definition _extract_conclusion_points (sources : list Source) : list string :=
  map (fun source => bullet +:+ PyStr.take 250 (content source) +:+ "...")
      (conclusion_sources sources).

End ReportGeneratorAgent.

(** ** Report synthesizer ([agents/report_synthesizer.py]) *)

(** [d[key]] / [key in d] on a dict kept as an association list *)
Definition dict_get (key : string) (d : list (string * string)) : option string :=
  match find (fun kv => String.eqb (fst kv) key) d with
  | Some kv => Some (snd kv)
  | None => None
  end.

(** [str(n)] for an [int] *)
Definition str_of_Z (z : Z) : string := NilEmpty.string_of_int (Z.to_int z).

Module ReportSynthesizerAgent.

(** One [execute]: the completion of the consistency pass, the date
    ([strftime]) and the timestamp ([isoformat]) read from the clock. *)
Record IO : Type := {
  post_process_completion : Result string;
  today : string;
  now : string
}.

Section WithFormat.

(** [f"{x:.2f}"] and [str(x)] on floats, and the seconds between two ISO
    timestamps ([fromisoformat] raises on a malformed one). *)
Variable format_2f : Q -> string.
Variable str_float : Q -> string.
Variable seconds_between : string -> string -> Result Q.

Definition lines (l : list string) : string := PyStr.join PyStr.nl l.

Definition _create_report_header (io : IO) (topic : string) (quality_score : Q)
    (source_count internal_count external_count : nat) : string :=
  let current_date := today io in
  let header :=
    lines
      [ "";
        "# Research Report: " +:+ topic;
        "";
        "**Date:** " +:+ current_date;
        "**Report Quality Score:** " +:+ format_2f quality_score +:+ "/1.00";
        "**Total Sources:** " +:+ PyStr.of_nat source_count +:+ " ("
          +:+ PyStr.of_nat internal_count +:+ " internal, "
          +:+ PyStr.of_nat external_count +:+ " external)";
        "";
        "---";
        "        " ] in
  PyStr.strip header.

(** [state.get("quality_assessment", {})] is [None] when the key holds
    [None]; the first [.get] on it then raises [AttributeError]. *)
Definition _create_metadata_section (state : ResearchState) : Result string :=
  match quality_assessment state with
  | None => Raised "'NoneType' object has no attribute 'get'"
  | Some quality_assessment =>
      let metadata :=
        lines
          [ "";
            "---";
            "";
            "# Research Methodology";
            "";
            "## Quality Assessment";
            "- **Source Diversity:** " +:+ format_2f (source_diversity quality_assessment);
            "- **Content Coverage:** " +:+ format_2f (content_coverage quality_assessment);
            "- **Source Credibility:** " +:+ format_2f (source_credibility quality_assessment);
            "- **Overall Quality Score:** " +:+ format_2f (quality_score state);
            "";
            "## Research Process";
            "- **Research Questions:** " +:+ PyStr.of_nat (List.length (research_questions state));
            "- **Internal Sources Found:** " +:+ PyStr.of_nat (List.length (internal_sources state));
            "- **External Sources Found:** " +:+ PyStr.of_nat (List.length (external_sources state));
            "- **Processing Time:** "
              +:+ match processing_time state with
                  | Some t => str_float t
                  | None => "None"
                  end
              +:+ " seconds";
            "- **Research Iterations:** " +:+ str_of_Z (iteration_count state);
            "";
            "## Information Gaps";
            "" ] in
      let gaps := information_gaps quality_assessment in
      Returned
        (match gaps with
         | [] => metadata +:+ "- No significant information gaps identified" +:+ PyStr.nl
         | _ :: _ =>
             fold_left (fun acc gap => acc +:+ "- " +:+ gap +:+ PyStr.nl) gaps metadata
         end)
  end.

Definition _post_process_report (io : IO) (report : string) : string :=
  if (PyStr.len report <? 3000)%nat then
    match post_process_completion io with
    | Returned response => PyStr.strip response
    | Raised _ => report
    end
  else report.

Definition section_order : list (string * string) :=
  [ ("executive_summary", "Executive Summary");
    ("introduction", "Introduction");
    ("key_findings", "Key Findings");
    ("detailed_analysis", "Detailed Analysis");
    ("conclusion", "Conclusion");
    ("references", "References") ].

(** The parts one entry of [section_order] adds to [report_parts]. *)
Definition section_parts (sections : list (string * string))
    (entry : string * string) : list string :=
  match dict_get (fst entry) sections with
  | Some (String c text) =>
      [ PyStr.nl +:+ "# " +:+ snd entry +:+ PyStr.nl; String c text; PyStr.nl ]
  | _ => []
  end.

Definition _synthesize_report (io : IO) (sections : list (string * string))
    (topic : string) (state : ResearchState) : Result string :=
  let quality_score := quality_score state in
  let source_count := List.length (all_sources state) in
  let internal_count := List.length (internal_sources state) in
  let external_count := List.length (external_sources state) in
  let report_header :=
    _create_report_header io topic quality_score source_count internal_count
      external_count in
  let report_parts := report_header :: flat_map (section_parts sections) section_order in
  match _create_metadata_section state with
  | Raised e => Raised e
  | Returned metadata_section =>
      let report_parts := report_parts ++ [metadata_section] in
      let final_report := lines report_parts in
      Returned (_post_process_report io final_report)
  end.

Definition _calculate_processing_time (start_time : option string)
    (end_time : string) : Q :=
  match start_time, end_time with
  | Some (String c s), String d e =>
      match seconds_between (String c s) (String d e) with
      | Returned t => t
      | Raised _ => 0%Q
      end
  | _, _ => 0%Q
  end.

Definition _handle_empty_sections (state : ResearchState) (io : IO) : ResearchState :=
  let topic := topic state in
  let minimal_report :=
    lines
      [ "";
        "# Research Report: " +:+ topic;
        "";
        "**Date:** " +:+ today io;
        "**Status:** Incomplete - Insufficient Data";
        "";
        "## Summary";
        "Research on '" +:+ topic +:+
        "' was initiated but could not be completed due to insufficient source material or processing errors.";
        "";
        "## Recommendation";
        "Please try the research again with:";
        "- More specific search terms";
        "- Expanded source databases";
        "- Alternative research approaches";
        "";
        "## Technical Details";
        "- Quality Score: " +:+ format_2f (quality_score state);
        "- Sources Found: " +:+ PyStr.of_nat (List.length (all_sources state));
        "- Processing Errors: " +:+ PyStr.of_nat (List.length (errors state));
        "        " ] in
  set_current_step REPORT_COMPLETE
    (set_end_time (Some (now io)) (set_final_report (Some minimal_report) state)).

Definition _handle_error (state : ResearchState) (io : IO) (error : string)
    : ResearchState :=
  let error_info :=
    {| type := "report_synthesis_failed"; message := error;
       step := "report_synthesis" |} in
  let errors := errors state ++ [error_info] in
  let error_report :=
    lines
      [ "";
        "# Research Report: " +:+ topic state;
        "";
        "**Date:** " +:+ today io;
        "**Status:** Failed - Synthesis Error";
        "";
        "## Error Information";
        "An error occurred during report synthesis: " +:+ error;
        "";
        "## Available Data";
        "- Research Questions: " +:+ PyStr.of_nat (List.length (research_questions state));
        "- Sources Found: " +:+ PyStr.of_nat (List.length (all_sources state));
        "- Sections Generated: " +:+ PyStr.of_nat (List.length (report_sections state));
        "";
        "Please try the research again or contact support if the issue persists.";
        "        " ] in
  set_current_step REPORT_COMPLETE
    (set_end_time (Some (now io))
       (set_errors errors (set_final_report (Some error_report) state))).

Definition execute (state : ResearchState) (io : IO) : ResearchState :=
  let sections := report_sections state in
  let topic := topic state in
  match sections with
  | [] => _handle_empty_sections state io
  | _ :: _ =>
      match _synthesize_report io sections topic state with
      | Raised e => _handle_error state io e
      | Returned final_report =>
          let start_time := start_time state in
          let end_time := now io in
          let processing_time := _calculate_processing_time start_time end_time in
          set_current_step REPORT_COMPLETE
            (set_processing_time (Some processing_time)
               (set_end_time (Some end_time)
                  (set_final_report (Some final_report) state)))
      end
  end.

End WithFormat.

End ReportSynthesizerAgent.

(** ** [repr] of a list of strings

    [repr] of a [str] picks double quotes only when the text holds a single
    quote and no double quote, and escapes the backslash, the chosen quote
    and the control characters; bytes above the ASCII range are kept. *)

Module PyRepr.

Definition squote : ascii := ascii_of_nat 39.
Definition dquote : ascii := ascii_of_nat 34.
Definition backslash : ascii := ascii_of_nat 92.

Fixpoint has_char (c : ascii) (s : string) : bool :=
  match s with
  | EmptyString => false
  | String d t => Ascii.eqb c d || has_char c t
  end.

Definition quote_for (s : string) : ascii :=
  if has_char squote s && negb (has_char dquote s) then dquote else squote.

Definition hex_digit (n : nat) : ascii :=
  nth n ["0"; "1"; "2"; "3"; "4"; "5"; "6"; "7"; "8"; "9";
         "a"; "b"; "c"; "d"; "e"; "f"]%char "0"%char.

Definition char1 (c : ascii) : string := String c EmptyString.

Definition escape_char (quote c : ascii) : string :=
  let n := nat_of_ascii c in
  if Ascii.eqb c backslash then String backslash (char1 backslash)
  else if Ascii.eqb c quote then String backslash (char1 quote)
  else if (n =? 10)%nat then String backslash "n"
  else if (n =? 13)%nat then String backslash "r"
  else if (n =? 9)%nat then String backslash "t"
  else if (n <? 32)%nat || (n =? 127)%nat then
    String backslash (String "x" (String (hex_digit (n / 16)) (char1 (hex_digit (n mod 16)))))
  else char1 c.

Fixpoint escape (quote : ascii) (s : string) : string :=
  match s with
  | EmptyString => EmptyString
  | String c t => escape_char quote c +:+ escape quote t
  end.

Definition repr_str (s : string) : string :=
  let q := quote_for s in
  char1 q +:+ escape q s +:+ char1 q.

Definition repr_list (l : list string) : string :=
  "[" +:+ PyStr.join ", " (map repr_str l) +:+ "]".

End PyRepr.

(** ** The workflow ([workflow/research_workflow.py]) *)

Module ResearchWorkflow.

(** The nodes of the graph. *)
Inductive Node : Type :=
| planner
| parallel_research
| quality_assessor
| report_generator
| synthesizer
| error_recovery.

(** What the outside answers while one node runs.  For the research pair:
    the answers to each agent, an exception escaping an agent's task (the
    [gather] result is then that exception), and which agent reaches its
    handler first when both do. *)
Record StepIO : Type := {
  clock_now : string;
  planner_io : ResearchPlannerAgent.IO;
  internal_io : InternalResearchAgent.IO;
  external_io : ExternalResearchAgent.IO;
  internal_escaped : option string;
  external_escaped : option string;
  external_first : bool;
  assessor_io : QualityAssessorAgent.IO;
  generator_io : ReportGeneratorAgent.IO;
  synthesizer_io : ReportSynthesizerAgent.IO
}.

(** A whole run: the answers at each step of the graph and the clock read
    by the top-level guard. *)
Record World : Type := {
  step_io : nat -> StepIO;
  guard_now : string
}.

(** What [workflow.ainvoke] yields: the final record, or an exception
    together with the content of the [errors] list at that moment (the
    handlers append to the list object of the initial record in place). *)
Inductive Invocation : Type :=
| Finished (final_state : ResearchState)
| GraphRaised (e : string) (shared_errors : list ErrorInfo).

Section WithBuiltins.

Variable hash : string -> Z.
Variable float : string -> option PyFloat.
Variable format_2f : Q -> string.
Variable str_float : Q -> string.
Variable seconds_between : string -> string -> Result Q.

(** The graph library stops a run that has not reached [END] within
    [recursion_limit] steps by raising an error with text
    [recursion_error]. *)
Variable recursion_limit : nat.
Variable recursion_error : string.

Definition _planning_node (state : ResearchState) (io : StepIO) : ResearchState :=
  let state := set_current_step PLANNING state in
  let state :=
    match start_time state with
    | Some (String _ _) => state
    | _ => set_start_time (Some (clock_now io)) state
    end in
  ResearchPlannerAgent.execute state (planner_io io).

(** A task of the research pair on the record whose [errors] list is shared:
    its [gather] result and the content of the list afterwards. *)
Definition research_task (escaped : option string)
    (run : ResearchState -> ResearchState) (state : ResearchState)
    : Result ResearchState * list ErrorInfo :=
  match escaped with
  | Some e => (Raised e, errors state)
  | None => let r := run state in (Returned r, errors r)
  end.

(** Lines 81-109: the merge of the two [gather] results into a copy of
    [state]. *)
Definition merge_results (state : ResearchState)
    (internal_result external_result : Result ResearchState) : ResearchState :=
  let merged_state := state in
  let merged_state :=
    match internal_result with
    | Returned r => set_internal_sources (internal_sources r) merged_state
    | Raised e =>
        let merged_state := set_internal_sources [] merged_state in
        let errors :=
          errors merged_state
          ++ [ {| type := "internal_research_failed"; message := e;
                  step := "internal_research" |} ] in
        set_errors errors merged_state
    end in
  let merged_state :=
    match external_result with
    | Returned r => set_external_sources (external_sources r) merged_state
    | Raised e =>
        let merged_state := set_external_sources [] merged_state in
        let errors :=
          errors merged_state
          ++ [ {| type := "external_research_failed"; message := e;
                  step := "external_research" |} ] in
        set_errors errors merged_state
    end in
  set_current_step RESEARCH_COMPLETE merged_state.

(** The two tasks run on the same record; the results and the shared
    [errors] list once both are done. *)
Definition gather_research (state : ResearchState) (io : StepIO)
    : Result ResearchState * Result ResearchState * list ErrorInfo :=
  let internal := fun s => InternalResearchAgent.execute hash s (internal_io io) in
  let external := fun s => ExternalResearchAgent.execute s (external_io io) in
  if external_first io then
    let (external_result, errs) := research_task (external_escaped io) external state in
    let (internal_result, errs) :=
      research_task (internal_escaped io) internal (set_errors errs state) in
    (internal_result, external_result, errs)
  else
    let (internal_result, errs) := research_task (internal_escaped io) internal state in
    let (external_result, errs) :=
      research_task (external_escaped io) external (set_errors errs state) in
    (internal_result, external_result, errs).

Definition _parallel_research_node (state : ResearchState) (io : StepIO)
    : ResearchState :=
  let state := set_current_step INTERNAL_RESEARCH state in
  let '(internal_result, external_result, errs) := gather_research state io in
  merge_results (set_errors errs state) internal_result external_result.

Definition _quality_assessment_node (state : ResearchState) (io : StepIO)
    : ResearchState :=
  let state := set_current_step QUALITY_ASSESSMENT state in
  QualityAssessorAgent.execute float state (assessor_io io).

Definition _report_generation_node (state : ResearchState) (io : StepIO)
    : ResearchState :=
  let state := set_current_step REPORT_GENERATION state in
  ReportGeneratorAgent.execute state (generator_io io).

Definition _synthesis_node (state : ResearchState) (io : StepIO) : ResearchState :=
  let state := set_current_step REPORT_SYNTHESIS state in
  ReportSynthesizerAgent.execute format_2f str_float seconds_between state
    (synthesizer_io io).

Definition _error_recovery_node (state : ResearchState) : ResearchState :=
  let errors := errors state in
  if (5 <? List.length errors)%nat then
    let state :=
      set_final_report
        (Some ("Research failed due to multiple errors: "
               +:+ PyRepr.repr_list (map type errors)))
        state in
    set_current_step REPORT_COMPLETE state
  else state.

(** The function a node runs. *)
Definition run_node (n : Node) (state : ResearchState) (io : StepIO)
    : ResearchState :=
  match n with
  | planner => _planning_node state io
  | parallel_research => _parallel_research_node state io
  | quality_assessor => _quality_assessment_node state io
  | report_generator => _report_generation_node state io
  | synthesizer => _synthesis_node state io
  | error_recovery => _error_recovery_node state
  end.

(** The mapping of the conditional edge. *)
Definition route_target (r : Route) : Node :=
  match r with
  | route_generate_report => report_generator
  | route_retry_research => parallel_research
  | route_replan => planner
  | route_error => error_recovery
  end.

(** The edges of [_create_workflow]; [None] is [END]. *)
Definition successor (n : Node) (state : ResearchState) : option Node :=
  match n with
  | planner => Some parallel_research
  | parallel_research => Some quality_assessor
  | quality_assessor => Some (route_target (_quality_router state))
  | report_generator => Some synthesizer
  | synthesizer => None
  | error_recovery => None
  end.

(** The compiled graph from node [n] at step [k], with [budget] steps
    left. *)
Fixpoint run (budget : nat) (world : World) (k : nat) (n : Node)
    (state : ResearchState) : Invocation :=
  match budget with
  | O => GraphRaised recursion_error (errors state)
  | S budget' =>
      let state' := run_node n state (step_io world k) in
      match successor n state' with
      | None => Finished state'
      | Some n' => run budget' world (S k) n' state'
      end
  end.

(** [self.workflow.ainvoke(initial_state)]: the entry point is the planner. *)
Definition ainvoke (world : World) (initial_state : ResearchState) : Invocation :=
  run recursion_limit world 0 planner initial_state.

Definition execute (world : World) (initial_state : ResearchState) : ResearchState :=
  match ainvoke world initial_state with
  | Finished final_state => final_state
  | GraphRaised e shared_errors =>
      let error_state :=
        set_end_time (Some (guard_now world))
          (set_current_step REPORT_COMPLETE
             (set_errors
                (shared_errors
                 ++ [ {| type := "workflow_execution_failed"; message := e;
                         step := "workflow_execution" |} ])
                (set_final_report (Some ("Workflow execution failed: " +:+ e))
                   initial_state))) in
      error_state
  end.

End WithBuiltins.

End ResearchWorkflow.

(** ** The request handlers ([app.py]) *)

Module App.

(** What a handler hands to the web framework: a file, the plan's JSON, or a
    raised [HTTPException]. *)
Inductive Response : Type :=
| FileResponse (path filename media_type : string)
| PlanResponse (topic0 : string) (plan : option ResearchPlan)
    (questions : list string) (status : string)
| HTTPException (status_code : nat) (detail : string).

(** One request: the [topic] entry of the JSON body ([Raised] when the body
    is no JSON, [None] when the entry is missing), whether the vector store
    holds data, the clock, and the rendering of the Word document. *)
Record RequestIO : Type := {
  body_topic : Result (option string);
  data_loaded : bool;
  request_now : string;
  document : Result string
}.

Section WithFramework.

(** [str(e)] of an [HTTPException] raised with a status and a detail. *)
Variable str_http : nat -> string -> string.

(** [research_workflow.execute] with its collaborators. *)
Variable workflow_execute : ResearchState -> ResearchState.

Definition docx_media_type : string :=
  "application/vnd.openxmlformats-officedocument.wordprocessingml.document".

(** Both handlers wrap their body in [except Exception], which also catches
    the [HTTPException]s raised inside. *)
Definition conduct_research (io : RequestIO) : Response :=
  let failed e := HTTPException 500 ("Research failed: " +:+ e) in
  match body_topic io with
  | Raised e => failed e
  | Returned (Some (String c t)) =>
      let topic0 := String c t in
      if negb (data_loaded io) then
        failed
          (str_http 400
             "No data loaded. Please add PDF files to data folder and restart the application.")
      else
        let initial_state := initial_state topic0 (request_now io) in
        let final_state := workflow_execute initial_state in
        match final_report final_state with
        | Some (String r rs) =>
            match document io with
            | Returned doc_path =>
                let filename :=
                  PyStr.replace_char " " "_" topic0 +:+ "_research_report.docx" in
                FileResponse doc_path filename docx_media_type
            | Raised e => failed e
            end
        | _ => failed (str_http 500 "Failed to generate report")
        end
  | Returned _ => failed (str_http 400 "Topic is required")
  end.

Definition generate_plan (io : RequestIO) (planner_io : ResearchPlannerAgent.IO)
    : Response :=
  let failed e := HTTPException 500 ("Planning failed: " +:+ e) in
  match body_topic io with
  | Raised e => failed e
  | Returned (Some (String c t)) =>
      let topic0 := String c t in
      if negb (data_loaded io) then
        failed (str_http 400 "No data loaded. Please add PDF files to data folder.")
      else
        let initial_state := initial_state topic0 (request_now io) in
        let planned_state := ResearchPlannerAgent.execute initial_state planner_io in
        PlanResponse topic0 (research_plan planned_state)
          (research_questions planned_state) "plan_generated"
  | Returned _ => failed (str_http 400 "Topic is required")
  end.

End WithFramework.

End App.

(** * Statements: predicates and sample inputs *)

(** Some recorded error has a kind in which "critical" occurs. *)
Definition has_critical (errs : list ErrorInfo) : Prop :=
  exists e pre post, In e errs /\ type e = pre +:+ "critical" +:+ post.

(** The route as the priority list of the router reads. *)
Definition routed_by_priority (state : ResearchState) (r : Route) : Prop :=
  (has_critical (errors state) /\ r = route_error)
  \/ (~ has_critical (errors state) /\ 3 <= iteration_count state
      /\ r = route_generate_report)
  \/ (~ has_critical (errors state) /\ iteration_count state < 3
      /\ (7 # 10 <= quality_score state)%Q /\ r = route_generate_report)
  \/ (~ has_critical (errors state) /\ iteration_count state < 3
      /\ (quality_score state < 7 # 10)%Q /\ (4 # 10 <= quality_score state)%Q
      /\ r = route_retry_research)
  \/ (~ has_critical (errors state) /\ iteration_count state < 3
      /\ (quality_score state < 4 # 10)%Q /\ r = route_replan).

Definition state_low : ResearchState :=
  set_iteration_count 3 (initial_state "Quantum Computing Applications" "2024-01-01T00:00:00").

(** The kinds of error the stages record. *)
Definition stage_kinds : list string :=
  [ "planning_failed"; "internal_research_failed"; "external_research_failed";
    "quality_assessment_failed"; "report_generation_failed";
    "report_synthesis_failed" ].

(** [s'] has the errors of [s] followed by entries of the stages' kinds. *)
Definition extends_errors (s s' : ResearchState) : Prop :=
  exists l, errors s' = errors s ++ l
            /\ Forall (fun e => In (type e) stage_kinds) l.

(** No recorded error is critical for the router. *)
Definition no_critical (errs : list ErrorInfo) : Prop :=
  Forall (fun e => is_critical e = false) errs.

(** The record a finished run hands back: at [REPORT_COMPLETE], with a
    report and an end timestamp. *)
Definition terminal (s : ResearchState) : Prop :=
  current_step s = REPORT_COMPLETE
  /\ (exists report, final_report s = Some report)
  /\ (exists t, end_time s = Some t).

(** The entry the top-level guard records for an exception with text [e]. *)
Definition workflow_failure (e : string) : ErrorInfo :=
  {| type := "workflow_execution_failed"; message := e;
     step := "workflow_execution" |}.

(** The entry each research path gets at the fan-in when its task raised. *)
Definition internal_failure (e : string) : ErrorInfo :=
  {| type := "internal_research_failed"; message := e; step := "internal_research" |}.

Definition external_failure (e : string) : ErrorInfo :=
  {| type := "external_research_failed"; message := e; step := "external_research" |}.

(** The entry the planner records for a failure with text [e]. *)
Definition planning_failure (e : string) : ErrorInfo :=
  {| type := "planning_failed"; message := e; step := "planning" |}.

(** The entry the assessor records for a failure with text [e]. *)
Definition assessment_failure (e : string) : ErrorInfo :=
  {| type := "quality_assessment_failed"; message := e; step := "quality_assessment" |}.

(** Two records that differ at most in [final_report] and [current_step]. *)
Definition same_but_report_and_step (s s' : ResearchState) : Prop :=
  topic s' = topic s
  /\ research_plan s' = research_plan s
  /\ research_questions s' = research_questions s
  /\ internal_sources s' = internal_sources s
  /\ external_sources s' = external_sources s
  /\ all_sources s' = all_sources s
  /\ quality_assessment s' = quality_assessment s
  /\ quality_score s' = quality_score s
  /\ report_sections s' = report_sections s
  /\ iteration_count s' = iteration_count s
  /\ errors s' = errors s
  /\ start_time s' = start_time s
  /\ end_time s' = end_time s
  /\ processing_time s' = processing_time s.

(** What the research pair adds to [errors] in one pass: the entries of the
    agents' own handlers, in the order the handlers ran, then the entries the
    fan-in writes for a task that raised. *)
Definition internal_handled (io : ResearchWorkflow.StepIO) : list ErrorInfo :=
  match ResearchWorkflow.internal_escaped io,
        InternalResearchAgent.failure (ResearchWorkflow.internal_io io) with
  | None, Some e => [internal_failure e]
  | _, _ => []
  end.

Definition external_handled (io : ResearchWorkflow.StepIO) : list ErrorInfo :=
  match ResearchWorkflow.external_escaped io,
        ExternalResearchAgent.failure (ResearchWorkflow.external_io io) with
  | None, Some e => [external_failure e]
  | _, _ => []
  end.

Definition fan_in_errors (io : ResearchWorkflow.StepIO) : list ErrorInfo :=
  (if ResearchWorkflow.external_first io
   then external_handled io ++ internal_handled io
   else internal_handled io ++ external_handled io)
  ++ match ResearchWorkflow.internal_escaped io with
     | Some e => [internal_failure e]
     | None => []
     end
  ++ match ResearchWorkflow.external_escaped io with
     | Some e => [external_failure e]
     | None => []
     end.

(** The first 200 characters of a source's content. *)
Definition prefix200 (s : Source) : string := PyStr.take 200 (content s).

(** [a] may stand before [b] in a ranking by [key], highest first. *)
Definition desc_by (key : Source -> Q) (a b : Source) : Prop :=
  (key b <= key a)%Q.

(** [x] stands in [l] with no earlier entry of the same content hash. *)
Definition first_with_hash (hash : string -> Z) (l : list Source) (x : Source)
    : Prop :=
  exists l1 l2,
    l = l1 ++ x :: l2
    /\ ~ In (InternalResearchAgent.content_hash hash x)
            (map (InternalResearchAgent.content_hash hash) l1).

(** [x] stands in [l] with no earlier entry of the same first 200
    characters. *)
Definition first_with_prefix (l : list Source) (x : Source) : Prop :=
  exists l1 l2, l = l1 ++ x :: l2 /\ ~ In (prefix200 x) (map prefix200 l1).



(** *** Sample inputs *)

(** [float] on plain decimal literals (an optional sign, digits, an optional
    fraction) and on the words [nan], [inf] and [-inf]; any other text is a
    [ValueError]. *)
Fixpoint all_digits (s : string) : bool :=
  match s with
  | EmptyString => true
  | String c t => PyStr.isdigit c && all_digits t
  end.

Fixpoint digits_value (acc : Z) (s : string) : Z :=
  match s with
  | EmptyString => acc
  | String c t => digits_value (acc * 10 + (Z.of_nat (nat_of_ascii c) - 48)) t
  end.

Fixpoint before_first (sep : ascii) (s : string) : string :=
  match s with
  | EmptyString => EmptyString
  | String c t => if Ascii.eqb c sep then EmptyString else String c (before_first sep t)
  end.

Definition unsigned_decimal (s : string) : option Q :=
  let whole := before_first "." s in
  let fraction :=
    match PyStr.after_first "." s with Some f => f | None => EmptyString end in
  if all_digits whole && all_digits fraction
     && (0 <? String.length whole + String.length fraction)%nat
  then Some (digits_value 0 (whole +:+ fraction)
             # Z.to_pos (10 ^ Z.of_nat (String.length fraction)))
  else None.

Definition sample_float (s : string) : option PyFloat :=
  if String.eqb s "nan" then Some NaN
  else if String.eqb s "inf" then Some PosInf
  else if String.eqb s "-inf" then Some NegInf
  else match s with
       | String "-" t => option_map (fun q => Finite (- q)) (unsigned_decimal t)
       | _ => option_map Finite (unsigned_decimal s)
       end.

(** A run record for the topic of the specification's scenarios. *)
Definition sample_state : ResearchState :=
  initial_state "Quantum Computing Applications" "2024-05-01T09:00:00".

(** The completion provider is down. *)
Definition planner_io_down : ResearchPlannerAgent.IO :=
  {| ResearchPlannerAgent.questions_completion :=
       Raised "OpenAI API error: Connection error.";
     ResearchPlannerAgent.internal_preview := Returned [];
     ResearchPlannerAgent.external_preview := Returned [] |}.

(** The completion holds three numbered questions. *)
Definition three_questions : string :=
  "1. What problems can quantum computers solve today?" +:+ PyStr.nl +:+
  "2. Which industries invest in quantum computing?" +:+ PyStr.nl +:+
  "3. What limits current quantum hardware?".

Definition planner_io_three : ResearchPlannerAgent.IO :=
  {| ResearchPlannerAgent.questions_completion := Returned three_questions;
     ResearchPlannerAgent.internal_preview := Returned [];
     ResearchPlannerAgent.external_preview := Returned [] |}.

(** One question with one attributed source of relevance 0.9, and a
    completion that answers the coverage prompt with a word. *)
Definition sample_question : string := "What limits current quantum hardware?".

Definition sample_source : Source :=
  {| content := "Decoherence and gate errors limit the depth of circuits.";
     title := "Internal Document - " +:+ sample_question;
     url := None;
     source_type := "internal";
     relevance_score := 9 # 10;
     credibility_score := 9 # 10;
     question := sample_question;
     metadata := [] |}.

Definition completion_word : string -> Result string :=
  fun _ => Returned "high".

(** The assessor's completions all fail. *)
Definition assessor_io_down : QualityAssessorAgent.IO :=
  {| QualityAssessorAgent.coverage_completion :=
       fun _ _ => Raised "OpenAI API error: Connection error." |}.

(** [f"{x:.2f}"], rounding the exact value to the nearest hundredth. *)
Definition sample_format_2f (q : Q) : string :=
  let n := Qfloor (q * 100 + (1 # 2))%Q in
  let a := Z.abs n in
  let cents := a mod 100 in
  (if n <? 0 then "-" else "")
  +:+ str_of_Z (a / 100) +:+ "."
  +:+ (if cents <? 10 then "0" else "") +:+ str_of_Z cents.

(** Timestamps that [fromisoformat] rejects. *)
Definition sample_seconds_between (start_time end_time : string) : Result Q :=
  Raised ("Invalid isoformat string: '" +:+ start_time +:+ "'").

(** A content hash for the examples. *)
Definition sample_hash (s : string) : Z := digits_value 0 s.

Definition no_internal_hits : InternalResearchAgent.IO :=
  {| InternalResearchAgent.question_results := fun _ _ => Returned [];
     InternalResearchAgent.failure := None |}.

Definition no_external_hits : ExternalResearchAgent.IO :=
  {| ExternalResearchAgent.question_results := fun _ _ => Returned [];
     ExternalResearchAgent.failure := None |}.

Definition generator_io_down : ReportGeneratorAgent.IO :=
  {| ReportGeneratorAgent.section_result :=
       fun _ => Raised "OpenAI API error: Connection error.";
     ReportGeneratorAgent.failure := None |}.

Definition synthesizer_io_down : ReportSynthesizerAgent.IO :=
  {| ReportSynthesizerAgent.post_process_completion :=
       Raised "OpenAI API error: Connection error.";
     ReportSynthesizerAgent.today := "May 01, 2024";
     ReportSynthesizerAgent.now := "clock" |}.

(** Every completion fails and the providers find nothing. *)
Definition step_down : ResearchWorkflow.StepIO :=
  {| ResearchWorkflow.clock_now := "clock";
     ResearchWorkflow.planner_io := planner_io_down;
     ResearchWorkflow.internal_io := no_internal_hits;
     ResearchWorkflow.external_io := no_external_hits;
     ResearchWorkflow.internal_escaped := None;
     ResearchWorkflow.external_escaped := None;
     ResearchWorkflow.external_first := false;
     ResearchWorkflow.assessor_io := assessor_io_down;
     ResearchWorkflow.generator_io := generator_io_down;
     ResearchWorkflow.synthesizer_io := synthesizer_io_down |}.

Definition world_down : ResearchWorkflow.World :=
  {| ResearchWorkflow.step_io := fun _ => step_down;
     ResearchWorkflow.guard_now := "clock" |}.

(** The planner's completion answers; the providers still find nothing. *)
Definition step_no_sources : ResearchWorkflow.StepIO :=
  {| ResearchWorkflow.clock_now := "clock";
     ResearchWorkflow.planner_io := planner_io_three;
     ResearchWorkflow.internal_io := no_internal_hits;
     ResearchWorkflow.external_io := no_external_hits;
     ResearchWorkflow.internal_escaped := None;
     ResearchWorkflow.external_escaped := None;
     ResearchWorkflow.external_first := false;
     ResearchWorkflow.assessor_io := assessor_io_down;
     ResearchWorkflow.generator_io := generator_io_down;
     ResearchWorkflow.synthesizer_io := synthesizer_io_down |}.

Definition world_no_sources : ResearchWorkflow.World :=
  {| ResearchWorkflow.step_io := fun _ => step_no_sources;
     ResearchWorkflow.guard_now := "clock" |}.

(** The entry point with the sample builtins and the library's default
    limit of 25 steps. *)
Definition sample_execute (world : ResearchWorkflow.World)
    (initial : ResearchState) : ResearchState :=
  ResearchWorkflow.execute sample_hash sample_float sample_format_2f
    sample_format_2f sample_seconds_between 25
    "Recursion limit of 25 reached without hitting a stop condition." world initial.

(** A record that already holds an error of a critical kind. *)
Definition state_with_critical : ResearchState :=
  set_errors
    [ {| type := "critical_provider_outage"; message := "vector store unreachable";
         step := "startup" |} ]
    sample_state.

(** *** Statements about the code beside the claims *)

(** [s'] agrees with [s] on what only the planner writes. *)
Definition same_plan (s s' : ResearchState) : Prop :=
  topic s' = topic s
  /\ research_plan s' = research_plan s
  /\ research_questions s' = research_questions s
  /\ iteration_count s' = iteration_count s.

(** A numbered item of a completion: a label that starts with a digit and
    holds neither a full stop nor a line break, and a question without
    surrounding whitespace or line break that ends in a question mark. *)
Definition label_ok (label : string) : bool :=
  match label with
  | String c _ =>
      PyStr.isdigit c && negb (PyRepr.has_char "." label)
      && negb (PyRepr.has_char (ascii_of_nat 10) label)
  | EmptyString => false
  end.

Definition question_ok (q : string) : bool :=
  String.eqb (PyStr.strip q) q && PyStr.endswith_char q "?"
  && negb (PyRepr.has_char (ascii_of_nat 10) q).

Definition item_ok (item : string * string) : bool :=
  label_ok (fst item) && question_ok (snd item).

(** Label and question are ASCII text. *)
Definition item_ascii (item : string * string) : bool :=
  PyStr.is_ascii (fst item) && PyStr.is_ascii (snd item).

(** The line [label. question] and the completion made of such lines. *)
Definition numbered_line (item : string * string) : string :=
  fst item +:+ ". " +:+ snd item.

Definition numbered_list (items : list (string * string)) : string :=
  PyStr.join PyStr.nl (map numbered_line items).

(** The sources whose ranking key equals [v]. *)
Definition with_key (key : Source -> Q) (v : Q) (l : list Source) : list Source :=
  filter (fun x => Qeq_bool (key x) v) l.

(** A record with one question, and a pass in which its task finds one
    hit. *)
Definition state_one_question : ResearchState :=
  set_research_questions [sample_question] sample_state.

Definition sample_hit : VectorHit :=
  {| hit_text := "Decoherence and gate errors limit the depth of circuits.";
     hit_title := None;
     hit_score := 8 # 10;
     hit_metadata := [("filename", "hardware.pdf")] |}.

Definition internal_io_one : InternalResearchAgent.IO :=
  {| InternalResearchAgent.question_results := fun _ _ => Returned [sample_hit];
     InternalResearchAgent.failure := None |}.

(** A score between 0 and 1. *)
Definition unit_score (q : Q) : Prop := (0 <= q)%Q /\ (q <= 1)%Q.

(** The relevance and credibility of every source are between 0 and 1. *)
Definition scores_bounded (sources : list Source) : Prop :=
  Forall (fun x => unit_score (relevance_score x) /\ unit_score (credibility_score x))
    sources.

(** The questions a planner invocation would store on a record that holds
    none: those parsed from the completion, or none when it fails. *)
Definition planned_questions (io : ResearchPlannerAgent.IO) : list string :=
  match ResearchPlannerAgent.questions_completion io with
  | Returned response => ResearchPlannerAgent.parse_questions response
  | Raised _ => []
  end.

(** The entry the synthesizer records for a failure with text [e]. *)
Definition synthesis_failure (e : string) : ErrorInfo :=
  {| type := "report_synthesis_failed"; message := e; step := "report_synthesis" |}.

(** The names of the six sections, in the order the generator fills them. *)
Definition six_sections : list string :=
  [ "executive_summary"; "introduction"; "key_findings"; "detailed_analysis";
    "conclusion"; "references" ].


(** The text a section holds after a pass: the task's text, or the
    placeholder that names its error. *)
Definition section_text (io : ReportGeneratorAgent.IO) (name : string) : string :=
  match ReportGeneratorAgent.section_result io name with
  | Returned text => text
  | Raised e => "Error generating " +:+ name +:+ ": " +:+ e
  end.

(** A request for the sample topic with data loaded and a document
    rendered, and [str] of an [HTTPException] as the framework prints it. *)
Definition sample_request : App.RequestIO :=
  {| App.body_topic := Returned (Some "Quantum Computing Applications");
     App.data_loaded := true;
     App.request_now := "2024-05-01T09:00:00";
     App.document := Returned "reports/report.docx" |}.

Definition sample_str_http (status_code : nat) (detail : string) : string :=
  PyStr.of_nat status_code +:+ ": " +:+ detail.

(** A page of more than 200 characters on the sample question, the raw
    search result that carries it, and a search service that knows only this
    result while both completions fail. *)
Definition sample_page : string :=
  "Decoherence limits current quantum processors: qubits lose their state within microseconds, gate errors accumulate with circuit depth, and error correction needs thousands of physical qubits for each logical qubit, which no hardware offers today.".

Definition sample_raw : ExternalResearchAgent.RawResult :=
  {| ExternalResearchAgent.raw_title := Some "Limits of quantum hardware";
     ExternalResearchAgent.raw_url := Some "https://www.nature.com/articles/quantum-limits";
     ExternalResearchAgent.raw_content := Some sample_page;
     ExternalResearchAgent.raw_domain := Some "nature.com";
     ExternalResearchAgent.raw_published_date := None |}.

Definition sample_search_io : ExternalResearchAgent.SearchIO :=
  {| ExternalResearchAgent.search := fun _ max_results => firstn max_results [sample_raw];
     ExternalResearchAgent.extract_content := fun _ => None;
     ExternalResearchAgent.keywords_completion :=
       Raised "OpenAI API error: Connection error.";
     ExternalResearchAgent.rephrase_completion :=
       Raised "OpenAI API error: Connection error." |}.

(** The hit the search of the sample question builds from [sample_raw]:
    three of the five words of the question occur in the page, and the
    domain is trusted and served over HTTPS. *)
Definition sample_search_hit : SearchHit :=
  {| sh_content := sample_page;
     sh_title := "Limits of quantum hardware";
     sh_url := "https://www.nature.com/articles/quantum-limits";
     sh_relevance_score := Some (3 # 5);
     sh_credibility_score := Some (900 # 1000);
     sh_metadata :=
       [ ("domain", "nature.com"); ("published_date", ""); ("word_count", "34") ] |}.

Definition external_io_one : ExternalResearchAgent.IO :=
  {| ExternalResearchAgent.question_results := fun _ _ => Returned [sample_search_hit];
     ExternalResearchAgent.failure := None |}.

(** A record that reaches the assessor with one question and one internal
    source, and one that reaches it at the iteration cap. *)
Definition state_one_source : ResearchState :=
  set_internal_sources [sample_source] state_one_question.

Definition state_at_cap : ResearchState := set_iteration_count 3 sample_state.

Definition sample_limit_error : string :=
  "Recursion limit of 25 reached without hitting a stop condition.".

(** *** Characters and bytes *)

(** The letter e with an acute accent: one character, two bytes. *)
Definition e_acute : string :=
  String (ascii_of_nat 195) (String (ascii_of_nat 169) EmptyString).

(** A text of [n] accented letters and a closing text. *)
Fixpoint accented (n : nat) (closing : string) : string :=
  match n with
  | O => closing
  | S n' => e_acute +:+ accented n' closing
  end.

Definition accented_source (closing : string) : Source :=
  {| content := accented 100 closing;
     title := "Internal Document";
     url := None;
     source_type := "internal";
     relevance_score := 8 # 10;
     credibility_score := 9 # 10;
     question := "What limits current quantum hardware?";
     metadata := [] |}.

(** *** The report of a run *)

(** The header line of the reports the synthesizer writes about a topic. *)
Definition report_header (topic0 : string) : string :=
  "# Research Report: " +:+ topic0.






(** * Properties *)

(** ** Strings *)

Lemma prefix_app (p s : string) :
  String.prefix p s = true <-> exists t, s = p +:+ t.
Proof.
  revert s; induction p as [|c p IH]; intros s.
  - split; [intros _; now exists s | intros _; now destruct s].
  - destruct s as [|d s]; simpl.
    + split; [discriminate | intros [t Ht]; discriminate].
    + destruct (ascii_dec c d) as [->|Hcd].
      * rewrite IH. split; intros [t Ht]; exists t; [now rewrite Ht | congruence].
      * split; [discriminate | intros [t Ht]; congruence].
Qed.

(** [contains sub s] holds exactly when [sub] occurs in [s]. *)
Lemma contains_occurs (sub s : string) :
  PyStr.contains sub s = true <-> exists pre post, s = pre +:+ sub +:+ post.
Proof.
  induction s as [|c s IH]; cbn [PyStr.contains].
  - rewrite orb_false_r, prefix_app. split.
    + intros [t Ht]. now exists EmptyString, t.
    + intros [pre [post H]]. destruct pre; simpl in H.
      * now exists post.
      * discriminate.
  - rewrite orb_true_iff, prefix_app, IH. split.
    + intros [[t Ht] | [pre [post H]]].
      * now exists EmptyString, t.
      * exists (String c pre), post. simpl. now rewrite H.
    + intros [pre [post H]]. destruct pre as [|d pre]; simpl in H.
      * left. now exists post.
      * right. exists pre, post. congruence.
Qed.

(** Characters are counted, not bytes: a text has at most as many
    characters as bytes, and as many as its parts together. *)
Lemma len_le_length (s : string) : (PyStr.len s <= String.length s)%nat.
Proof.
  induction s as [|c s IH]; simpl; [lia|].
  destruct (PyStr.is_continuation c); lia.
Qed.

Lemma len_append (a b : string) :
  PyStr.len (a +:+ b) = (PyStr.len a + PyStr.len b)%nat.
Proof.
  induction a as [|c a IH]; simpl; [reflexivity|].
  destruct (PyStr.is_continuation c); now rewrite IH.
Qed.

Lemma take_len (s : string) :
  forall n, PyStr.len (PyStr.take n s) = Nat.min n (PyStr.len s).
Proof.
  induction s as [|c s IH]; intros n; simpl; [now rewrite Nat.min_0_r|].
  destruct (PyStr.is_continuation c) eqn:E.
  - simpl. rewrite E. apply IH.
  - destruct n as [|n]; [reflexivity|]. simpl. rewrite E. now rewrite IH.
Qed.

Lemma take_len_le (n : nat) (s : string) : (PyStr.len (PyStr.take n s) <= n)%nat.
Proof. rewrite take_len. apply Nat.le_min_l. Qed.

(** A slice of 200 characters keeps a text of 100 accented letters and one
    more letter whole, although it has 201 bytes: two such contents that
    differ in the last letter have different prefixes, and deduplication
    keeps both. *)
Example take_counts_characters :
  PyStr.len (accented 100 "A") = 101%nat
  /\ String.length (accented 100 "A") = 201%nat
  /\ PyStr.take 200 (accented 100 "A") = accented 100 "A"
  /\ prefix200 (accented_source "A") <> prefix200 (accented_source "B")
  /\ InternalResearchAgent._deduplicate_sources sample_hash
       [accented_source "A"; accented_source "B"]
     = [accented_source "A"; accented_source "B"].
Proof.
  split; [reflexivity|]. split; [reflexivity|]. split; [reflexivity|].
  split; [|reflexivity]. vm_compute. discriminate.
Qed.

(** ** The quality router *)

Lemma filter_critical_nonempty (errs : list ErrorInfo) :
  filter is_critical errs <> [] <-> has_critical errs.
Proof.
  split.
  - intros H. destruct (filter is_critical errs) as [|e l] eqn:E; [congruence|].
    assert (Hin : In e (filter is_critical errs)) by (rewrite E; now left).
    apply filter_In in Hin. destruct Hin as [Hin Hc].
    apply contains_occurs in Hc. destruct Hc as [pre [post Hc]].
    now exists e, pre, post.
  - intros [e [pre [post [Hin Ht]]]] E.
    assert (Hc : is_critical e = true).
    { unfold is_critical. apply contains_occurs. now exists pre, post. }
    assert (Hf : In e (filter is_critical errs)) by (apply filter_In; auto).
    rewrite E in Hf. exact Hf.
Qed.

Lemma Qge_bool_iff (a b : Q) : Qge_bool a b = true <-> (b <= a)%Q.
Proof. unfold Qge_bool. apply Qle_bool_iff. Qed.

Lemma Qge_bool_false (a b : Q) : Qge_bool a b = false <-> (a < b)%Q.
Proof.
  split; intros H.
  - apply Qnot_le_lt. intros Hle. apply Qge_bool_iff in Hle. congruence.
  - destruct (Qge_bool a b) eqn:E; [|reflexivity].
    apply Qge_bool_iff in E. exfalso. exact (Qlt_not_le _ _ H E).
Qed.

Lemma Qge_bool_compat (a a' b : Q) : (a == a')%Q -> Qge_bool a b = Qge_bool a' b.
Proof.
  intros H. destruct (Qge_bool a' b) eqn:E.
  - apply Qge_bool_iff. apply Qge_bool_iff in E. now rewrite H.
  - apply Qge_bool_false. apply Qge_bool_false in E. now rewrite H.
Qed.

Lemma quality_router_cases (state : ResearchState) :
  routed_by_priority state (_quality_router state).
Proof.
  unfold routed_by_priority, _quality_router.
  destruct (filter is_critical (errors state)) as [|e l] eqn:E.
  - assert (Hn : ~ has_critical (errors state)).
    { intros H. apply filter_critical_nonempty in H. congruence. }
    right. destruct (iteration_count state >=? 3) eqn:Hi.
    + left. repeat split; auto. apply Z.geb_le in Hi. lia.
    + right. assert (iteration_count state < 3).
      { rewrite Z.geb_leb in Hi. apply Z.leb_gt in Hi. lia. }
      destruct (Qge_bool (quality_score state) (7 # 10)) eqn:H7.
      * left. repeat split; auto. now apply Qge_bool_iff.
      * right. apply Qge_bool_false in H7.
        destruct (Qge_bool (quality_score state) (4 # 10)) eqn:H4.
        -- left. repeat split; auto. now apply Qge_bool_iff.
        -- right. apply Qge_bool_false in H4. repeat split; auto.
  - left. split; [|reflexivity].
    apply filter_critical_nonempty. congruence.
Qed.

(** C1. The quality router returns one of the four routes, fixed by the
    errors, the iteration count and the quality score alone, in this order
    of priority: [error] when "critical" occurs in the kind of a recorded
    error; else [generate_report] when the iteration count is at least 3,
    whatever the score; else [generate_report] for a score of at least 0.7,
    [retry_research] for a score of at least 0.4 and [replan] below.  Two
    records that agree on the three fields get the same route. *)
Theorem quality_router_priority (s1 s2 : ResearchState)
    (He : errors s1 = errors s2)
    (Hi : iteration_count s1 = iteration_count s2)
    (Hq : (quality_score s1 == quality_score s2)%Q) :
  _quality_router s1 = _quality_router s2
  /\ routed_by_priority s1 (_quality_router s1)
  /\ In (route_name (_quality_router s1))
        ["generate_report"; "retry_research"; "replan"; "error"]
  /\ (3 <= iteration_count s1 -> ~ has_critical (errors s1) ->
      _quality_router s1 = route_generate_report).
Proof.
  split; [|split; [apply quality_router_cases|split]].
  - unfold _quality_router. rewrite He, Hi.
    rewrite (Qge_bool_compat _ _ (7 # 10) Hq), (Qge_bool_compat _ _ (4 # 10) Hq).
    reflexivity.
  - destruct (_quality_router s1); simpl; auto.
  - intros H3 Hn. unfold _quality_router.
    destruct (filter is_critical (errors s1)) as [|e l] eqn:E.
    + assert ((iteration_count s1 >=? 3) = true) as -> by (apply Z.geb_le; lia).
      reflexivity.
    + exfalso. apply Hn. apply filter_critical_nonempty. congruence.
Qed.

Lemma quality_router_priority_witness :
  _quality_router state_low = _quality_router state_low
  /\ routed_by_priority state_low (_quality_router state_low)
  /\ In (route_name (_quality_router state_low))
        ["generate_report"; "retry_research"; "replan"; "error"]
  /\ (3 <= iteration_count state_low -> ~ has_critical (errors state_low) ->
      _quality_router state_low = route_generate_report).
Proof.
  apply (quality_router_priority state_low state_low);
    [reflexivity | reflexivity | apply Qeq_refl].
Defined.

(** ** Errors are only appended, with the stages' kinds *)

Lemma extends_errors_refl (s s' : ResearchState) :
  errors s' = errors s -> extends_errors s s'.
Proof. intros H. exists []. rewrite app_nil_r. split; [exact H | constructor]. Qed.

Lemma extends_errors_one (s s' : ResearchState) (e : ErrorInfo) :
  errors s' = errors s ++ [e] -> In (type e) stage_kinds -> extends_errors s s'.
Proof. intros H Hk. exists [e]. split; [exact H | now constructor]. Qed.

Lemma extends_errors_trans (s1 s2 s3 : ResearchState) :
  extends_errors s1 s2 -> extends_errors s2 s3 -> extends_errors s1 s3.
Proof.
  intros [l1 [H1 F1]] [l2 [H2 F2]]. exists (l1 ++ l2). split.
  - now rewrite H2, H1, app_assoc.
  - apply Forall_app. now split.
Qed.

Lemma stage_kind_not_critical (e : ErrorInfo) :
  In (type e) stage_kinds -> is_critical e = false.
Proof.
  unfold is_critical, stage_kinds. simpl.
  intros [H|[H|[H|[H|[H|[H|[]]]]]]]; rewrite <- H; reflexivity.
Qed.

Lemma extends_no_critical (s s' : ResearchState) :
  extends_errors s s' -> no_critical (errors s) -> no_critical (errors s').
Proof.
  intros [l [H F]] Hn. unfold no_critical. rewrite H. apply Forall_app. split; auto.
  eapply Forall_impl; [|exact F]. intros e. apply stage_kind_not_critical.
Qed.

Lemma no_critical_filter (errs : list ErrorInfo) :
  no_critical errs -> filter is_critical errs = [].
Proof.
  induction 1 as [|e l He _ IH]; simpl; [reflexivity|]. now rewrite He.
Qed.

Lemma no_critical_route (s : ResearchState) :
  no_critical (errors s) -> _quality_router s <> route_error.
Proof.
  intros H. unfold _quality_router. rewrite (no_critical_filter _ H).
  destruct (iteration_count s >=? 3); [discriminate|].
  destruct (Qge_bool (quality_score s) (7 # 10)); [discriminate|].
  destruct (Qge_bool (quality_score s) (4 # 10)); discriminate.
Qed.

(** *** What each stage does to [errors] and [iteration_count] *)

Lemma planner_errors (s : ResearchState) (io : ResearchPlannerAgent.IO) :
  extends_errors s (ResearchPlannerAgent.execute s io).
Proof.
  unfold ResearchPlannerAgent.execute, ResearchPlannerAgent._generate_research_questions.
  destruct (ResearchPlannerAgent.questions_completion io).
  - now apply extends_errors_refl.
  - eapply extends_errors_one; [reflexivity|]. simpl. auto.
Qed.

Lemma internal_errors (hash : string -> Z) (s : ResearchState)
    (io : InternalResearchAgent.IO) :
  extends_errors s (InternalResearchAgent.execute hash s io).
Proof.
  unfold InternalResearchAgent.execute.
  destruct (InternalResearchAgent.failure io).
  - eapply extends_errors_one; [reflexivity|]. simpl. auto.
  - now apply extends_errors_refl.
Qed.

Lemma external_errors (s : ResearchState) (io : ExternalResearchAgent.IO) :
  extends_errors s (ExternalResearchAgent.execute s io).
Proof.
  unfold ExternalResearchAgent.execute.
  destruct (ExternalResearchAgent.failure io).
  - eapply extends_errors_one; [reflexivity|]. simpl. auto 7.
  - now apply extends_errors_refl.
Qed.

Lemma assessor_errors (float : string -> option PyFloat) (s : ResearchState)
    (io : QualityAssessorAgent.IO) :
  extends_errors s (QualityAssessorAgent.execute float s io).
Proof.
  unfold QualityAssessorAgent.execute.
  destruct (QualityAssessorAgent._assess_research_quality _ _ _ _ _).
  - now apply extends_errors_refl.
  - eapply extends_errors_one; [reflexivity|]. simpl. auto 7.
Qed.

Lemma generator_errors (s : ResearchState) (io : ReportGeneratorAgent.IO) :
  extends_errors s (ReportGeneratorAgent.execute s io).
Proof.
  unfold ReportGeneratorAgent.execute.
  destruct (ReportGeneratorAgent.failure io).
  - eapply extends_errors_one; [reflexivity|]. simpl. auto 8.
  - destruct (all_sources s); now apply extends_errors_refl.
Qed.

Lemma synthesizer_errors (f2 sf : Q -> string) (sb : string -> string -> Result Q)
    (s : ResearchState) (io : ReportSynthesizerAgent.IO) :
  extends_errors s (ReportSynthesizerAgent.execute f2 sf sb s io).
Proof.
  unfold ReportSynthesizerAgent.execute.
  destruct (report_sections s); [now apply extends_errors_refl|].
  destruct (ReportSynthesizerAgent._synthesize_report _ _ _ _ _ _).
  - now apply extends_errors_refl.
  - eapply extends_errors_one; [reflexivity|]. simpl. auto 9.
Qed.

Section Workflow.

Variable hash : string -> Z.
Variable float : string -> option PyFloat.
Variable format_2f : Q -> string.
Variable str_float : Q -> string.
Variable seconds_between : string -> string -> Result Q.
Variable recursion_limit : nat.
Variable recursion_error : string.

Abbreviation run_node :=
  (ResearchWorkflow.run_node hash float format_2f str_float seconds_between).
Abbreviation run :=
  (ResearchWorkflow.run hash float format_2f str_float seconds_between
     recursion_error).
Abbreviation ainvoke :=
  (ResearchWorkflow.ainvoke hash float format_2f str_float seconds_between
     recursion_limit recursion_error).
Abbreviation execute :=
  (ResearchWorkflow.execute hash float format_2f str_float seconds_between
     recursion_limit recursion_error).

Lemma parallel_errors (s : ResearchState) (io : ResearchWorkflow.StepIO) :
  extends_errors s (ResearchWorkflow._parallel_research_node hash s io).
Proof.
  unfold ResearchWorkflow._parallel_research_node, ResearchWorkflow.gather_research,
    ResearchWorkflow.research_task.
  set (s0 := set_current_step INTERNAL_RESEARCH s).
  destruct (ResearchWorkflow.external_first io),
    (ResearchWorkflow.internal_escaped io) as [ei|],
    (ResearchWorkflow.external_escaped io) as [ee|];
    repeat match goal with
    | |- context [InternalResearchAgent.execute hash ?st ?x] =>
        let r := fresh "ri" in
        destruct (internal_errors hash st x) as [? [? ?]];
        set (r := InternalResearchAgent.execute hash st x) in *; clearbody r
    | |- context [ExternalResearchAgent.execute ?st ?x] =>
        let r := fresh "re" in
        destruct (external_errors st x) as [? [? ?]];
        set (r := ExternalResearchAgent.execute st x) in *; clearbody r
    end;
    unfold ResearchWorkflow.merge_results, extends_errors; simpl in *;
    repeat match goal with H : errors _ = _ |- _ => rewrite H; clear H end;
    rewrite <- ?app_assoc; eexists;
    (split; [reflexivity |]);
    repeat (apply Forall_app; split); try assumption;
    repeat (apply Forall_cons; [simpl; auto 10|]); try apply Forall_nil.
Qed.

Lemma run_node_errors (n : ResearchWorkflow.Node) (s : ResearchState)
    (io : ResearchWorkflow.StepIO) :
  extends_errors s (run_node n s io).
Proof.
  destruct n; simpl.
  - unfold ResearchWorkflow._planning_node.
    eapply extends_errors_trans; [|apply planner_errors].
    apply extends_errors_refl. simpl. now destruct (start_time s) as [[|]|].
  - apply parallel_errors.
  - unfold ResearchWorkflow._quality_assessment_node.
    eapply extends_errors_trans; [|apply assessor_errors].
    now apply extends_errors_refl.
  - unfold ResearchWorkflow._report_generation_node.
    eapply extends_errors_trans; [|apply generator_errors].
    now apply extends_errors_refl.
  - unfold ResearchWorkflow._synthesis_node.
    eapply extends_errors_trans; [|apply synthesizer_errors].
    now apply extends_errors_refl.
  - apply extends_errors_refl. unfold ResearchWorkflow._error_recovery_node.
    now destruct (5 <? List.length (errors s))%nat.
Qed.

(** *** The synthesizer always hands back a finished record *)

Lemma synthesizer_terminal (s : ResearchState) (io : ReportSynthesizerAgent.IO) :
  terminal (ReportSynthesizerAgent.execute format_2f str_float seconds_between s io).
Proof.
  unfold ReportSynthesizerAgent.execute, terminal.
  destruct (report_sections s).
  - simpl. repeat split; eexists; reflexivity.
  - destruct (ReportSynthesizerAgent._synthesize_report _ _ _ _ _ _);
      simpl; repeat split; eexists; reflexivity.
Qed.


(** *** Only the planner writes [iteration_count] *)

Lemma parallel_iteration_count (s : ResearchState) (io : ResearchWorkflow.StepIO) :
  iteration_count (ResearchWorkflow._parallel_research_node hash s io)
  = iteration_count s.
Proof.
  unfold ResearchWorkflow._parallel_research_node, ResearchWorkflow.gather_research,
    ResearchWorkflow.research_task.
  destruct (ResearchWorkflow.external_first io),
    (ResearchWorkflow.internal_escaped io), (ResearchWorkflow.external_escaped io);
    reflexivity.
Qed.

Lemma assessment_iteration_count (s : ResearchState) (io : ResearchWorkflow.StepIO) :
  iteration_count (ResearchWorkflow._quality_assessment_node float s io)
  = iteration_count s.
Proof.
  unfold ResearchWorkflow._quality_assessment_node, QualityAssessorAgent.execute.
  destruct (QualityAssessorAgent._assess_research_quality _ _ _ _ _); reflexivity.
Qed.

Lemma generation_iteration_count (s : ResearchState) (io : ResearchWorkflow.StepIO) :
  iteration_count (ResearchWorkflow._report_generation_node s io) = iteration_count s.
Proof.
  unfold ResearchWorkflow._report_generation_node, ReportGeneratorAgent.execute.
  destruct (ReportGeneratorAgent.failure _); [reflexivity|].
  cbn [all_sources set_current_step].
  destruct (all_sources s); reflexivity.
Qed.

Lemma synthesis_iteration_count (s : ResearchState) (io : ResearchWorkflow.StepIO) :
  iteration_count
    (ResearchWorkflow._synthesis_node format_2f str_float seconds_between s io)
  = iteration_count s.
Proof.
  unfold ResearchWorkflow._synthesis_node, ReportSynthesizerAgent.execute.
  cbn [report_sections set_current_step].
  destruct (report_sections s); [reflexivity|].
  destruct (ReportSynthesizerAgent._synthesize_report _ _ _ _ _ _); reflexivity.
Qed.

Lemma recovery_iteration_count (s : ResearchState) :
  iteration_count (ResearchWorkflow._error_recovery_node s) = iteration_count s.
Proof.
  unfold ResearchWorkflow._error_recovery_node.
  destruct (5 <? List.length (errors s))%nat; reflexivity.
Qed.

Lemma planner_iteration_count (s : ResearchState) (io : ResearchPlannerAgent.IO) :
  iteration_count (ResearchPlannerAgent.execute s io)
  = match ResearchPlannerAgent.questions_completion io with
    | Returned _ => iteration_count s + 1
    | Raised _ => iteration_count s
    end.
Proof.
  unfold ResearchPlannerAgent.execute, ResearchPlannerAgent._generate_research_questions.
  destruct (ResearchPlannerAgent.questions_completion io); reflexivity.
Qed.

Lemma planning_iteration_count (s : ResearchState) (io : ResearchWorkflow.StepIO) :
  iteration_count (ResearchWorkflow._planning_node s io)
  = match ResearchPlannerAgent.questions_completion (ResearchWorkflow.planner_io io) with
    | Returned _ => iteration_count s + 1
    | Raised _ => iteration_count s
    end.
Proof.
  unfold ResearchWorkflow._planning_node. rewrite planner_iteration_count.
  cbn [start_time set_current_step].
  destruct (start_time s) as [[|]|]; reflexivity.
Qed.

Lemma run_node_iteration_count (n : ResearchWorkflow.Node) (s : ResearchState)
    (io : ResearchWorkflow.StepIO) :
  iteration_count s <= iteration_count (run_node n s io).
Proof.
  destruct n; cbn [ResearchWorkflow.run_node].
  - rewrite planning_iteration_count.
    destruct (ResearchPlannerAgent.questions_completion _); lia.
  - rewrite parallel_iteration_count. lia.
  - rewrite assessment_iteration_count. lia.
  - rewrite generation_iteration_count. lia.
  - rewrite synthesis_iteration_count. lia.
  - rewrite recovery_iteration_count. lia.
Qed.

Lemma run_iteration_count (budget : nat) :
  forall (world : ResearchWorkflow.World) (k : nat) (n : ResearchWorkflow.Node)
         (s : ResearchState),
    match run budget world k n s with
    | ResearchWorkflow.Finished final_state =>
        iteration_count s <= iteration_count final_state
    | ResearchWorkflow.GraphRaised _ _ => True
    end.
Proof.
  induction budget as [|b IH]; intros world k n s; [exact I|].
  cbn [ResearchWorkflow.run].
  pose proof (run_node_iteration_count n s (ResearchWorkflow.step_io world k)) as H.
  set (s' := run_node n s (ResearchWorkflow.step_io world k)) in *.
  destruct (ResearchWorkflow.successor n s') as [n'|]; [|exact H].
  specialize (IH world (S k) n' s').
  destruct (run b world (S k) n' s'); [lia | exact I].
Qed.

(** *** The research pair *)

Lemma internal_execute_errors (s : ResearchState) (io : InternalResearchAgent.IO) :
  errors (InternalResearchAgent.execute hash s io)
  = errors s ++ match InternalResearchAgent.failure io with
                | Some e => [internal_failure e]
                | None => []
                end.
Proof.
  unfold InternalResearchAgent.execute.
  destruct (InternalResearchAgent.failure io); cbn [errors set_current_step set_internal_sources].
  - reflexivity.
  - now rewrite app_nil_r.
Qed.

Lemma external_execute_errors (s : ResearchState) (io : ExternalResearchAgent.IO) :
  errors (ExternalResearchAgent.execute s io)
  = errors s ++ match ExternalResearchAgent.failure io with
                | Some e => [external_failure e]
                | None => []
                end.
Proof.
  unfold ExternalResearchAgent.execute.
  destruct (ExternalResearchAgent.failure io); cbn [errors set_current_step set_external_sources].
  - reflexivity.
  - now rewrite app_nil_r.
Qed.

(** What an agent finds depends on the questions of the record only. *)
Lemma internal_execute_sources (s s' : ResearchState) (io : InternalResearchAgent.IO) :
  research_questions s = research_questions s' ->
  internal_sources (InternalResearchAgent.execute hash s io)
  = internal_sources (InternalResearchAgent.execute hash s' io).
Proof.
  intros H. unfold InternalResearchAgent.execute.
  destruct (InternalResearchAgent.failure io);
    cbn [internal_sources set_current_step set_internal_sources InternalResearchAgent._handle_error set_errors];
    [reflexivity | now rewrite H].
Qed.

Lemma external_execute_sources (s s' : ResearchState) (io : ExternalResearchAgent.IO) :
  research_questions s = research_questions s' ->
  external_sources (ExternalResearchAgent.execute s io)
  = external_sources (ExternalResearchAgent.execute s' io).
Proof.
  intros H. unfold ExternalResearchAgent.execute.
  destruct (ExternalResearchAgent.failure io);
    cbn [external_sources set_current_step set_external_sources ExternalResearchAgent._handle_error set_errors];
    [reflexivity | now rewrite H].
Qed.

Lemma parallel_node_errors (s : ResearchState) (io : ResearchWorkflow.StepIO) :
  errors (ResearchWorkflow._parallel_research_node hash s io)
  = errors s ++ fan_in_errors io.
Proof.
  unfold ResearchWorkflow._parallel_research_node, ResearchWorkflow.gather_research,
    ResearchWorkflow.research_task, fan_in_errors, internal_handled, external_handled.
  destruct (ResearchWorkflow.external_first io),
    (ResearchWorkflow.internal_escaped io) as [ei|],
    (ResearchWorkflow.external_escaped io) as [ee|];
    cbn [ResearchWorkflow.merge_results errors set_errors set_current_step
         set_internal_sources set_external_sources];
    rewrite ?internal_execute_errors, ?external_execute_errors;
    cbn [errors set_errors set_current_step];
    destruct (InternalResearchAgent.failure (ResearchWorkflow.internal_io io)),
      (ExternalResearchAgent.failure (ResearchWorkflow.external_io io));
    cbn [app]; rewrite <- ?app_assoc, ?app_nil_r; reflexivity.
Qed.

Lemma parallel_node_internal (s : ResearchState) (io : ResearchWorkflow.StepIO) :
  internal_sources (ResearchWorkflow._parallel_research_node hash s io)
  = match ResearchWorkflow.internal_escaped io with
    | Some _ => []
    | None =>
        internal_sources
          (InternalResearchAgent.execute hash s (ResearchWorkflow.internal_io io))
    end.
Proof.
  unfold ResearchWorkflow._parallel_research_node, ResearchWorkflow.gather_research,
    ResearchWorkflow.research_task.
  destruct (ResearchWorkflow.external_first io),
    (ResearchWorkflow.internal_escaped io) as [ei|],
    (ResearchWorkflow.external_escaped io) as [ee|];
    cbn [ResearchWorkflow.merge_results internal_sources set_errors set_current_step
         set_internal_sources set_external_sources];
    try reflexivity; now apply internal_execute_sources.
Qed.

Lemma parallel_node_external (s : ResearchState) (io : ResearchWorkflow.StepIO) :
  external_sources (ResearchWorkflow._parallel_research_node hash s io)
  = match ResearchWorkflow.external_escaped io with
    | Some _ => []
    | None =>
        external_sources
          (ExternalResearchAgent.execute s (ResearchWorkflow.external_io io))
    end.
Proof.
  unfold ResearchWorkflow._parallel_research_node, ResearchWorkflow.gather_research,
    ResearchWorkflow.research_task.
  destruct (ResearchWorkflow.external_first io),
    (ResearchWorkflow.internal_escaped io) as [ei|],
    (ResearchWorkflow.external_escaped io) as [ee|];
    cbn [ResearchWorkflow.merge_results external_sources set_errors set_current_step
         set_internal_sources set_external_sources];
    try reflexivity; now apply external_execute_sources.
Qed.

Lemma parallel_node_step (s : ResearchState) (io : ResearchWorkflow.StepIO) :
  current_step (ResearchWorkflow._parallel_research_node hash s io) = RESEARCH_COMPLETE.
Proof.
  unfold ResearchWorkflow._parallel_research_node.
  destruct (ResearchWorkflow.gather_research hash _ io) as [[ri re] errs].
  unfold ResearchWorkflow.merge_results. reflexivity.
Qed.

(** C4. At the fan-in of the research pair each path stands alone.  When a
    path's task raised, that path's source list in the merged record is
    empty and one error of its kind, naming its step, is appended; the other
    path's list is what that path's own run produced, whatever happened to
    the first.  The merge always completes: it ends at [RESEARCH_COMPLETE]
    and keeps every error recorded before. *)
Theorem research_paths_isolated (s r : ResearchState) (io : ResearchWorkflow.StepIO)
    (e e' : string) :
  let m := ResearchWorkflow._parallel_research_node hash s io in
  (internal_sources m
   = match ResearchWorkflow.internal_escaped io with
     | Some _ => []
     | None =>
         internal_sources
           (InternalResearchAgent.execute hash s (ResearchWorkflow.internal_io io))
     end)
  /\ (external_sources m
      = match ResearchWorkflow.external_escaped io with
        | Some _ => []
        | None =>
            external_sources
              (ExternalResearchAgent.execute s (ResearchWorkflow.external_io io))
        end)
  /\ errors m = errors s ++ fan_in_errors io
  /\ match ResearchWorkflow.internal_escaped io with
     | Some x => In (internal_failure x) (errors m)
     | None => True
     end
  /\ match ResearchWorkflow.external_escaped io with
     | Some x => In (external_failure x) (errors m)
     | None => True
     end
  /\ current_step m = RESEARCH_COMPLETE
  /\ (let m1 := ResearchWorkflow.merge_results s (Raised e) (Returned r) in
      internal_sources m1 = [] /\ external_sources m1 = external_sources r
      /\ errors m1 = errors s ++ [internal_failure e])
  /\ (let m2 := ResearchWorkflow.merge_results s (Returned r) (Raised e) in
      external_sources m2 = [] /\ internal_sources m2 = internal_sources r
      /\ errors m2 = errors s ++ [external_failure e])
  /\ (let m3 := ResearchWorkflow.merge_results s (Raised e) (Raised e') in
      internal_sources m3 = [] /\ external_sources m3 = []
      /\ errors m3 = errors s ++ [internal_failure e; external_failure e']).
Proof.
  cbv zeta.
  split; [apply parallel_node_internal|].
  split; [apply parallel_node_external|].
  split; [apply parallel_node_errors|].
  split.
  { rewrite parallel_node_errors. unfold fan_in_errors.
    destruct (ResearchWorkflow.internal_escaped io); [|exact I].
    apply in_or_app. right. apply in_or_app. right. apply in_or_app. left. now left. }
  split.
  { rewrite parallel_node_errors. unfold fan_in_errors.
    destruct (ResearchWorkflow.external_escaped io); [|exact I].
    apply in_or_app. right. apply in_or_app. right. apply in_or_app. right. now left. }
  split; [apply parallel_node_step|].
  unfold ResearchWorkflow.merge_results.
  cbn [internal_sources external_sources errors set_errors set_current_step
       set_internal_sources set_external_sources].
  rewrite <- app_assoc.
  repeat split; reflexivity.
Qed.

(** *** The error-recovery node *)

Lemma error_recovery_small (s : ResearchState) :
  (List.length (errors s) <= 5)%nat -> ResearchWorkflow._error_recovery_node s = s.
Proof.
  intros H. unfold ResearchWorkflow._error_recovery_node.
  destruct (Nat.ltb_spec 5 (List.length (errors s))); [lia | reflexivity].
Qed.

(** C10. The error-recovery node changes the record only when more than five
    errors are recorded: it then sets [final_report] to the failure summary
    listing the error kinds and [current_step] to [REPORT_COMPLETE], and
    nothing else.  With five errors or fewer the record comes back unchanged
    in every field.  Either way the node leads to [END]: a run that reaches
    it stops there with the record the node returned. *)
Theorem error_recovery_frame (s : ResearchState) (budget k : nat)
    (world : ResearchWorkflow.World) :
  let s' := ResearchWorkflow._error_recovery_node s in
  (((5 < List.length (errors s))%nat
    /\ final_report s'
       = Some ("Research failed due to multiple errors: "
               +:+ PyRepr.repr_list (map type (errors s)))
    /\ current_step s' = REPORT_COMPLETE
    /\ same_but_report_and_step s s')
   \/ ((List.length (errors s) <= 5)%nat /\ s' = s))
  /\ ResearchWorkflow.successor ResearchWorkflow.error_recovery s' = None
  /\ run (S budget) world k ResearchWorkflow.error_recovery s
     = ResearchWorkflow.Finished s'.
Proof.
  cbv zeta. split; [|split; reflexivity].
  destruct (Nat.ltb_spec 5 (List.length (errors s))) as [Hgt|Hle].
  - left. unfold ResearchWorkflow._error_recovery_node.
    apply Nat.ltb_lt in Hgt as Hb. rewrite Hb.
    split; [exact Hgt|]. unfold same_but_report_and_step.
    repeat split; reflexivity.
  - right. split; [exact Hle | now apply error_recovery_small].
Qed.

(** *** The whole run *)

(** C3 (as amended). A planner invocation that succeeds raises
    [iteration_count] by exactly 1; one that fails appends a
    [planning_failed] error, marks the record [ERROR_RECOVERY] and leaves
    [iteration_count] as it was.  No other stage writes [iteration_count],
    so it never decreases across a run. *)
Theorem iteration_count_by_planner (s : ResearchState)
    (pio : ResearchPlannerAgent.IO) (io : ResearchWorkflow.StepIO)
    (world : ResearchWorkflow.World) :
  match ResearchPlannerAgent.questions_completion pio with
  | Returned _ =>
      iteration_count (ResearchPlannerAgent.execute s pio) = iteration_count s + 1
      /\ current_step (ResearchPlannerAgent.execute s pio) = PLANNING_COMPLETE
      /\ errors (ResearchPlannerAgent.execute s pio) = errors s
  | Raised e =>
      iteration_count (ResearchPlannerAgent.execute s pio) = iteration_count s
      /\ current_step (ResearchPlannerAgent.execute s pio) = ERROR_RECOVERY
      /\ errors (ResearchPlannerAgent.execute s pio) = errors s ++ [planning_failure e]
  end
  /\ iteration_count (ResearchWorkflow._parallel_research_node hash s io)
     = iteration_count s
  /\ iteration_count (ResearchWorkflow._quality_assessment_node float s io)
     = iteration_count s
  /\ iteration_count (ResearchWorkflow._report_generation_node s io)
     = iteration_count s
  /\ iteration_count
       (ResearchWorkflow._synthesis_node format_2f str_float seconds_between s io)
     = iteration_count s
  /\ iteration_count (ResearchWorkflow._error_recovery_node s) = iteration_count s
  /\ match ainvoke world s with
     | ResearchWorkflow.Finished final_state =>
         iteration_count s <= iteration_count final_state
     | ResearchWorkflow.GraphRaised _ _ => True
     end
  /\ iteration_count s <= iteration_count (execute world s).
Proof.
  split.
  { unfold ResearchPlannerAgent.execute, ResearchPlannerAgent._generate_research_questions.
    destruct (ResearchPlannerAgent.questions_completion pio); repeat split; reflexivity. }
  split; [apply parallel_iteration_count|].
  split; [apply assessment_iteration_count|].
  split; [apply generation_iteration_count|].
  split; [apply synthesis_iteration_count|].
  split; [apply recovery_iteration_count|].
  pose proof (run_iteration_count recursion_limit world 0 ResearchWorkflow.planner s) as H.
  split; [exact H|].
  unfold ResearchWorkflow.execute, ResearchWorkflow.ainvoke.
  destruct (run recursion_limit world 0 ResearchWorkflow.planner s);
    [exact H | cbn [iteration_count set_end_time set_current_step set_errors set_final_report]; lia].
Qed.

End Workflow.

(** ** Ranking *)

Section RankingFacts.

Variable key : Source -> Q.

Lemma insert_desc_perm (x : Source) (l : list Source) :
  Permutation (x :: l) (insert_desc key x l).
Proof.
  induction l as [|y ys IH]; simpl; [reflexivity|].
  destruct (Qlt_le_dec (key x) (key y)); [|reflexivity].
  rewrite perm_swap. now constructor.
Qed.

Lemma sorted_desc_perm (l : list Source) : Permutation l (sorted_desc key l).
Proof.
  induction l as [|x xs IH]; simpl; [constructor|].
  rewrite <- insert_desc_perm. now constructor.
Qed.

Lemma desc_by_trans (a b c : Source) :
  desc_by key a b -> desc_by key b c -> desc_by key a c.
Proof. unfold desc_by. intros H1 H2. eapply Qle_trans; eauto. Qed.

Lemma insert_desc_sorted (x : Source) (l : list Source) :
  StronglySorted (desc_by key) l ->
  StronglySorted (desc_by key) (insert_desc key x l).
Proof.
  induction 1 as [|y ys Hs IH Hy]; simpl.
  - repeat constructor.
  - destruct (Qlt_le_dec (key x) (key y)) as [Hlt|Hle].
    + constructor; [exact IH|].
      apply (Permutation_Forall (insert_desc_perm x ys)).
      constructor; [|exact Hy]. unfold desc_by. now apply Qlt_le_weak.
    + constructor; [now constructor|].
      constructor; [exact Hle|].
      eapply Forall_impl; [|exact Hy].
      intros z Hz. eapply desc_by_trans; [|exact Hz]. exact Hle.
Qed.

Lemma sorted_desc_sorted (l : list Source) :
  StronglySorted (desc_by key) (sorted_desc key l).
Proof.
  induction l as [|x xs IH]; simpl; [constructor|]. now apply insert_desc_sorted.
Qed.

Lemma sorted_desc_length (l : list Source) :
  List.length (sorted_desc key l) = List.length l.
Proof. symmetry. apply Permutation_length, sorted_desc_perm. Qed.

End RankingFacts.

Lemma firstn_sorted {A : Type} (R : A -> A -> Prop) (n : nat) (l : list A) :
  StronglySorted R l -> StronglySorted R (firstn n l).
Proof.
  intros H. revert n. induction H as [|x xs Hs IH Hx]; intros [|n]; simpl;
    try constructor.
  - apply IH.
  - rewrite Forall_forall in *. intros y Hy. apply Hx.
    eapply (In_nth_error) in Hy. destruct Hy as [i Hi].
    apply nth_error_In with (n := i).
    rewrite nth_error_firstn in Hi. now destruct (i <? n)%nat.
Qed.

Lemma firstn_incl {A : Type} (n : nat) (l : list A) (x : A) :
  In x (firstn n l) -> In x l.
Proof.
  intros H. rewrite <- (firstn_skipn n l). apply in_or_app. now left.
Qed.

Lemma firstn_NoDup {A : Type} (n : nat) (l : list A) :
  NoDup l -> NoDup (firstn n l).
Proof.
  intros H. rewrite <- (firstn_skipn n l) in H. now apply NoDup_app_remove_r in H.
Qed.

(** ** Deduplication of internal sources *)

Section Dedup.

Variable hash : string -> Z.

Abbreviation h := (InternalResearchAgent.content_hash hash).
Abbreviation dedup_from := (InternalResearchAgent.dedup_from hash).

Lemma seen_In (z : Z) (seen : list Z) :
  existsb (Z.eqb z) seen = true <-> In z seen.
Proof.
  rewrite existsb_exists. split.
  - intros [y [Hy E]]. apply Z.eqb_eq in E. now subst.
  - intros H. exists z. split; [exact H | apply Z.eqb_refl].
Qed.

Lemma dedup_from_In (l : list Source) :
  forall (seen : list Z) (x : Source),
    In x (dedup_from seen l)
    <-> exists l1 l2, l = l1 ++ x :: l2
                      /\ ~ In (h x) seen /\ ~ In (h x) (map h l1).
Proof.
  induction l as [|y ys IH]; intros seen x; simpl.
  - split; [intros [] | intros [l1 [l2 [H _]]]; now destruct l1].
  - destruct (existsb (Z.eqb (h y)) seen) eqn:E.
    + apply seen_In in E. rewrite IH. split.
      * intros [l1 [l2 [Hl [Hs Hn]]]]. exists (y :: l1), l2. subst ys.
        split; [reflexivity|]. split; [exact Hs|]. simpl.
        intros [Hy|Hy]; [|now apply Hn]. apply Hs. now rewrite <- Hy.
      * intros [l1 [l2 [Hl [Hs Hn]]]]. destruct l1 as [|z l1]; simpl in Hl.
        -- injection Hl as -> _. contradiction.
        -- injection Hl as -> ->. exists l1, l2. simpl in Hn.
           split; [reflexivity|]. split; [exact Hs|]. tauto.
    + assert (Hy : ~ In (h y) seen).
      { intros H. apply seen_In in H. congruence. }
      simpl. rewrite IH. split.
      * intros [->|[l1 [l2 [Hl [Hs Hn]]]]].
        -- exists [], ys. simpl. tauto.
        -- exists (y :: l1), l2. subst ys. simpl in *. split; [reflexivity|].
           split; [tauto|]. intros [H|H]; [|now apply Hn]. apply Hs. now left.
      * intros [l1 [l2 [Hl [Hs Hn]]]]. destruct l1 as [|z l1]; simpl in Hl.
        -- injection Hl as -> _. now left.
        -- injection Hl as -> ->. right. exists l1, l2. simpl in *.
           split; [reflexivity|]. split; [|tauto].
           intros [H|H]; [|contradiction]. apply Hn. now left.
Qed.

Lemma dedup_from_NoDup (l : list Source) :
  forall seen : list Z, NoDup (map h (dedup_from seen l)).
Proof.
  induction l as [|y ys IH]; intros seen; simpl; [constructor|].
  destruct (existsb (Z.eqb (h y)) seen); [apply IH|].
  simpl. constructor; [|apply IH].
  rewrite in_map_iff. intros [x [Hx Hin]].
  apply dedup_from_In in Hin. destruct Hin as [_ [_ [_ [Hs _]]]].
  apply Hs. left. now rewrite Hx.
Qed.

Lemma NoDup_hash_prefix (l : list Source) :
  NoDup (map h l) -> NoDup (map prefix200 l).
Proof.
  induction l as [|x xs IH]; simpl; intros H; [constructor|].
  inversion H as [|? ? Hn Hd]; subst. constructor; [|now apply IH].
  rewrite in_map_iff in *. intros [y [Hy Hin]]. apply Hn. exists y.
  split; [|exact Hin]. unfold InternalResearchAgent.content_hash.
  unfold prefix200 in Hy. now rewrite Hy.
Qed.

Lemma deduplicate_first (l : list Source) (x : Source) :
  In x (InternalResearchAgent._deduplicate_sources hash l) <-> first_with_hash hash l x.
Proof.
  unfold InternalResearchAgent._deduplicate_sources, first_with_hash.
  rewrite dedup_from_In. split.
  - intros [l1 [l2 [H [_ Hn]]]]. now exists l1, l2.
  - intros [l1 [l2 [H Hn]]]. exists l1, l2. simpl. tauto.
Qed.

Lemma first_hash_prefix (l : list Source) (x : Source) :
  (forall a b, hash a = hash b -> a = b) ->
  first_with_hash hash l x <-> first_with_prefix l x.
Proof.
  intros Hinj. unfold first_with_hash, first_with_prefix.
  split; intros [l1 [l2 [H Hn]]]; exists l1, l2; (split; [exact H|]);
    rewrite in_map_iff in *; intros [y [Hy Hin]]; apply Hn; exists y;
    (split; [|exact Hin]).
  - unfold InternalResearchAgent.content_hash. unfold prefix200 in Hy. now rewrite Hy.
  - unfold InternalResearchAgent.content_hash in Hy. apply Hinj in Hy. exact Hy.
Qed.

(** C8. In the internal researcher, candidates with the same first 200
    characters of content collapse to one entry: deduplication keeps a
    candidate exactly when no earlier candidate has the same content hash
    (with a hash that separates texts: the same first 200 characters), so no
    two entries of the outcome share their first 200 characters.  The
    survivors are then sorted by relevance score, highest first, and the
    first 20 of that ranking are the internal source list. *)
Theorem deduplicated_then_ranked (s : ResearchState) (io : InternalResearchAgent.IO) :
  let candidates :=
    InternalResearchAgent.collect (research_questions s)
      (InternalResearchAgent.question_results io) in
  let unique := InternalResearchAgent._deduplicate_sources hash candidates in
  let ranked := sorted_desc relevance_score unique in
  let final := internal_sources (InternalResearchAgent.execute hash s io) in
  (forall x, In x unique <-> first_with_hash hash candidates x)
  /\ ((forall a b, hash a = hash b -> a = b) ->
      forall x, In x unique <-> first_with_prefix candidates x)
  /\ NoDup (map prefix200 unique)
  /\ Permutation unique ranked
  /\ StronglySorted (desc_by relevance_score) ranked
  /\ final = match InternalResearchAgent.failure io with
             | None => firstn 20 ranked
             | Some _ => []
             end
  /\ NoDup (map prefix200 final)
  /\ StronglySorted (desc_by relevance_score) final.
Proof.
  cbv zeta.
  set (candidates := InternalResearchAgent.collect _ _).
  set (unique := InternalResearchAgent._deduplicate_sources hash candidates).
  assert (Hnd : NoDup (map prefix200 unique)).
  { apply NoDup_hash_prefix. apply dedup_from_NoDup. }
  assert (Hfinal : internal_sources (InternalResearchAgent.execute hash s io)
                   = match InternalResearchAgent.failure io with
                     | None => firstn 20 (sorted_desc relevance_score unique)
                     | Some _ => []
                     end).
  { unfold InternalResearchAgent.execute.
    destruct (InternalResearchAgent.failure io); reflexivity. }
  split; [intros x; apply deduplicate_first|].
  split.
  { intros Hinj x. unfold unique. rewrite deduplicate_first.
    now apply first_hash_prefix. }
  split; [exact Hnd|].
  split; [apply sorted_desc_perm|].
  split; [apply sorted_desc_sorted|].
  split; [exact Hfinal|].
  rewrite Hfinal. destruct (InternalResearchAgent.failure io); split; try constructor.
  - rewrite <- firstn_map. apply firstn_NoDup.
    eapply Permutation_NoDup; [|exact Hnd].
    apply Permutation_map, sorted_desc_perm.
  - apply firstn_sorted, sorted_desc_sorted.
Qed.

End Dedup.

(** ** The planner's questions *)

Lemma last_char_app (s : string) (c : ascii) :
  PyStr.last_char s = Some c <-> exists t, s = t +:+ String c EmptyString.
Proof.
  induction s as [|d s IH].
  - simpl. split; [discriminate | intros [[|? ?] H]; discriminate].
  - destruct s as [|d' s].
    + simpl. split.
      * intros H. injection H as ->. now exists EmptyString.
      * intros [[|x t] H]; simpl in H.
        -- now injection H as ->.
        -- injection H as _ H. now destruct t.
    + change (PyStr.last_char (String d (String d' s)))
        with (PyStr.last_char (String d' s)).
      rewrite IH. split.
      * intros [t Ht]. exists (String d t). simpl. now rewrite Ht.
      * intros [[|x t] H]; simpl in H; [discriminate|].
        injection H as _ H. now exists t.
Qed.

Lemma endswith_char_app (s : string) (c : ascii) :
  PyStr.endswith_char s c = true <-> exists t, s = t +:+ String c EmptyString.
Proof.
  rewrite <- last_char_app. unfold PyStr.endswith_char.
  destruct (PyStr.last_char s) as [d|].
  - rewrite Ascii.eqb_eq. split; congruence.
  - split; discriminate.
Qed.


Lemma parse_lines_filter (lines : list string) :
  ResearchPlannerAgent.parse_lines lines
  = filter (fun q => PyStr.endswith_char q "?")
      (map ResearchPlannerAgent.question_of_line
         (filter ResearchPlannerAgent.is_item_line lines)).
Proof.
  induction lines as [|line rest IH]; simpl; [reflexivity|].
  destruct (ResearchPlannerAgent.is_item_line line); simpl; [|exact IH].
  destruct (PyStr.endswith_char _ _); now rewrite IH.
Qed.




(** C3 fails as stated: a planner invocation that fails records its error
    and leaves the iteration count as it was. *)
Lemma planner_failure_keeps_count :
  errors (ResearchPlannerAgent.execute sample_state planner_io_down)
  = [planning_failure "OpenAI API error: Connection error."]
  /\ iteration_count (ResearchPlannerAgent.execute sample_state planner_io_down)
     <> iteration_count sample_state + 1.
Proof. split; [reflexivity | vm_compute; discriminate]. Qed.

(** ** Truncation *)

Lemma enumerate1_length {A : Type} (l : list A) :
  List.length (ReportGeneratorAgent.enumerate1 l) = List.length l.
Proof.
  unfold ReportGeneratorAgent.enumerate1.
  rewrite length_combine, length_seq. apply Nat.min_id.
Qed.

Lemma internal_entries_length (sources : list Source) :
  List.length (ReportGeneratorAgent.internal_entries sources)
  = Nat.min 15
      (List.length (filter (ReportGeneratorAgent.is_type "internal") sources)).
Proof.
  unfold ReportGeneratorAgent.internal_entries.
  now rewrite length_map, enumerate1_length, length_firstn.
Qed.

Lemma external_entries_length (sources : list Source) :
  List.length (ReportGeneratorAgent.external_entries sources)
  = Nat.min 20
      (List.length (filter (ReportGeneratorAgent.is_type "external") sources)).
Proof.
  unfold ReportGeneratorAgent.external_entries.
  now rewrite length_map, enumerate1_length, length_firstn.
Qed.

Lemma references_lines_parts (sources : list Source) :
  exists h1 h2,
    ReportGeneratorAgent.references_lines sources
    = h1 ++ ReportGeneratorAgent.internal_entries sources
      ++ h2 ++ ReportGeneratorAgent.external_entries sources
    /\ (h1 = [] \/ h1 = ["## Internal Sources"])
    /\ (h2 = [] \/ h2 = [PyStr.nl +:+ "## External Sources"]).
Proof.
  unfold ReportGeneratorAgent.references_lines.
  assert (Hi : filter (ReportGeneratorAgent.is_type "internal") sources = [] ->
               ReportGeneratorAgent.internal_entries sources = []).
  { intros H. unfold ReportGeneratorAgent.internal_entries. now rewrite H. }
  assert (He : filter (ReportGeneratorAgent.is_type "external") sources = [] ->
               ReportGeneratorAgent.external_entries sources = []).
  { intros H. unfold ReportGeneratorAgent.external_entries. now rewrite H. }
  destruct (filter (ReportGeneratorAgent.is_type "internal") sources) as [|a la];
    destruct (filter (ReportGeneratorAgent.is_type "external") sources) as [|b lb].
  - exists [], []. rewrite Hi, He by reflexivity. auto.
  - exists [], [PyStr.nl +:+ "## External Sources"]. rewrite Hi by reflexivity. auto.
  - exists ["## Internal Sources"], []. rewrite He by reflexivity.
    cbn [app]. rewrite !app_nil_r. auto.
  - exists ["## Internal Sources"], [PyStr.nl +:+ "## External Sources"].
    cbn [app]. auto.
Qed.

(** C9. After each pass the internal researcher hands back at most 20
    sources and the external researcher at most 25, and so does the merged
    record of the research pair; the references section lists at most 15
    internal and at most 20 external sources (each under its heading, when
    there is any). *)
Theorem truncation_invariants (hash : string -> Z) (s : ResearchState)
    (iio : InternalResearchAgent.IO) (eio : ExternalResearchAgent.IO)
    (io : ResearchWorkflow.StepIO) (sources : list Source) :
  (List.length (internal_sources (InternalResearchAgent.execute hash s iio)) <= 20)%nat
  /\ (List.length (external_sources (ExternalResearchAgent.execute s eio)) <= 25)%nat
  /\ (List.length
        (internal_sources (ResearchWorkflow._parallel_research_node hash s io)) <= 20)%nat
  /\ (List.length
        (external_sources (ResearchWorkflow._parallel_research_node hash s io)) <= 25)%nat
  /\ (List.length (ReportGeneratorAgent.internal_entries sources) <= 15)%nat
  /\ (List.length (ReportGeneratorAgent.external_entries sources) <= 20)%nat
  /\ (exists h1 h2,
        ReportGeneratorAgent.references_lines sources
        = h1 ++ ReportGeneratorAgent.internal_entries sources
          ++ h2 ++ ReportGeneratorAgent.external_entries sources
        /\ (h1 = [] \/ h1 = ["## Internal Sources"])
        /\ (h2 = [] \/ h2 = [PyStr.nl +:+ "## External Sources"]))
  /\ ReportGeneratorAgent._generate_references sources
     = PyStr.join PyStr.nl (ReportGeneratorAgent.references_lines sources).
Proof.
  assert (Hi : forall st x,
             (List.length (internal_sources (InternalResearchAgent.execute hash st x))
              <= 20)%nat).
  { intros st x. unfold InternalResearchAgent.execute.
    destruct (InternalResearchAgent.failure x).
    - simpl. lia.
    - cbn [internal_sources set_current_step set_internal_sources].
      apply firstn_le_length. }
  assert (He : forall st x,
             (List.length (external_sources (ExternalResearchAgent.execute st x))
              <= 25)%nat).
  { intros st x. unfold ExternalResearchAgent.execute.
    destruct (ExternalResearchAgent.failure x).
    - simpl. lia.
    - cbn [external_sources set_current_step set_external_sources].
      apply firstn_le_length. }
  split; [apply Hi|]. split; [apply He|].
  split.
  { rewrite parallel_node_internal.
    destruct (ResearchWorkflow.internal_escaped io); [simpl; lia | apply Hi]. }
  split.
  { rewrite parallel_node_external.
    destruct (ResearchWorkflow.external_escaped io); [simpl; lia | apply He]. }
  split; [rewrite internal_entries_length; lia|].
  split; [rewrite external_entries_length; lia|].
  split; [apply references_lines_parts | reflexivity].
Qed.

(** ** The quality assessor *)

Lemma clamp01_range (x : PyFloat) :
  (0 <= QualityAssessorAgent.clamp01 x)%Q /\ (QualityAssessorAgent.clamp01 x <= 1)%Q.
Proof.
  destruct x as [q| | |]; simpl; try (split; discriminate).
  destruct (Qlt_le_dec q 1) as [H1|H1]; [|split; discriminate].
  destruct (Qlt_le_dec 0 q) as [H0|H0]; [|split; discriminate].
  split; now apply Qlt_le_weak.
Qed.

Lemma clamp01_inside (q : Q) :
  (0 <= q)%Q -> (q <= 1)%Q -> (QualityAssessorAgent.clamp01 (Finite q) == q)%Q.
Proof.
  intros H0 H1. simpl.
  destruct (Qlt_le_dec q 1) as [L1|L1].
  - destruct (Qlt_le_dec 0 q) as [L0|L0]; [reflexivity|].
    now apply Qle_antisym.
  - now apply Qle_antisym.
Qed.

Lemma coverage_prompt_first5 (question0 : string) (sources : list Source) :
  QualityAssessorAgent.coverage_prompt question0 sources
  = QualityAssessorAgent.coverage_prompt question0 (firstn 5 sources).
Proof.
  unfold QualityAssessorAgent.coverage_prompt, QualityAssessorAgent.source_texts.
  now rewrite firstn_firstn.
Qed.

Lemma coverage_scores_each (float : string -> option PyFloat)
    (io : QualityAssessorAgent.IO) (questions : list string) (sources : list Source) :
  forall i : nat,
    QualityAssessorAgent.coverage_scores float io i questions sources
    = map (fun p : nat * string =>
             QualityAssessorAgent._calculate_question_coverage float
               (QualityAssessorAgent.coverage_completion io (fst p)) (snd p)
               (QualityAssessorAgent.related_to (snd p) sources))
          (combine (seq i (List.length questions)) questions).
Proof.
  induction questions as [|q qs IH]; intros i; simpl; [reflexivity|].
  rewrite IH. f_equal.
  now destruct (QualityAssessorAgent.related_to q sources).
Qed.

(** C6 (as amended). The coverage score of a question with no attributed
    source is 0.  Otherwise the completion is asked to rate at most 5 of the
    question's sources and its answer, read as a float, is clamped to
    [0, 1]; an answer that is no float gives the fixed score 0.5, and a
    failed completion call gives the mean relevance score of the question's
    sources. *)
Theorem question_coverage_score (float : string -> option PyFloat)
    (completion : string -> Result string) (question0 : string)
    (sources all : list Source) (io : QualityAssessorAgent.IO)
    (questions : list string) :
  let score :=
    QualityAssessorAgent._calculate_question_coverage float completion question0
      sources in
  ((sources = [] /\ score = 0%Q)
   \/ (sources <> []
       /\ match completion (QualityAssessorAgent.coverage_prompt question0
                              (firstn 5 sources)) with
          | Returned response =>
              match float (PyStr.strip response) with
              | Some x =>
                  score = QualityAssessorAgent.clamp01 x
                  /\ (0 <= score)%Q /\ (score <= 1)%Q
              | None => score = 5 # 10
              end
          | Raised _ => score = Qmean (map relevance_score sources)
          end))
  /\ (forall q, (0 <= q)%Q -> (q <= 1)%Q ->
                (QualityAssessorAgent.clamp01 (Finite q) == q)%Q)
  /\ QualityAssessorAgent.coverage_scores float io 0 questions all
     = map (fun p : nat * string =>
              QualityAssessorAgent._calculate_question_coverage float
                (QualityAssessorAgent.coverage_completion io (fst p)) (snd p)
                (QualityAssessorAgent.related_to (snd p) all))
           (enumerate questions).
Proof.
  cbv zeta. split; [|split; [apply clamp01_inside | apply coverage_scores_each]].
  destruct sources as [|x xs]; [left; split; reflexivity|].
  right. split; [discriminate|].
  rewrite <- coverage_prompt_first5.
  unfold QualityAssessorAgent._calculate_question_coverage.
  destruct (completion _) as [response|e]; [|reflexivity].
  destruct (float (PyStr.strip response)) as [rating|]; [|reflexivity].
  split; [reflexivity | apply clamp01_range].
Qed.

(** C6 fails as stated: for an answer that is no float the score is 0.5, not
    the mean relevance of the question's sources (0.9 here). *)
Lemma unparseable_rating_scores_half :
  sample_float (PyStr.strip "high") = None
  /\ (QualityAssessorAgent._calculate_question_coverage sample_float completion_word
        sample_question [sample_source] == 5 # 10)%Q
  /\ ~ (QualityAssessorAgent._calculate_question_coverage sample_float completion_word
          sample_question [sample_source]
        == Qmean (map relevance_score [sample_source]))%Q.
Proof.
  split; [reflexivity|]. split; [reflexivity|].
  vm_compute. discriminate.
Qed.

Lemma assess_raises_without_questions (float : string -> option PyFloat)
    (io : QualityAssessorAgent.IO) (questions : list string)
    (internal external : list Source) (e : string) :
  QualityAssessorAgent._assess_research_quality float io questions internal external
  = Raised e ->
  questions = [] /\ e = "division by zero".
Proof.
  unfold QualityAssessorAgent._assess_research_quality.
  destruct questions; [|discriminate].
  intros H. injection H as <-. split; reflexivity.
Qed.

(** C5 (as amended). When the assessment fails inside, the assessor does not
    raise: it appends a [quality_assessment_failed] error, sets
    [quality_score] to 0.6, sets [all_sources] to the internal sources
    followed by the external ones, and moves to [QUALITY_ASSESSED]; every
    other field, [quality_assessment] included, stays as it was.  (The
    assessment fails exactly when there is no question to divide by.) *)
Theorem assessor_failure_absorbed (float : string -> option PyFloat)
    (s : ResearchState) (io : QualityAssessorAgent.IO) (e : string)
    (Hfail : QualityAssessorAgent._assess_research_quality float io
               (research_questions s) (internal_sources s) (external_sources s)
             = Raised e) :
  let s' := QualityAssessorAgent.execute float s io in
  errors s' = errors s ++ [assessment_failure e]
  /\ quality_score s' = 6 # 10
  /\ all_sources s' = internal_sources s ++ external_sources s
  /\ current_step s' = QUALITY_ASSESSED
  /\ quality_assessment s' = quality_assessment s
  /\ research_questions s = []
  /\ (topic s' = topic s
      /\ research_plan s' = research_plan s
      /\ research_questions s' = research_questions s
      /\ internal_sources s' = internal_sources s
      /\ external_sources s' = external_sources s
      /\ report_sections s' = report_sections s
      /\ final_report s' = final_report s
      /\ iteration_count s' = iteration_count s
      /\ start_time s' = start_time s
      /\ end_time s' = end_time s
      /\ processing_time s' = processing_time s).
Proof.
  cbv zeta. unfold QualityAssessorAgent.execute. rewrite Hfail.
  apply assess_raises_without_questions in Hfail. destruct Hfail as [Hq _].
  unfold QualityAssessorAgent._handle_error, assessment_failure.
  repeat split; try reflexivity. exact Hq.
Qed.

Lemma assessor_failure_absorbed_witness :
  let s' := QualityAssessorAgent.execute sample_float sample_state assessor_io_down in
  errors s' = errors sample_state ++ [assessment_failure "division by zero"]
  /\ quality_score s' = 6 # 10
  /\ all_sources s' = internal_sources sample_state ++ external_sources sample_state
  /\ current_step s' = QUALITY_ASSESSED
  /\ quality_assessment s' = quality_assessment sample_state
  /\ research_questions sample_state = []
  /\ (topic s' = topic sample_state
      /\ research_plan s' = research_plan sample_state
      /\ research_questions s' = research_questions sample_state
      /\ internal_sources s' = internal_sources sample_state
      /\ external_sources s' = external_sources sample_state
      /\ report_sections s' = report_sections sample_state
      /\ final_report s' = final_report sample_state
      /\ iteration_count s' = iteration_count sample_state
      /\ start_time s' = start_time sample_state
      /\ end_time s' = end_time sample_state
      /\ processing_time s' = processing_time sample_state).
Proof.
  exact (assessor_failure_absorbed sample_float sample_state assessor_io_down
           "division by zero" eq_refl).
Defined.

(** C5 fails as stated: after a failed assessment the record holds no
    quality assessment, so none with overall score 0.6. *)
Lemma assessor_failure_sets_no_assessment :
  errors (QualityAssessorAgent.execute sample_float sample_state assessor_io_down)
  = [assessment_failure "division by zero"]
  /\ quality_assessment
       (QualityAssessorAgent.execute sample_float sample_state assessor_io_down)
     = None
  /\ ~ (exists a,
          quality_assessment
            (QualityAssessorAgent.execute sample_float sample_state assessor_io_down)
          = Some a
          /\ (overall_score a == 6 # 10)%Q).
Proof.
  split; [reflexivity|]. split; [reflexivity|].
  intros [a [H _]]. discriminate H.
Qed.

(** ** Sample runs *)

(** With every completion failing the planner never counts an iteration and
    the assessor keeps answering 0.6, so the run circles through research
    until the recursion limit cuts it; the guard reports that. *)
Example run_cut_by_recursion_limit :
  let r := sample_execute world_down sample_state in
  current_step r = REPORT_COMPLETE
  /\ iteration_count r = 0
  /\ final_report r
     = Some ("Workflow execution failed: "
             +:+ "Recursion limit of 25 reached without hitting a stop condition.")
  /\ last (map type (errors r)) "" = "workflow_execution_failed".
Proof. vm_compute. repeat split; reflexivity. Qed.

(** With a planner that answers and providers that find nothing the score
    stays 0: the run replans until the third iteration, then reports the
    lack of sources. *)
Example run_without_sources :
  let r := sample_execute world_no_sources sample_state in
  current_step r = REPORT_COMPLETE
  /\ iteration_count r = 3
  /\ errors r = []
  /\ match final_report r with
     | Some report => PyStr.contains "insufficient source material" report = true
     | None => False
     end.
Proof. vm_compute. repeat split; reflexivity. Qed.

(** A record that comes in with a critical error is routed to error
    recovery, which hands it back as it is when it holds at most five
    errors. *)
Example run_with_critical_error :
  let r := sample_execute world_no_sources state_with_critical in
  current_step r = QUALITY_ASSESSED /\ final_report r = None.
Proof. vm_compute. split; reflexivity. Qed.

(** * Further properties of the workflow and its stages *)

Section WorkflowRuns.

Variable hash : string -> Z.
Variable float : string -> option PyFloat.
Variable format_2f : Q -> string.
Variable str_float : Q -> string.
Variable seconds_between : string -> string -> Result Q.
Variable recursion_limit : nat.
Variable recursion_error : string.

Abbreviation node_of :=
  (ResearchWorkflow.run_node hash float format_2f str_float seconds_between).
Abbreviation run_from :=
  (ResearchWorkflow.run hash float format_2f str_float seconds_between
     recursion_error).
Abbreviation invoke :=
  (ResearchWorkflow.ainvoke hash float format_2f str_float seconds_between
     recursion_limit recursion_error).
Abbreviation run_workflow :=
  (ResearchWorkflow.execute hash float format_2f str_float seconds_between
     recursion_limit recursion_error).

Lemma run_errors_prefix (budget : nat) :
  forall (world : ResearchWorkflow.World) (k : nat) (n : ResearchWorkflow.Node)
         (s : ResearchState),
    match run_from budget world k n s with
    | ResearchWorkflow.Finished final_state =>
        exists l, errors final_state = errors s ++ l
    | ResearchWorkflow.GraphRaised _ shared_errors =>
        exists l, shared_errors = errors s ++ l
    end.
Proof.
  induction budget as [|b IH]; intros world k n s.
  - simpl. exists []. now rewrite app_nil_r.
  - cbn [ResearchWorkflow.run].
    destruct (run_node_errors hash float format_2f str_float seconds_between n s
                (ResearchWorkflow.step_io world k)) as [l1 [H1 _]].
    set (s' := node_of n s (ResearchWorkflow.step_io world k)) in *.
    destruct (ResearchWorkflow.successor n s') as [n'|].
    + specialize (IH world (S k) n' s').
      destruct (run_from b world (S k) n' s') as [f|e errs];
        destruct IH as [l2 H2]; exists (l1 ++ l2);
        now rewrite H2, H1, app_assoc.
    + now exists l1.
Qed.

(** X1. Errors are only ever appended: whatever the collaborators do, the
    record the entry point returns starts with the errors of the record it
    was given, in their order, and the same holds for the record a finished
    graph run hands back. *)
Theorem errors_append_only (world : ResearchWorkflow.World) (s : ResearchState) :
  (exists l, errors (run_workflow world s) = errors s ++ l)
  /\ match invoke world s with
     | ResearchWorkflow.Finished final_state =>
         exists l, errors final_state = errors s ++ l
     | ResearchWorkflow.GraphRaised _ shared_errors =>
         exists l, shared_errors = errors s ++ l
     end
  /\ forall n io, exists l, errors (node_of n s io) = errors s ++ l.
Proof.
  pose proof (run_errors_prefix recursion_limit world 0 ResearchWorkflow.planner s) as H.
  split; [|split; [exact H|]].
  - unfold ResearchWorkflow.execute, ResearchWorkflow.ainvoke.
    destruct (run_from recursion_limit world 0 ResearchWorkflow.planner s)
      as [f|e errs]; [exact H|].
    destruct H as [l H]. eexists.
    cbn [errors set_end_time set_current_step set_errors set_final_report].
    rewrite H, <- app_assoc. reflexivity.
  - intros n io.
    destruct (run_node_errors hash float format_2f str_float seconds_between n s io)
      as [l [Hl _]].
    now exists l.
Qed.

(** *** What only the planner writes *)

Lemma parallel_same_plan (s : ResearchState) (io : ResearchWorkflow.StepIO) :
  same_plan s (ResearchWorkflow._parallel_research_node hash s io).
Proof.
  unfold ResearchWorkflow._parallel_research_node, ResearchWorkflow.gather_research,
    ResearchWorkflow.research_task, same_plan.
  destruct (ResearchWorkflow.external_first io),
    (ResearchWorkflow.internal_escaped io), (ResearchWorkflow.external_escaped io);
    repeat split; reflexivity.
Qed.

Lemma assessment_same_plan (s : ResearchState) (io : ResearchWorkflow.StepIO) :
  same_plan s (ResearchWorkflow._quality_assessment_node float s io).
Proof.
  unfold ResearchWorkflow._quality_assessment_node, QualityAssessorAgent.execute,
    same_plan.
  destruct (QualityAssessorAgent._assess_research_quality _ _ _ _ _);
    repeat split; reflexivity.
Qed.

Lemma generation_same_plan (s : ResearchState) (io : ResearchWorkflow.StepIO) :
  same_plan s (ResearchWorkflow._report_generation_node s io).
Proof.
  unfold ResearchWorkflow._report_generation_node, ReportGeneratorAgent.execute,
    same_plan.
  destruct (ReportGeneratorAgent.failure _); [repeat split; reflexivity|].
  cbn [all_sources set_current_step].
  destruct (all_sources s); repeat split; reflexivity.
Qed.

Lemma synthesis_same_plan (s : ResearchState) (io : ResearchWorkflow.StepIO) :
  same_plan s
    (ResearchWorkflow._synthesis_node format_2f str_float seconds_between s io).
Proof.
  unfold ResearchWorkflow._synthesis_node, ReportSynthesizerAgent.execute, same_plan.
  cbn [report_sections set_current_step].
  destruct (report_sections s); [repeat split; reflexivity|].
  destruct (ReportSynthesizerAgent._synthesize_report _ _ _ _ _ _);
    repeat split; reflexivity.
Qed.

Lemma recovery_same_plan (s : ResearchState) :
  same_plan s (ResearchWorkflow._error_recovery_node s).
Proof.
  unfold ResearchWorkflow._error_recovery_node, same_plan.
  destruct (5 <? List.length (errors s))%nat; repeat split; reflexivity.
Qed.

Lemma planning_topic (s : ResearchState) (io : ResearchWorkflow.StepIO) :
  topic (ResearchWorkflow._planning_node s io) = topic s.
Proof.
  unfold ResearchWorkflow._planning_node, ResearchPlannerAgent.execute.
  destruct (ResearchPlannerAgent._generate_research_questions _);
    cbn [topic set_iteration_count set_current_step set_research_questions
         set_research_plan ResearchPlannerAgent._handle_error set_errors];
    destruct (start_time (set_current_step PLANNING s)) as [[|]|]; reflexivity.
Qed.

Lemma node_topic (n : ResearchWorkflow.Node) (s : ResearchState)
    (io : ResearchWorkflow.StepIO) :
  topic (node_of n s io) = topic s.
Proof.
  destruct n; cbn [ResearchWorkflow.run_node].
  - apply planning_topic.
  - apply parallel_same_plan.
  - apply assessment_same_plan.
  - apply generation_same_plan.
  - apply synthesis_same_plan.
  - apply recovery_same_plan.
Qed.

Lemma run_topic (budget : nat) :
  forall (world : ResearchWorkflow.World) (k : nat) (n : ResearchWorkflow.Node)
         (s : ResearchState),
    match run_from budget world k n s with
    | ResearchWorkflow.Finished final_state => topic final_state = topic s
    | ResearchWorkflow.GraphRaised _ _ => True
    end.
Proof.
  induction budget as [|b IH]; intros world k n s; [exact I|].
  cbn [ResearchWorkflow.run].
  pose proof (node_topic n s (ResearchWorkflow.step_io world k)) as H.
  set (s' := node_of n s (ResearchWorkflow.step_io world k)) in *.
  destruct (ResearchWorkflow.successor n s') as [n'|]; [|exact H].
  specialize (IH world (S k) n' s').
  destruct (run_from b world (S k) n' s'); [congruence | exact I].
Qed.

(** X2. The topic is never rewritten: the record the entry point returns
    carries the topic it was given.  The plan, the questions and the
    iteration count are written by the planner alone: every other node
    hands them on unchanged. *)
Theorem planner_owns_the_plan (world : ResearchWorkflow.World) (s : ResearchState)
    (io : ResearchWorkflow.StepIO) :
  topic (run_workflow world s) = topic s
  /\ topic (ResearchWorkflow._planning_node s io) = topic s
  /\ same_plan s (ResearchWorkflow._parallel_research_node hash s io)
  /\ same_plan s (ResearchWorkflow._quality_assessment_node float s io)
  /\ same_plan s (ResearchWorkflow._report_generation_node s io)
  /\ same_plan s
       (ResearchWorkflow._synthesis_node format_2f str_float seconds_between s io)
  /\ same_plan s (ResearchWorkflow._error_recovery_node s).
Proof.
  split.
  { unfold ResearchWorkflow.execute, ResearchWorkflow.ainvoke.
    pose proof (run_topic recursion_limit world 0 ResearchWorkflow.planner s) as H.
    destruct (run_from recursion_limit world 0 ResearchWorkflow.planner s);
      [exact H | reflexivity]. }
  split; [apply planning_topic|].
  split; [apply parallel_same_plan|].
  split; [apply assessment_same_plan|].
  split; [apply generation_same_plan|].
  split; [apply synthesis_same_plan | apply recovery_same_plan].
Qed.

(** *** The iteration cap *)

Lemma planner_count_lower_bound (world : ResearchWorkflow.World)
    (s : ResearchState) :
  iteration_count s <= iteration_count (run_workflow world s).
Proof.
  unfold ResearchWorkflow.execute, ResearchWorkflow.ainvoke.
  pose proof (run_iteration_count hash float format_2f str_float seconds_between
                recursion_error recursion_limit world 0 ResearchWorkflow.planner s) as H.
  destruct (run_from recursion_limit world 0 ResearchWorkflow.planner s);
    [exact H | cbn [iteration_count set_end_time set_current_step set_errors set_final_report]; lia].
Qed.

Lemma run_iteration_bound (budget : nat) :
  forall (world : ResearchWorkflow.World) (k : nat) (n : ResearchWorkflow.Node)
         (s : ResearchState) (bound : Z),
    3 <= bound ->
    (n = ResearchWorkflow.planner -> iteration_count s + 1 <= bound) ->
    iteration_count s <= bound ->
    match run_from budget world k n s with
    | ResearchWorkflow.Finished final_state => iteration_count final_state <= bound
    | ResearchWorkflow.GraphRaised _ _ => True
    end.
Proof.
  induction budget as [|b IH]; intros world k n s bound H3 Hp Hb; [exact I|].
  cbn [ResearchWorkflow.run].
  set (io := ResearchWorkflow.step_io world k).
  destruct n; cbn [ResearchWorkflow.run_node ResearchWorkflow.successor].
  - apply IH; try discriminate; auto.
    rewrite planning_iteration_count.
    specialize (Hp eq_refl).
    destruct (ResearchPlannerAgent.questions_completion _); lia.
  - apply IH; try discriminate; auto.
    now rewrite parallel_iteration_count.
  - pose proof (assessment_iteration_count float s io) as Hi.
    fold io. set (s' := ResearchWorkflow._quality_assessment_node float s io) in *.
    apply IH; auto; [|lia].
    unfold _quality_router.
    destruct (filter is_critical (errors s')); [|discriminate].
    destruct (iteration_count s' >=? 3) eqn:E; [discriminate|].
    rewrite Z.geb_leb in E. apply Z.leb_gt in E.
    destruct (Qge_bool _ _); [discriminate|].
    destruct (Qge_bool _ _); [discriminate|]. intros _. lia.
  - apply IH; try discriminate; auto.
    now rewrite generation_iteration_count.
  - rewrite synthesis_iteration_count. exact Hb.
  - rewrite recovery_iteration_count. exact Hb.
Qed.

(** X3. The iteration cap holds for whole runs: the planner is entered again
    only while fewer than 3 iterations are counted, so a run never ends
    with an iteration count above 3 (or above the count it started with
    plus one, when that is more).  For the record built for a topic the
    count of the returned record is between 0 and 3. *)
Theorem iteration_count_capped (world : ResearchWorkflow.World) (s : ResearchState)
    (topic0 now0 : string) :
  iteration_count (run_workflow world s) <= Z.max 3 (iteration_count s + 1)
  /\ 0 <= iteration_count (run_workflow world (initial_state topic0 now0)) <= 3.
Proof.
  assert (H : forall st,
             iteration_count (run_workflow world st)
             <= Z.max 3 (iteration_count st + 1)).
  { intros st. unfold ResearchWorkflow.execute, ResearchWorkflow.ainvoke.
    pose proof (run_iteration_bound recursion_limit world 0 ResearchWorkflow.planner
                  st (Z.max 3 (iteration_count st + 1))) as Hb.
    destruct (run_from recursion_limit world 0 ResearchWorkflow.planner st).
    - apply Hb; lia.
    - cbn [iteration_count set_end_time set_current_step set_errors set_final_report].
      lia. }
  split; [apply H|].
  split.
  - pose proof (planner_count_lower_bound world (initial_state topic0 now0)) as L.
    exact L.
  - specialize (H (initial_state topic0 now0)). simpl in H. exact H.
Qed.

(** *** Routes *)

Lemma critical_route (s : ResearchState) :
  has_critical (errors s) -> _quality_router s = route_error.
Proof.
  intros H. apply filter_critical_nonempty in H. unfold _quality_router.
  destruct (filter is_critical (errors s)); [congruence | reflexivity].
Qed.

Lemma capped_route (s : ResearchState) :
  no_critical (errors s) -> 3 <= iteration_count s ->
  _quality_router s = route_generate_report.
Proof.
  intros Hc Hi. unfold _quality_router. rewrite (no_critical_filter _ Hc).
  assert ((iteration_count s >=? 3) = true) as -> by (apply Z.geb_le; lia).
  reflexivity.
Qed.

Lemma assessment_node_errors (s : ResearchState) (io : ResearchWorkflow.StepIO) :
  exists l, errors (ResearchWorkflow._quality_assessment_node float s io)
            = errors s ++ l
            /\ Forall (fun e => In (type e) stage_kinds) l.
Proof.
  unfold ResearchWorkflow._quality_assessment_node.
  destruct (assessor_errors float (set_current_step QUALITY_ASSESSMENT s)
              (ResearchWorkflow.assessor_io io)) as [l [H F]].
  exists l. split; [exact H | exact F].
Qed.

(** X4. The iteration cap ends the run: when the record that reaches the
    assessor counts 3 iterations or more and holds no critical error, the
    run goes on to report generation and synthesis whatever the score, and
    stops after exactly these three nodes with a report. *)
Theorem capped_run_reports (world : ResearchWorkflow.World) (s : ResearchState)
    (budget k : nat)
    (Hcap : 3 <= iteration_count s) (Hclean : no_critical (errors s)) :
  let assessed :=
    ResearchWorkflow._quality_assessment_node float s
      (ResearchWorkflow.step_io world k) in
  let generated :=
    ResearchWorkflow._report_generation_node assessed
      (ResearchWorkflow.step_io world (S k)) in
  let synthesized :=
    ResearchWorkflow._synthesis_node format_2f str_float seconds_between generated
      (ResearchWorkflow.step_io world (S (S k))) in
  run_from (3 + budget) world k ResearchWorkflow.quality_assessor s
  = ResearchWorkflow.Finished synthesized
  /\ terminal synthesized
  /\ iteration_count synthesized = iteration_count s.
Proof.
  cbv zeta.
  set (assessed := ResearchWorkflow._quality_assessment_node float s _).
  assert (Hr : _quality_router assessed = route_generate_report).
  { apply capped_route.
    - destruct (assessment_node_errors s (ResearchWorkflow.step_io world k))
        as [l [H F]].
      fold assessed in H. unfold no_critical. rewrite H. apply Forall_app.
      split; [exact Hclean|]. eapply Forall_impl; [|exact F].
      intros e. apply stage_kind_not_critical.
    - unfold assessed. rewrite assessment_iteration_count. exact Hcap. }
  split.
  { change (3 + budget)%nat with (S (S (S budget))).
    cbn [ResearchWorkflow.run ResearchWorkflow.run_node ResearchWorkflow.successor].
    fold assessed. rewrite Hr. reflexivity. }
  split.
  { unfold ResearchWorkflow._synthesis_node. apply synthesizer_terminal. }
  rewrite synthesis_iteration_count, generation_iteration_count.
  unfold assessed. apply assessment_iteration_count.
Qed.

(** X5. A critical error short-circuits the run: when "critical" occurs in
    the kind of an error of the record that reaches the assessor, the run
    goes from the assessment straight to error recovery and stops there,
    whatever the score and the iteration count. *)
Theorem critical_error_short_circuits (world : ResearchWorkflow.World)
    (s : ResearchState) (budget k : nat)
    (Hcrit : has_critical (errors s)) :
  let assessed :=
    ResearchWorkflow._quality_assessment_node float s
      (ResearchWorkflow.step_io world k) in
  run_from (2 + budget) world k ResearchWorkflow.quality_assessor s
  = ResearchWorkflow.Finished (ResearchWorkflow._error_recovery_node assessed)
  /\ _quality_router assessed = route_error.
Proof.
  cbv zeta.
  set (assessed := ResearchWorkflow._quality_assessment_node float s _).
  assert (Hr : _quality_router assessed = route_error).
  { apply critical_route.
    destruct (assessment_node_errors s (ResearchWorkflow.step_io world k))
      as [l [H _]].
    fold assessed in H. destruct Hcrit as [e [pre [post [Hin Ht]]]].
    exists e, pre, post. split; [|exact Ht]. rewrite H. apply in_or_app. now left. }
  split; [|exact Hr].
  change (2 + budget)%nat with (S (S budget)).
  cbn [ResearchWorkflow.run ResearchWorkflow.run_node ResearchWorkflow.successor].
  fold assessed. rewrite Hr. reflexivity.
Qed.

(** X6. Each research pass replaces the source lists: what the research
    node stores depends on the questions and on what the providers answer
    in this pass, never on the lists the record held before. *)
Theorem research_replaces_sources (s : ResearchState) (io : ResearchWorkflow.StepIO)
    (old_internal old_external old_all : list Source) :
  let s' :=
    set_all_sources old_all
      (set_external_sources old_external (set_internal_sources old_internal s)) in
  internal_sources (ResearchWorkflow._parallel_research_node hash s' io)
  = internal_sources (ResearchWorkflow._parallel_research_node hash s io)
  /\ external_sources (ResearchWorkflow._parallel_research_node hash s' io)
     = external_sources (ResearchWorkflow._parallel_research_node hash s io)
  /\ all_sources (ResearchWorkflow._parallel_research_node hash s io)
     = all_sources s.
Proof.
  cbv zeta. rewrite !parallel_node_internal, !parallel_node_external.
  split; [|split].
  - destruct (ResearchWorkflow.internal_escaped io); [reflexivity|].
    now apply internal_execute_sources.
  - destruct (ResearchWorkflow.external_escaped io); [reflexivity|].
    now apply external_execute_sources.
  - unfold ResearchWorkflow._parallel_research_node, ResearchWorkflow.gather_research,
      ResearchWorkflow.research_task.
    destruct (ResearchWorkflow.external_first io),
      (ResearchWorkflow.internal_escaped io), (ResearchWorkflow.external_escaped io);
      reflexivity.
Qed.

End WorkflowRuns.

(** ** The planner's plan *)

Lemma estimate_duration_closed (questions : list string) :
  ResearchPlannerAgent._estimate_duration questions
  = if (4 <? List.length questions)%nat
    then (15 * Z.of_nat (List.length questions)) / 2
    else 6 * Z.of_nat (List.length questions).
Proof.
  unfold ResearchPlannerAgent._estimate_duration.
  set (n := Z.of_nat (List.length questions)).
  destruct (4 <? List.length questions)%nat.
  - unfold Qfloor, Qmult, inject_Z. cbn [Qnum Qden].
    replace (n * 5 * 15) with (5 * (15 * n)) by ring.
    change (Z.pos (1 * 1 * 10)) with (5 * 2).
    now rewrite Z.div_mul_cancel_l by lia.
  - unfold Qfloor, Qmult, inject_Z. cbn [Qnum Qden].
    replace (n * 5 * 12) with (6 * n * 10) by ring.
    change (Z.pos (1 * 1 * 10)) with 10.
    now rewrite Z.div_mul by lia.
Qed.

Lemma nodup_length_le {A : Type} (dec : forall x y : A, {x = y} + {x <> y})
    (l : list A) :
  (List.length (nodup dec l) <= List.length l)%nat.
Proof.
  induction l as [|x xs IH]; simpl; [lia|].
  destruct (in_dec dec x xs); simpl; lia.
Qed.

(** X7. A successful planner invocation stores a plan that agrees with the
    record: its topic and questions are the record's, the duration estimate
    is 6 minutes per question up to 4 questions and 7.5 per question
    (rounded down) above, so at most 45 minutes.  A failing preview of the
    internal or external sources does not fail the planning: it counts as
    nothing found.  A failed invocation leaves the plan as it was. *)
Theorem plan_summary (s : ResearchState) (io : ResearchPlannerAgent.IO) :
  let s' := ResearchPlannerAgent.execute s io in
  match ResearchPlannerAgent.questions_completion io with
  | Returned _ =>
      exists plan,
        research_plan s' = Some plan
        /\ plan_topic plan = topic s
        /\ plan_questions plan = research_questions s'
        /\ internal_sources_available plan
           = match ResearchPlannerAgent.internal_preview io with
             | Returned hits => List.length hits
             | Raised _ => 0%nat
             end
        /\ match ResearchPlannerAgent.external_preview io with
           | Returned results =>
               (external_domains_identified plan <= List.length results)%nat
           | Raised _ => external_domains_identified plan = 0%nat
           end
        /\ estimated_duration_minutes plan
           = (if (4 <? List.length (research_questions s'))%nat
              then (15 * Z.of_nat (List.length (research_questions s'))) / 2
              else 6 * Z.of_nat (List.length (research_questions s')))
        /\ 0 <= estimated_duration_minutes plan <= 45
  | Raised _ => research_plan s' = research_plan s
  end.
Proof.
  cbv zeta.
  unfold ResearchPlannerAgent.execute, ResearchPlannerAgent._generate_research_questions.
  destruct (ResearchPlannerAgent.questions_completion io) as [response|e];
    [|reflexivity].
  eexists. split; [reflexivity|].
  cbn [plan_topic plan_questions internal_sources_available
       external_domains_identified estimated_duration_minutes research_questions
       set_iteration_count set_current_step set_research_questions set_research_plan].
  split; [reflexivity|]. split; [reflexivity|].
  split.
  { unfold ResearchPlannerAgent._discover_internal_sources.
    now destruct (ResearchPlannerAgent.internal_preview io). }
  split.
  { unfold ResearchPlannerAgent._preview_external_sources.
    destruct (ResearchPlannerAgent.external_preview io) as [results|]; [|reflexivity].
    etransitivity; [apply nodup_length_le|]. now rewrite length_map. }
  split; [apply estimate_duration_closed|].
  rewrite estimate_duration_closed.
  assert (Hn : (List.length (ResearchPlannerAgent.parse_questions response) <= 6)%nat).
  { unfold ResearchPlannerAgent.parse_questions. apply firstn_le_length. }
  set (n := List.length (ResearchPlannerAgent.parse_questions response)) in *.
  destruct (Nat.ltb_spec 4 n).
  - split.
    + apply Z.div_pos; lia.
    + apply Z.div_le_upper_bound; lia.
  - lia.
Qed.

(** ** Strings: strip, split and join *)

Lemma has_char_app (c : ascii) (a b : string) :
  PyRepr.has_char c (a +:+ b) = PyRepr.has_char c a || PyRepr.has_char c b.
Proof.
  induction a as [|d a IH]; simpl; [reflexivity|]. now rewrite IH, orb_assoc.
Qed.

Lemma lstrip_nonspace (c : ascii) (t : string) :
  PyStr.is_space c = false -> PyStr.lstrip (String c t) = String c t.
Proof. intros H. simpl. now rewrite H. Qed.

Lemma rstrip_cons (c : ascii) (t : string) :
  PyStr.is_space c = false ->
  PyStr.rstrip (String c t) = String c (PyStr.rstrip t).
Proof.
  intros H. cbn [PyStr.rstrip]. destruct (PyStr.rstrip t); [now rewrite H | reflexivity].
Qed.

Lemma rstrip_idem (s : string) : PyStr.rstrip (PyStr.rstrip s) = PyStr.rstrip s.
Proof.
  induction s as [|c t IH]; [reflexivity|].
  cbn [PyStr.rstrip]. destruct (PyStr.rstrip t) as [|d t'] eqn:E.
  - destruct (PyStr.is_space c) eqn:Hc; [reflexivity|].
    cbn [PyStr.rstrip]. now rewrite Hc.
  - cbn [PyStr.rstrip]. cbn [PyStr.rstrip] in IH.
    destruct (PyStr.rstrip t') as [|d' t''] eqn:E'.
    + destruct (PyStr.is_space d); [discriminate IH | now rewrite IH].
    + now rewrite IH.
Qed.

Lemma lstrip_head (s : string) :
  match PyStr.lstrip s with
  | EmptyString => True
  | String c _ => PyStr.is_space c = false
  end.
Proof.
  induction s as [|c t IH]; simpl; [exact I|].
  destruct (PyStr.is_space c) eqn:E; [exact IH | exact E].
Qed.

Lemma strip_idem (s : string) : PyStr.strip (PyStr.strip s) = PyStr.strip s.
Proof.
  unfold PyStr.strip. pose proof (lstrip_head s) as H.
  destruct (PyStr.lstrip s) as [|c t]; [reflexivity|].
  rewrite rstrip_cons by exact H. rewrite lstrip_nonspace by exact H.
  rewrite rstrip_cons by exact H. now rewrite rstrip_idem.
Qed.

Lemma rstrip_fixed (s : string) (c : ascii) :
  PyStr.last_char s = Some c -> PyStr.is_space c = false -> PyStr.rstrip s = s.
Proof.
  induction s as [|a t IH]; [discriminate|].
  destruct t as [|b t].
  - simpl. intros H Hc. injection H as ->. now rewrite Hc.
  - change (PyStr.last_char (String a (String b t)))
      with (PyStr.last_char (String b t)).
    intros H Hc. cbn [PyStr.rstrip]. cbn [PyStr.rstrip] in IH.
    rewrite (IH H Hc). reflexivity.
Qed.

Lemma last_char_append (a b : string) :
  b <> EmptyString -> PyStr.last_char (a +:+ b) = PyStr.last_char b.
Proof.
  intros Hb. induction a as [|c a IH]; [reflexivity|].
  simpl. rewrite IH. destruct (a +:+ b) eqn:E; [|reflexivity].
  destruct a; simpl in E; [contradiction | discriminate].
Qed.

Lemma after_first_app (sep : ascii) (a b : string) :
  PyRepr.has_char sep a = false ->
  PyStr.after_first sep (a +:+ String sep b) = Some b.
Proof.
  induction a as [|c a IH]; simpl.
  - now rewrite Ascii.eqb_refl.
  - intros H. apply orb_false_iff in H. destruct H as [H1 H2].
    rewrite Ascii.eqb_sym in H1. rewrite H1. now apply IH.
Qed.

Lemma split_char_none (sep : ascii) (p : string) :
  PyRepr.has_char sep p = false -> PyStr.split_char sep p = [p].
Proof.
  induction p as [|c p IH]; simpl; [reflexivity|].
  intros H. apply orb_false_iff in H. destruct H as [H1 H2].
  rewrite Ascii.eqb_sym in H1. rewrite H1, (IH H2). reflexivity.
Qed.

Lemma split_char_app (sep : ascii) (p r : string) :
  PyRepr.has_char sep p = false ->
  PyStr.split_char sep (p +:+ String sep r) = p :: PyStr.split_char sep r.
Proof.
  induction p as [|c p IH]; simpl.
  - now rewrite Ascii.eqb_refl.
  - intros H. apply orb_false_iff in H. destruct H as [H1 H2].
    rewrite Ascii.eqb_sym in H1. rewrite H1, (IH H2). reflexivity.
Qed.

(** Splitting what was joined gives the pieces back. *)
Lemma split_join (sep : ascii) (parts : list string) :
  parts <> [] ->
  Forall (fun p => PyRepr.has_char sep p = false) parts ->
  PyStr.split_char sep (PyStr.join (String sep EmptyString) parts) = parts.
Proof.
  intros Hne H. induction H as [|p ps Hp Hps IH]; [contradiction|].
  destruct ps as [|q qs].
  - simpl. now apply split_char_none.
  - change (PyStr.join (String sep EmptyString) (p :: q :: qs))
      with (p +:+ String sep (PyStr.join (String sep EmptyString) (q :: qs))).
    rewrite split_char_app by exact Hp. f_equal. apply IH. discriminate.
Qed.

(** The pieces of a split hold no separator. *)
Lemma split_char_pieces (sep : ascii) (s : string) :
  Forall (fun p => PyRepr.has_char sep p = false) (PyStr.split_char sep s).
Proof.
  induction s as [|c s IH]; simpl; [repeat constructor|].
  destruct (Ascii.eqb c sep) eqn:E.
  - constructor; [reflexivity | exact IH].
  - destruct (PyStr.split_char sep s) as [|p ps]; simpl in *.
    + repeat constructor. simpl. rewrite Ascii.eqb_sym, E. reflexivity.
    + inversion IH as [|? ? Hp Hps]; subst. constructor; [|exact Hps].
      simpl. rewrite Ascii.eqb_sym, E. exact Hp.
Qed.

Lemma lstrip_no_char (c : ascii) (s : string) :
  PyRepr.has_char c s = false -> PyRepr.has_char c (PyStr.lstrip s) = false.
Proof.
  induction s as [|d s IH]; simpl; [reflexivity|].
  intros H. destruct (PyStr.is_space d); [|exact H].
  apply orb_false_iff in H. now apply IH.
Qed.

Lemma rstrip_no_char (c : ascii) (s : string) :
  PyRepr.has_char c s = false -> PyRepr.has_char c (PyStr.rstrip s) = false.
Proof.
  induction s as [|d s IH]; [reflexivity|].
  intros H. cbn [PyRepr.has_char] in H. apply orb_false_iff in H.
  destruct H as [H1 H2]. specialize (IH H2). cbn [PyStr.rstrip].
  destruct (PyStr.rstrip s).
  - destruct (PyStr.is_space d); [reflexivity|]. simpl. now rewrite H1.
  - cbn [PyRepr.has_char]. cbn [PyRepr.has_char] in IH. now rewrite H1, IH.
Qed.

Lemma after_first_no_char (c sep : ascii) (s t : string) :
  PyRepr.has_char c s = false -> PyStr.after_first sep s = Some t ->
  PyRepr.has_char c t = false.
Proof.
  induction s as [|d s IH]; simpl; [discriminate|].
  intros H. apply orb_false_iff in H. destruct H as [H1 H2].
  destruct (Ascii.eqb d sep); [intros E; now injection E as <- | now apply IH].
Qed.

Lemma digit_not_space (c : ascii) : PyStr.isdigit c = true -> PyStr.is_space c = false.
Proof.
  unfold PyStr.isdigit, PyStr.is_space. cbv zeta.
  set (n := nat_of_ascii c). intros H.
  apply andb_true_iff in H. destruct H as [H1 H2].
  apply Nat.leb_le in H1. apply orb_false_iff. split; apply andb_false_iff.
  - right. apply Nat.leb_gt. lia.
  - right. apply Nat.leb_gt. lia.
Qed.

(** ** Parsing a numbered list *)

Lemma numbered_line_shape (item : string * string) :
  item_ok item = true ->
  exists c rest,
    fst item = String c rest
    /\ PyStr.isdigit c = true
    /\ PyRepr.has_char "." (fst item) = false
    /\ PyRepr.has_char (ascii_of_nat 10) (fst item) = false
    /\ PyStr.strip (snd item) = snd item
    /\ PyStr.endswith_char (snd item) "?" = true
    /\ PyRepr.has_char (ascii_of_nat 10) (snd item) = false.
Proof.
  destruct item as [label q]. unfold item_ok. cbn [fst snd].
  intros H. apply andb_true_iff in H. destruct H as [Hl Hq].
  unfold label_ok in Hl. destruct label as [|c rest]; [discriminate|].
  apply andb_true_iff in Hl. destruct Hl as [Hl Hnl].
  apply andb_true_iff in Hl. destruct Hl as [Hd Hdot].
  unfold question_ok in Hq.
  apply andb_true_iff in Hq. destruct Hq as [Hq Hqnl].
  apply andb_true_iff in Hq. destruct Hq as [Hs He].
  apply negb_true_iff in Hnl, Hdot, Hqnl. apply String.eqb_eq in Hs.
  exists c, rest. repeat split; assumption.
Qed.

Lemma numbered_line_parsed (item : string * string) :
  item_ok item = true ->
  ResearchPlannerAgent.is_item_line (numbered_line item) = true
  /\ ResearchPlannerAgent.question_of_line (numbered_line item) = snd item
  /\ PyRepr.has_char (ascii_of_nat 10) (numbered_line item) = false.
Proof.
  intros H. destruct (numbered_line_shape item H)
    as [c [rest [Hl [Hd [Hdot [Hnl [Hs [He Hq]]]]]]]].
  pose proof (digit_not_space c Hd) as Hsp.
  unfold numbered_line. rewrite Hl in *. split; [|split].
  - unfold ResearchPlannerAgent.is_item_line, PyStr.strip.
    cbn [String.append]. rewrite lstrip_nonspace by exact Hsp.
    rewrite rstrip_cons by exact Hsp. now rewrite Hd.
  - unfold ResearchPlannerAgent.question_of_line, PyStr.split1_last.
    change (". " +:+ snd item) with (String "." (String " " (snd item))).
    rewrite after_first_app by exact Hdot.
    unfold PyStr.strip. cbn [PyStr.lstrip].
    change (PyStr.is_space " ") with true. cbv iota.
    exact Hs.
  - rewrite !has_char_app, Hnl, Hq. reflexivity.
Qed.

Lemma parse_numbered_lines (items : list (string * string)) :
  forallb item_ok items = true ->
  ResearchPlannerAgent.parse_lines (map numbered_line items) = map snd items.
Proof.
  induction items as [|item items IH]; simpl; [reflexivity|].
  intros H. apply andb_true_iff in H. destruct H as [Hi Hr].
  destruct (numbered_line_parsed item Hi) as [H1 [H2 _]].
  destruct (numbered_line_shape item Hi) as [_ [_ [_ [_ [_ [_ [_ [He _]]]]]]]].
  rewrite H1, H2, He. now rewrite IH.
Qed.

Lemma join_last_char (sep : string) (parts : list string) (c : ascii) :
  parts <> [] ->
  Forall (fun p => PyStr.last_char p = Some c) parts ->
  PyStr.last_char (PyStr.join sep parts) = Some c.
Proof.
  intros Hne H. induction H as [|p ps Hp Hps IH]; [contradiction|].
  destruct ps as [|q qs]; [exact Hp|].
  change (PyStr.join sep (p :: q :: qs))
    with (p +:+ sep +:+ PyStr.join sep (q :: qs)).
  assert (Hj : PyStr.join sep (q :: qs) <> EmptyString).
  { intros E. assert (Hn : q :: qs <> []) by discriminate.
    specialize (IH Hn). rewrite E in IH. discriminate. }
  rewrite last_char_append.
  - rewrite last_char_append by exact Hj. apply IH. discriminate.
  - destruct sep; simpl; [exact Hj | discriminate].
Qed.

Lemma numbered_list_stripped (items : list (string * string)) :
  forallb item_ok items = true ->
  PyStr.strip (numbered_list items) = numbered_list items.
Proof.
  intros H. destruct items as [|item items]; [reflexivity|].
  assert (Hq : Forall (fun p => PyStr.last_char p = Some "?"%char)
                 (map numbered_line (item :: items))).
  { apply Forall_forall. intros p Hp. apply in_map_iff in Hp.
    destruct Hp as [it [<- Hin]].
    rewrite forallb_forall in H. specialize (H it Hin).
    destruct (numbered_line_shape it H) as [_ [_ [_ [_ [_ [_ [_ [He _]]]]]]]].
    apply endswith_char_app in He. destruct He as [t Ht].
    unfold numbered_line. rewrite Ht.
    rewrite last_char_append by (simpl; discriminate).
    rewrite last_char_append by (destruct t; simpl; discriminate).
    rewrite last_char_append by discriminate. reflexivity. }
  assert (Hne : map numbered_line (item :: items) <> []) by (simpl; discriminate).
  pose proof (join_last_char PyStr.nl _ "?"%char Hne Hq) as Hl.
  simpl in H. apply andb_true_iff in H. destruct H as [Hi _].
  destruct (numbered_line_shape item Hi) as [c [rest [Hlab [Hd _]]]].
  pose proof (digit_not_space c Hd) as Hsp.
  unfold PyStr.strip.
  assert (Hhead : exists t, numbered_list (item :: items) = String c t).
  { unfold numbered_list. cbn [map]. unfold numbered_line at 1. rewrite Hlab.
    destruct (map numbered_line items); simpl; eexists; reflexivity. }
  destruct Hhead as [t Ht]. unfold numbered_list in *. rewrite Ht in *.
  rewrite lstrip_nonspace by exact Hsp.
  now apply (rstrip_fixed _ "?"%char).
Qed.

(** X8. Parsing reads a well-formed numbered list back: for an ASCII
    completion made of lines [label. question], where each label starts
    with a digit and each question is free of surrounding whitespace, holds
    no line break and ends in a question mark, the planner's questions are
    exactly the questions of the list, in order, cut after the sixth.  (On
    ASCII text the whitespace and digits of the embedding are Python's.) *)
Theorem numbered_list_round_trip (items : list (string * string))
    (Hascii : forallb item_ascii items = true)
    (Hitems : forallb item_ok items = true) :
  ResearchPlannerAgent.parse_questions (numbered_list items)
  = firstn 6 (map snd items).
Proof.
  unfold ResearchPlannerAgent.parse_questions.
  rewrite numbered_list_stripped by exact Hitems.
  destruct items as [|item items]; [reflexivity|].
  unfold numbered_list. change PyStr.nl with (String (ascii_of_nat 10) EmptyString).
  rewrite split_join.
  - now rewrite parse_numbered_lines.
  - discriminate.
  - apply Forall_forall. intros p Hp. apply in_map_iff in Hp.
    destruct Hp as [it [<- Hin]].
    rewrite forallb_forall in Hitems.
    now destruct (numbered_line_parsed it (Hitems it Hin)) as [_ [_ Hn]].
Qed.

Lemma numbered_list_round_trip_witness :
  ResearchPlannerAgent.parse_questions
    (numbered_list [ ("1", "What is a qubit?"); ("2", "Who builds them?") ])
  = firstn 6 (map snd [ ("1", "What is a qubit?"); ("2", "Who builds them?") ]).
Proof.
  exact (numbered_list_round_trip
           [ ("1", "What is a qubit?"); ("2", "Who builds them?") ] eq_refl eq_refl).
Defined.

(** X9. Every question the planner stores is clean: it has no leading or
    trailing whitespace (stripping it again changes nothing), it is not
    empty, and it holds no line break. *)
Theorem parsed_questions_clean (response q : string) :
  In q (ResearchPlannerAgent.parse_questions response) ->
  PyStr.strip q = q
  /\ q <> EmptyString
  /\ PyRepr.has_char (ascii_of_nat 10) q = false.
Proof.
  unfold ResearchPlannerAgent.parse_questions. intros H.
  apply firstn_incl in H. rewrite parse_lines_filter in H.
  apply filter_In in H. destruct H as [H Hq].
  apply in_map_iff in H. destruct H as [line [Hl H]].
  apply filter_In in H. destruct H as [Hin _].
  split; [|split].
  - rewrite <- Hl. unfold ResearchPlannerAgent.question_of_line. apply strip_idem.
  - intros E. rewrite E in Hq. discriminate.
  - pose proof (split_char_pieces (ascii_of_nat 10) (PyStr.strip response)) as Hp.
    rewrite Forall_forall in Hp. specialize (Hp line Hin).
    rewrite <- Hl. unfold ResearchPlannerAgent.question_of_line, PyStr.strip.
    apply rstrip_no_char, lstrip_no_char. unfold PyStr.split1_last.
    destruct (PyStr.after_first "." line) as [t|] eqn:E; [|exact Hp].
    eapply after_first_no_char; eauto.
Qed.

Lemma parsed_questions_clean_witness :
  PyStr.strip "What limits current quantum hardware?"
  = "What limits current quantum hardware?"
  /\ "What limits current quantum hardware?" <> EmptyString
  /\ PyRepr.has_char (ascii_of_nat 10) "What limits current quantum hardware?" = false.
Proof.
  apply (parsed_questions_clean three_questions).
  vm_compute. right. right. now left.
Defined.

(** ** Ranking: the best come first, ties keep their order *)

Section RankingOrder.

Variable key : Source -> Q.

Lemma sorted_app_order {A : Type} (R : A -> A -> Prop) (a b : list A) :
  StronglySorted R (a ++ b) -> forall x y, In x a -> In y b -> R x y.
Proof.
  induction a as [|z a IH]; simpl; intros H x y Hx Hy; [contradiction|].
  inversion H as [|? ? Hs Hf]; subst. destruct Hx as [->|Hx].
  - rewrite Forall_forall in Hf. apply Hf. apply in_or_app. now right.
  - now apply IH.
Qed.

Lemma insert_desc_with_key (v : Q) (x : Source) (l : list Source) :
  with_key key v (insert_desc key x l) = with_key key v (x :: l).
Proof.
  induction l as [|y ys IH]; [reflexivity|].
  cbn [insert_desc]. destruct (Qlt_le_dec (key x) (key y)) as [Hlt|Hle];
    [|reflexivity].
  unfold with_key in *. cbn [filter] in *. rewrite IH.
  destruct (Qeq_bool (key x) v) eqn:Ex; [|reflexivity].
  destruct (Qeq_bool (key y) v) eqn:Ey; [|reflexivity].
  apply Qeq_bool_iff in Ex, Ey. exfalso.
  rewrite Ex, Ey in Hlt. exact (Qlt_irrefl _ Hlt).
Qed.

Lemma sorted_desc_with_key (v : Q) (l : list Source) :
  with_key key v (sorted_desc key l) = with_key key v l.
Proof.
  induction l as [|x xs IH]; [reflexivity|].
  cbn [sorted_desc]. rewrite insert_desc_with_key.
  unfold with_key in *. cbn [filter]. now rewrite IH.
Qed.

(** X10. The ranking used for the source lists is a true top-n selection
    and is stable: after sorting by a key, highest first, and keeping the
    first [n], every source kept has a key at least as high as every source
    cut off, nothing is invented or lost before the cut, and sources with
    equal keys stay in the order in which they were found. *)
Theorem ranking_keeps_the_best (n : nat) (l : list Source) (v : Q) :
  let ranked := sorted_desc key l in
  (forall x y, In x (firstn n ranked) -> In y (skipn n ranked) ->
               (key y <= key x)%Q)
  /\ Permutation l (firstn n ranked ++ skipn n ranked)
  /\ with_key key v ranked = with_key key v l
  /\ List.length (firstn n ranked) = Nat.min n (List.length l).
Proof.
  cbv zeta. split; [|split; [|split]].
  - intros x y Hx Hy.
    pose proof (sorted_desc_sorted key l) as Hs.
    rewrite <- (firstn_skipn n (sorted_desc key l)) in Hs.
    exact (sorted_app_order _ _ _ Hs x y Hx Hy).
  - rewrite firstn_skipn. apply sorted_desc_perm.
  - apply sorted_desc_with_key.
  - now rewrite length_firstn, sorted_desc_length.
Qed.

End RankingOrder.

(** ** Deduplication *)

Section DedupMore.

Variable hash : string -> Z.

Lemma dedup_from_fixed (l : list Source) :
  forall seen : list Z,
    NoDup (map (InternalResearchAgent.content_hash hash) l) ->
    (forall x, In x l -> ~ In (InternalResearchAgent.content_hash hash x) seen) ->
    InternalResearchAgent.dedup_from hash seen l = l.
Proof.
  induction l as [|y ys IH]; intros seen Hn Hs; [reflexivity|].
  cbn [InternalResearchAgent.dedup_from].
  destruct (existsb _ seen) eqn:E.
  - apply seen_In in E. exfalso. apply (Hs y); [now left | exact E].
  - f_equal. inversion Hn as [|? ? Hy Hr]; subst. apply IH; [exact Hr|].
    intros x Hx [Hin|Hin].
    + apply Hy. rewrite Hin. now apply in_map.
    + apply (Hs x); [now right | exact Hin].
Qed.

Lemma dedup_from_length (l : list Source) :
  forall seen : list Z,
    (List.length (InternalResearchAgent.dedup_from hash seen l) <= List.length l)%nat.
Proof.
  induction l as [|y ys IH]; intros seen; simpl; [lia|].
  destruct (existsb _ seen); simpl.
  - specialize (IH seen). lia.
  - specialize (IH (InternalResearchAgent.content_hash hash y :: seen)). lia.
Qed.

(** X11. Deduplication is idempotent and drops nothing it need not: a list
    in which no two sources share a content hash comes back unchanged, the
    outcome is never longer than the input, and deduplicating the outcome
    again changes nothing. *)
Theorem deduplicate_idempotent (l : list Source) :
  InternalResearchAgent._deduplicate_sources hash
    (InternalResearchAgent._deduplicate_sources hash l)
  = InternalResearchAgent._deduplicate_sources hash l
  /\ (List.length (InternalResearchAgent._deduplicate_sources hash l)
      <= List.length l)%nat
  /\ (NoDup (map (InternalResearchAgent.content_hash hash) l) ->
      InternalResearchAgent._deduplicate_sources hash l = l).
Proof.
  assert (H : forall m, NoDup (map (InternalResearchAgent.content_hash hash) m) ->
                        InternalResearchAgent._deduplicate_sources hash m = m).
  { intros m Hm. unfold InternalResearchAgent._deduplicate_sources.
    apply dedup_from_fixed; [exact Hm | intros x _ []]. }
  split; [|split; [|apply H]].
  - apply H. unfold InternalResearchAgent._deduplicate_sources.
    apply dedup_from_NoDup.
  - apply dedup_from_length.
Qed.

End DedupMore.

(** ** Where the sources of a pass come from *)

Lemma combine_seq_In {A : Type} (l : list A) :
  forall (a i : nat) (x : A),
    In (i, x) (combine (seq a (List.length l)) l)
    <-> (a <= i)%nat /\ nth_error l (i - a) = Some x.
Proof.
  induction l as [|y ys IH]; intros a i x; simpl.
  - split; [intros [] | intros [_ H]; now destruct (i - a)%nat].
  - rewrite IH. split.
    + intros [H|[Hle Hn]].
      * injection H as -> ->. split; [lia|]. now rewrite Nat.sub_diag.
      * split; [lia|]. replace (i - a)%nat with (S (i - S a)) by lia. exact Hn.
    + intros [Hle Hn]. destruct (Nat.eq_dec a i) as [->|Hne].
      * left. rewrite Nat.sub_diag in Hn. simpl in Hn. now injection Hn as ->.
      * right. split; [lia|].
        replace (i - a)%nat with (S (i - S a)) in Hn by lia. exact Hn.
Qed.

Lemma enumerate_In {A : Type} (l : list A) (i : nat) (x : A) :
  In (i, x) (enumerate l) <-> nth_error l i = Some x.
Proof.
  unfold enumerate. rewrite combine_seq_In, Nat.sub_0_r. split; [tauto|].
  intros H. split; [lia | exact H].
Qed.

Lemma internal_collect_In (questions : list string)
    (results : nat -> string -> Result (list VectorHit)) (x : Source) :
  In x (InternalResearchAgent.collect questions results)
  <-> exists i q hits h,
        nth_error questions i = Some q
        /\ results i q = Returned hits
        /\ In h hits
        /\ x = InternalResearchAgent.source_of_hit q h.
Proof.
  unfold InternalResearchAgent.collect. rewrite in_flat_map. split.
  - intros [[i q] [Hin Hx]]. apply enumerate_In in Hin. cbn [fst snd] in Hx.
    destruct (results i q) as [hits|] eqn:E; [|contradiction].
    apply in_map_iff in Hx. destruct Hx as [h [Hh Hin']].
    exists i, q, hits, h. auto.
  - intros [i [q [hits [h [Hn [Hr [Hh ->]]]]]]]. exists (i, q). split.
    + now apply enumerate_In.
    + cbn [fst snd]. rewrite Hr. now apply in_map.
Qed.

Lemma external_collect_In (questions : list string)
    (results : nat -> string -> Result (list SearchHit)) (x : Source) :
  In x (ExternalResearchAgent.collect questions results)
  <-> exists i q hits h,
        nth_error questions i = Some q
        /\ results i q = Returned hits
        /\ In h hits
        /\ x = ExternalResearchAgent.source_of_hit q h.
Proof.
  unfold ExternalResearchAgent.collect. rewrite in_flat_map. split.
  - intros [[i q] [Hin Hx]]. apply enumerate_In in Hin. cbn [fst snd] in Hx.
    destruct (results i q) as [hits|] eqn:E; [|contradiction].
    apply in_map_iff in Hx. destruct Hx as [h [Hh Hin']].
    exists i, q, hits, h. auto.
  - intros [i [q [hits [h [Hn [Hr [Hh ->]]]]]]]. exists (i, q). split.
    + now apply enumerate_In.
    + cbn [fst snd]. rewrite Hr. now apply in_map.
Qed.

(** X12. Per-question failures in the internal researcher are isolated and
    silent: the candidates of a pass are exactly the hits of the question
    tasks that returned, each attributed to its own question, so a task
    that raised adds nothing and takes nothing from the others; and as long
    as the pass itself does not fail no error is recorded for it. *)
Theorem internal_question_failures_isolated (hash : string -> Z)
    (s : ResearchState) (io : InternalResearchAgent.IO) (x : Source) :
  (In x (InternalResearchAgent.collect (research_questions s)
           (InternalResearchAgent.question_results io))
   <-> exists i q hits h,
         nth_error (research_questions s) i = Some q
         /\ InternalResearchAgent.question_results io i q = Returned hits
         /\ In h hits
         /\ x = InternalResearchAgent.source_of_hit q h)
  /\ match InternalResearchAgent.failure io with
     | None => errors (InternalResearchAgent.execute hash s io) = errors s
     | Some e =>
         errors (InternalResearchAgent.execute hash s io)
         = errors s ++ [internal_failure e]
         /\ internal_sources (InternalResearchAgent.execute hash s io) = []
     end.
Proof.
  split; [apply internal_collect_In|].
  unfold InternalResearchAgent.execute.
  destruct (InternalResearchAgent.failure io); [split|]; reflexivity.
Qed.

Lemma internal_source_origin (hash : string -> Z) (s : ResearchState)
    (io : InternalResearchAgent.IO) (x : Source) :
  In x (internal_sources (InternalResearchAgent.execute hash s io)) ->
  In (question x) (research_questions s)
  /\ source_type x = "internal"
  /\ credibility_score x = 9 # 10
  /\ url x = None
  /\ exists i hits h,
       InternalResearchAgent.question_results io i (question x) = Returned hits
       /\ In h hits
       /\ content x = hit_text h
       /\ relevance_score x = hit_score h.
Proof.
  unfold InternalResearchAgent.execute.
  destruct (InternalResearchAgent.failure io); [intros []|].
  cbn [internal_sources set_current_step set_internal_sources].
  intros H. apply firstn_incl in H.
  apply (Permutation_in _ (Permutation_sym (sorted_desc_perm relevance_score _))) in H.
  apply deduplicate_first in H. destruct H as [l1 [l2 [Hl _]]].
  assert (Hin : In x (InternalResearchAgent.collect (research_questions s)
                        (InternalResearchAgent.question_results io))).
  { rewrite Hl. apply in_or_app. right. now left. }
  apply internal_collect_In in Hin.
  destruct Hin as [i [q [hits [h [Hn [Hr [Hh ->]]]]]]].
  cbn [question source_type credibility_score url content relevance_score
       InternalResearchAgent.source_of_hit].
  split; [eapply nth_error_In; eauto|].
  repeat split. exists i, hits, h. auto.
Qed.

(** X13. Every source in the internal list of a pass is one of the hits
    found for a question of the record: it is attributed to that question,
    tagged internal with credibility 0.9 and no URL, and carries the hit's
    text and score. *)
Theorem internal_sources_attributed (hash : string -> Z) (s : ResearchState)
    (io : InternalResearchAgent.IO) (x : Source) :
  In x (internal_sources (InternalResearchAgent.execute hash s io)) ->
  In (question x) (research_questions s)
  /\ source_type x = "internal"
  /\ credibility_score x = 9 # 10
  /\ url x = None
  /\ exists i hits h,
       InternalResearchAgent.question_results io i (question x) = Returned hits
       /\ In h hits
       /\ content x = hit_text h
       /\ relevance_score x = hit_score h.
Proof. intros H. now apply (internal_source_origin hash s io). Qed.

Lemma internal_sources_attributed_witness :
  In (question (InternalResearchAgent.source_of_hit sample_question sample_hit))
     (research_questions state_one_question)
  /\ source_type (InternalResearchAgent.source_of_hit sample_question sample_hit)
     = "internal"
  /\ credibility_score (InternalResearchAgent.source_of_hit sample_question sample_hit)
     = 9 # 10
  /\ url (InternalResearchAgent.source_of_hit sample_question sample_hit) = None
  /\ exists i hits h,
       InternalResearchAgent.question_results internal_io_one i
         (question (InternalResearchAgent.source_of_hit sample_question sample_hit))
       = Returned hits
       /\ In h hits
       /\ content (InternalResearchAgent.source_of_hit sample_question sample_hit)
          = hit_text h
       /\ relevance_score (InternalResearchAgent.source_of_hit sample_question sample_hit)
          = hit_score h.
Proof.
  apply (internal_sources_attributed sample_hash state_one_question internal_io_one).
  vm_compute. now left.
Defined.

(** X14. Every source in the external list of a pass passed the quality
    filter and is attributed: its relevance is at least 0.3, its credibility
    at least 0.4 and its content at least 200 characters long; it is tagged
    external, carries a URL field and belongs to a question of the record.
    The list is ranked by credibility times relevance, highest first. *)
Theorem external_sources_meet_thresholds (s : ResearchState)
    (io : ExternalResearchAgent.IO) (x : Source) :
  In x (external_sources (ExternalResearchAgent.execute s io)) ->
  (3 # 10 <= relevance_score x)%Q
  /\ (4 # 10 <= credibility_score x)%Q
  /\ (200 <= String.length (content x))%nat
  /\ (200 <= PyStr.len (content x))%nat
  /\ source_type x = "external"
  /\ (exists u, url x = Some u)
  /\ In (question x) (research_questions s)
  /\ StronglySorted (desc_by ExternalResearchAgent.rank_key)
       (external_sources (ExternalResearchAgent.execute s io)).
Proof.
  unfold ExternalResearchAgent.execute.
  destruct (ExternalResearchAgent.failure io); [intros []|].
  cbn [external_sources set_current_step set_external_sources].
  intros H.
  assert (Hs : StronglySorted (desc_by ExternalResearchAgent.rank_key)
                 (firstn 25
                    (sorted_desc ExternalResearchAgent.rank_key
                       (ExternalResearchAgent._filter_quality_sources
                          (ExternalResearchAgent.collect (research_questions s)
                             (ExternalResearchAgent.question_results io)))))).
  { apply firstn_sorted, sorted_desc_sorted. }
  apply firstn_incl in H.
  apply (Permutation_in _ (Permutation_sym
                             (sorted_desc_perm ExternalResearchAgent.rank_key _))) in H.
  unfold ExternalResearchAgent._filter_quality_sources in H.
  apply filter_In in H. destruct H as [Hin Hq].
  unfold ExternalResearchAgent.is_quality_source in Hq.
  apply andb_true_iff in Hq. destruct Hq as [Hq Hlen].
  apply andb_true_iff in Hq. destruct Hq as [Hrel Hcred].
  apply Qge_bool_iff in Hrel, Hcred. apply Nat.leb_le in Hlen.
  apply external_collect_In in Hin.
  destruct Hin as [i [q [hits [h [Hn [Hr [Hh Hx]]]]]]].
  pose proof (len_le_length (content x)) as Hbytes.
  repeat split; try assumption.
  - lia.
  - now rewrite Hx.
  - rewrite Hx. eexists. reflexivity.
  - rewrite Hx. cbn [question ExternalResearchAgent.source_of_hit].
    eapply nth_error_In; eauto.
Qed.

(** ** The vector store and the internal search of one question *)

Lemma process_documents_sound (threshold : Q)
    (results : VectorStoreService.QueryResult) (docs : list string) :
  forall (i : nat) (hits : list VectorHit),
    VectorStoreService.process_documents threshold results i docs = Some hits ->
    (List.length hits <= List.length docs)%nat
    /\ Forall (fun h =>
                 (threshold <= hit_score h)%Q
                 /\ hit_title h = None
                 /\ exists j d,
                      (i <= j)%nat
                      /\ nth_error docs (j - i) = Some (hit_text h)
                      /\ nth_error (VectorStoreService.distances results) j = Some d
                      /\ hit_score h = (1 - d)%Q) hits.
Proof.
  induction docs as [|doc rest IH]; intros i hits H.
  - injection H as <-. split; [simpl; lia | constructor].
  - cbn [VectorStoreService.process_documents] in H.
    destruct (nth_error (VectorStoreService.distances results) i) as [d|] eqn:Ed;
      [|discriminate].
    assert (Hshift : forall tl,
               Forall (fun h =>
                         (threshold <= hit_score h)%Q
                         /\ hit_title h = None
                         /\ exists j d0,
                              (S i <= j)%nat
                              /\ nth_error rest (j - S i) = Some (hit_text h)
                              /\ nth_error (VectorStoreService.distances results) j
                                 = Some d0
                              /\ hit_score h = (1 - d0)%Q) tl ->
               Forall (fun h =>
                         (threshold <= hit_score h)%Q
                         /\ hit_title h = None
                         /\ exists j d0,
                              (i <= j)%nat
                              /\ nth_error (doc :: rest) (j - i) = Some (hit_text h)
                              /\ nth_error (VectorStoreService.distances results) j
                                 = Some d0
                              /\ hit_score h = (1 - d0)%Q) tl).
    { intros tl. apply Forall_impl. intros h [H1 [H2 [j [d0 [Hj [Hn [Hd Hsc]]]]]]].
      split; [exact H1|]. split; [exact H2|]. exists j, d0.
      split; [lia|]. split; [|auto].
      replace (j - i)%nat with (S (j - S i)) by lia. exact Hn. }
    destruct (Qge_bool (1 - d) threshold) eqn:Et.
    + apply Qge_bool_iff in Et.
      assert (Hhead : forall m,
                 (threshold <= hit_score
                                 {| hit_text := doc; hit_title := None;
                                    hit_score := (1 - d)%Q; hit_metadata := m |})%Q
                 /\ hit_title {| hit_text := doc; hit_title := None;
                                 hit_score := (1 - d)%Q; hit_metadata := m |} = None
                 /\ exists j d0,
                      (i <= j)%nat
                      /\ nth_error (doc :: rest) (j - i)
                         = Some (hit_text {| hit_text := doc; hit_title := None;
                                             hit_score := (1 - d)%Q;
                                             hit_metadata := m |})
                      /\ nth_error (VectorStoreService.distances results) j = Some d0
                      /\ hit_score {| hit_text := doc; hit_title := None;
                                      hit_score := (1 - d)%Q; hit_metadata := m |}
                         = (1 - d0)%Q).
      { intros m. split; [exact Et|]. split; [reflexivity|]. exists i, d.
        split; [lia|]. rewrite Nat.sub_diag. auto. }
      destruct (VectorStoreService.metadatas results) as [|m0 ms] eqn:Em.
      * destruct (VectorStoreService.process_documents threshold results (S i) rest)
          as [tl|] eqn:Er; [|discriminate].
        injection H as <-. destruct (IH (S i) tl Er) as [Hlen Hall].
        split; [simpl; lia|]. constructor; [apply Hhead | now apply Hshift].
      * destruct (nth_error (m0 :: ms) i) as [m|]; [|discriminate].
        destruct (VectorStoreService.process_documents threshold results (S i) rest)
          as [tl|] eqn:Er; [|discriminate].
        injection H as <-. destruct (IH (S i) tl Er) as [Hlen Hall].
        split; [simpl; lia|]. constructor; [apply Hhead | now apply Hshift].
    + destruct (IH (S i) hits H) as [Hlen Hall].
      split; [simpl; lia | now apply Hshift].
Qed.

Lemma process_documents_short (threshold : Q)
    (results : VectorStoreService.QueryResult) (docs : list string) :
  forall i : nat,
    (i <= List.length (VectorStoreService.distances results))%nat ->
    (List.length (VectorStoreService.distances results) < i + List.length docs)%nat ->
    VectorStoreService.process_documents threshold results i docs = None.
Proof.
  induction docs as [|doc rest IH]; intros i Hi H; [simpl in H; lia|].
  cbn [VectorStoreService.process_documents].
  destruct (nth_error (VectorStoreService.distances results) i) as [d|] eqn:Ed;
    [|reflexivity].
  assert (Hlt : (i < List.length (VectorStoreService.distances results))%nat).
  { apply nth_error_Some. congruence. }
  assert (Hrec : VectorStoreService.process_documents threshold results (S i) rest
                 = None).
  { apply IH; [lia | simpl in H; lia]. }
  rewrite Hrec.
  destruct (Qge_bool (1 - d) threshold); [|reflexivity].
  destruct (VectorStoreService.metadatas results) as [|m0 ms]; [reflexivity|].
  destruct (nth_error (m0 :: ms) i); reflexivity.
Qed.

(** X15. The similarity search of the vector store never raises and never
    returns a hit below the threshold: each hit is a document of the
    collection's answer with score 1 minus its distance, at least the
    threshold, in the order of the answer.  It is all or nothing: a failed
    query, or an answer with fewer distances than documents, gives the
    empty list. *)
Theorem similarity_search_sound (query : string -> nat -> Result VectorStoreService.QueryResult)
    (text : string) (k : nat) (threshold : Q) :
  let hits := VectorStoreService.similarity_search query text k threshold in
  match query text k with
  | Raised _ => hits = []
  | Returned results =>
      (List.length hits <= List.length (VectorStoreService.documents results))%nat
      /\ Forall (fun h =>
                   (threshold <= hit_score h)%Q
                   /\ hit_title h = None
                   /\ exists j d,
                        nth_error (VectorStoreService.documents results) j
                        = Some (hit_text h)
                        /\ nth_error (VectorStoreService.distances results) j = Some d
                        /\ hit_score h = (1 - d)%Q) hits
      /\ ((List.length (VectorStoreService.distances results)
           < List.length (VectorStoreService.documents results))%nat ->
          hits = [])
  end.
Proof.
  cbv zeta. unfold VectorStoreService.similarity_search.
  destruct (query text k) as [results|e]; [|reflexivity].
  destruct (VectorStoreService.process_documents threshold results 0
              (VectorStoreService.documents results)) as [hits|] eqn:E.
  - destruct (process_documents_sound _ _ _ _ _ E) as [Hlen Hall].
    split; [exact Hlen|]. split.
    + eapply Forall_impl; [|exact Hall].
      intros h [H1 [H2 [j [d [_ [Hn [Hd Hs]]]]]]].
      rewrite Nat.sub_0_r in Hn. split; [exact H1|]. split; [exact H2|].
      exists j, d. auto.
    + intros Hshort.
      rewrite process_documents_short in E by (simpl; lia). discriminate.
  - split; [simpl; lia|]. split; [constructor | reflexivity].
Qed.

Lemma similarity_search_threshold (query : string -> nat -> Result VectorStoreService.QueryResult)
    (text : string) (k : nat) (threshold : Q) :
  Forall (fun h => (threshold <= hit_score h)%Q)
    (VectorStoreService.similarity_search query text k threshold).
Proof.
  unfold VectorStoreService.similarity_search.
  destruct (query text k) as [results|e]; [|constructor].
  destruct (VectorStoreService.process_documents threshold results 0
              (VectorStoreService.documents results)) as [hits|] eqn:E;
    [|constructor].
  destruct (process_documents_sound _ _ _ _ _ E) as [_ Hall].
  eapply Forall_impl; [|exact Hall]. now intros h [H _].
Qed.

Lemma internal_research_question_scores (sio : InternalResearchAgent.SearchIO)
    (question0 : string) :
  Forall (fun h => (5 # 10 <= hit_score h)%Q)
    (InternalResearchAgent._research_question sio question0).
Proof.
  unfold InternalResearchAgent._research_question. apply Forall_app. split.
  - eapply Forall_impl; [|apply similarity_search_threshold].
    intros h H. eapply Qle_trans; [|exact H]. discriminate.
  - destruct (String.eqb _ _); [constructor | apply similarity_search_threshold].
Qed.

(** X16. The internal search of one question never returns a hit scored
    below 0.5: it is the primary search (threshold 0.6) followed, only when
    the expanded query differs from the question, by the expanded search
    (threshold 0.5); when the expansion fails the question itself is used,
    so only the primary results remain.  A pass fed by this search stores no
    internal source with relevance below 0.5. *)
Theorem internal_search_scores (hash : string -> Z) (s : ResearchState)
    (sios : nat -> string -> InternalResearchAgent.SearchIO)
    (sio : InternalResearchAgent.SearchIO) (question0 : string) :
  let io :=
    {| InternalResearchAgent.question_results :=
         fun i q => Returned (InternalResearchAgent._research_question (sios i q) q);
       InternalResearchAgent.failure := None |} in
  Forall (fun h => (5 # 10 <= hit_score h)%Q)
    (InternalResearchAgent._research_question sio question0)
  /\ match InternalResearchAgent.expand_completion sio with
     | Raised _ =>
         InternalResearchAgent._research_question sio question0
         = VectorStoreService.similarity_search (InternalResearchAgent.query sio)
             question0 10 (6 # 10)
         /\ Forall (fun h => (6 # 10 <= hit_score h)%Q)
              (InternalResearchAgent._research_question sio question0)
     | Returned _ => True
     end
  /\ Forall (fun x => (5 # 10 <= relevance_score x)%Q)
       (internal_sources (InternalResearchAgent.execute hash s io)).
Proof.
  cbv zeta. split; [apply internal_research_question_scores|]. split.
  - unfold InternalResearchAgent._research_question, InternalResearchAgent._expand_query.
    destruct (InternalResearchAgent.expand_completion sio); [exact I|].
    rewrite String.eqb_refl, app_nil_r.
    split; [reflexivity | apply similarity_search_threshold].
  - apply Forall_forall. intros x Hx.
    apply internal_source_origin in Hx.
    destruct Hx as [_ [_ [_ [_ [i [hits [h [Hr [Hh [_ Hs]]]]]]]]]].
    cbn [InternalResearchAgent.question_results] in Hr. injection Hr as <-.
    rewrite Hs.
    pose proof (internal_research_question_scores (sios i (question x)) (question x))
      as Hall.
    rewrite Forall_forall in Hall. now apply Hall.
Qed.

(** ** Scoring of external results *)

Lemma filter_length_le {A : Type} (f : A -> bool) (l : list A) :
  (List.length (filter f l) <= List.length l)%nat.
Proof.
  induction l as [|x xs IH]; simpl; [lia|]. destruct (f x); simpl; lia.
Qed.

Lemma filter_all {A : Type} (f : A -> bool) (l : list A) :
  (forall x, In x l -> f x = true) -> filter f l = l.
Proof.
  induction l as [|x xs IH]; simpl; intros H; [reflexivity|].
  rewrite (H x) by now left. f_equal. apply IH. intros y Hy. apply H. now right.
Qed.

Lemma filter_none {A : Type} (f : A -> bool) (l : list A) :
  (forall x, In x l -> f x = false) -> filter f l = [].
Proof.
  induction l as [|x xs IH]; simpl; intros H; [reflexivity|].
  rewrite (H x) by now left. apply IH. intros y Hy. apply H. now right.
Qed.

Lemma relevance_bounds (content0 : option string) (question0 : string) :
  (1 # 10 <= ExternalResearchAgent._score_relevance content0 question0)%Q
  /\ (ExternalResearchAgent._score_relevance content0 question0 <= 1)%Q.
Proof.
  unfold ExternalResearchAgent._score_relevance.
  destruct content0; [|split; discriminate].
  destruct (ExternalResearchAgent.word_set question0); [split; discriminate|].
  split; [apply Q.le_max_r|].
  apply Q.max_lub; [apply Q.le_min_r | discriminate].
Qed.

(** X17. The relevance score of an external result always lies between 0.1
    and 1, and it is the fallback 0.5 when the page gave no text.  For an
    ASCII question and an ASCII content (where the lower-casing and the
    word splitting of the embedding are Python's) it is the fallback 0.5
    when the question holds no word, 1 when every word of the question
    occurs among the words of the content (case ignored), and the floor 0.1
    when none does. *)
Theorem relevance_score_range (content0 : option string) (question0 text : string) :
  let score := ExternalResearchAgent._score_relevance content0 question0 in
  (1 # 10 <= score)%Q /\ (score <= 1)%Q
  /\ ExternalResearchAgent._score_relevance None question0 = 5 # 10
  /\ (PyStr.is_ascii question0 = true -> PyStr.is_ascii text = true ->
      (ExternalResearchAgent.word_set question0 = [] ->
       ExternalResearchAgent._score_relevance (Some text) question0 = 5 # 10)
      /\ (ExternalResearchAgent.word_set question0 <> [] ->
          (forall w, In w (ExternalResearchAgent.word_set question0) ->
                     In w (ExternalResearchAgent.word_set text)) ->
          (ExternalResearchAgent._score_relevance (Some text) question0 == 1)%Q)
      /\ (ExternalResearchAgent.word_set question0 <> [] ->
          (forall w, In w (ExternalResearchAgent.word_set question0) ->
                     ~ In w (ExternalResearchAgent.word_set text)) ->
          (ExternalResearchAgent._score_relevance (Some text) question0 == 1 # 10)%Q)).
Proof.
  cbv zeta. split; [|split; [|split]].
  1: apply relevance_bounds.
  1: apply relevance_bounds.
  1: reflexivity.
  intros _ _. split; [|split].
  - intros H. unfold ExternalResearchAgent._score_relevance. now rewrite H.
  - intros Hne Hall. unfold ExternalResearchAgent._score_relevance.
    rewrite filter_all.
    + destruct (ExternalResearchAgent.word_set question0) as [|w ws];
        [contradiction|].
      set (n := inject_Z (Z.of_nat (List.length (w :: ws)))).
      assert (Hn : ~ (n == 0)%Q).
      { unfold n, Qeq, inject_Z. simpl. lia. }
      assert (H1 : (n / n == 1)%Q) by (field; exact Hn).
      rewrite H1. rewrite Q.min_l by apply Qle_refl.
      apply Q.max_l. discriminate.
    + intros w Hw. apply existsb_exists. exists w.
      split; [now apply Hall | apply String.eqb_refl].
  - intros Hne Hnone. unfold ExternalResearchAgent._score_relevance.
    rewrite filter_none.
    + destruct (ExternalResearchAgent.word_set question0) as [|w ws];
        [contradiction|].
      set (n := inject_Z (Z.of_nat (List.length (w :: ws)))).
      assert (H0 : (inject_Z (Z.of_nat (@List.length string [])) / n == 0)%Q).
      { unfold Qdiv. simpl. apply Qmult_0_l. }
      rewrite H0. rewrite Q.min_l by discriminate.
      apply Q.max_r. discriminate.
    + intros w Hw. destruct (existsb _ _) eqn:E; [|reflexivity].
      apply existsb_exists in E. destruct E as [y [Hy Heq]].
      apply String.eqb_eq in Heq. subst y. exfalso. now apply (Hnone w).
Qed.

Lemma credibility_range (result : ExternalResearchAgent.RawResult) (content0 : string) :
  (5 # 10 <= ExternalResearchAgent._score_credibility result content0)%Q
  /\ (ExternalResearchAgent._score_credibility result content0 <= 1)%Q.
Proof.
  unfold ExternalResearchAgent._score_credibility. cbv zeta.
  split; [|apply Q.le_min_r].
  apply Q.min_glb; [|discriminate].
  destruct (ExternalResearchAgent.any_in ExternalResearchAgent.high_trust _);
    [|destruct (ExternalResearchAgent.any_in ExternalResearchAgent.medium_trust _)];
    destruct (PyStr.startswith _ _);
    destruct (1000 <? PyStr.len content0)%nat; vm_compute; discriminate.
Qed.

(** X18. The credibility score of an external result always lies between
    0.5 and 1, whatever the result holds (no domain, no URL, empty content
    included); a result of an untrusted domain without HTTPS and with at
    most 1000 characters gets exactly the base 0.5, and a result of a
    high-trust domain scores at least 0.8. *)
Theorem credibility_score_range (result : ExternalResearchAgent.RawResult)
    (content0 : string) :
  let domain :=
    PyStr.lower (ExternalResearchAgent.get_or "" (ExternalResearchAgent.raw_domain result)) in
  let url :=
    PyStr.lower (ExternalResearchAgent.get_or "" (ExternalResearchAgent.raw_url result)) in
  (5 # 10 <= ExternalResearchAgent._score_credibility result content0)%Q
  /\ (ExternalResearchAgent._score_credibility result content0 <= 1)%Q
  /\ (ExternalResearchAgent.any_in ExternalResearchAgent.high_trust domain = false ->
      ExternalResearchAgent.any_in ExternalResearchAgent.medium_trust domain = false ->
      PyStr.startswith url "https" = false ->
      (PyStr.len content0 <= 1000)%nat ->
      (ExternalResearchAgent._score_credibility result content0 == 5 # 10)%Q)
  /\ (ExternalResearchAgent.any_in ExternalResearchAgent.high_trust domain = true ->
      (8 # 10 <= ExternalResearchAgent._score_credibility result content0)%Q).
Proof.
  cbv zeta. destruct (credibility_range result content0) as [Hlo Hhi].
  split; [exact Hlo|]. split; [exact Hhi|]. split.
  - intros H1 H2 H3 H4. unfold ExternalResearchAgent._score_credibility. cbv zeta.
    rewrite H1, H2, H3.
    assert ((1000 <? PyStr.len content0)%nat = false) as ->
      by (apply Nat.ltb_ge; exact H4).
    reflexivity.
  - intros H1. unfold ExternalResearchAgent._score_credibility. cbv zeta.
    rewrite H1. apply Q.min_glb; [|discriminate].
    destruct (PyStr.startswith _ _);
      destruct (1000 <? PyStr.len content0)%nat; vm_compute; discriminate.
Qed.

(** ** The external search of one question *)

Lemma process_search_result_scores (extract : string -> option string)
    (result : ExternalResearchAgent.RawResult) (question0 : string) (h : SearchHit) :
  ExternalResearchAgent._process_search_result extract result question0 = Some h ->
  sh_relevance_score h
  = Some (ExternalResearchAgent._score_relevance (Some (sh_content h)) question0)
  /\ sh_credibility_score h
     = Some (ExternalResearchAgent._score_credibility result (sh_content h))
  /\ (sh_content h = ExternalResearchAgent.get_or "" (ExternalResearchAgent.raw_content result)
      \/ exists u, ExternalResearchAgent.raw_url result = Some u
                   /\ extract u = Some (sh_content h)).
Proof.
  unfold ExternalResearchAgent._process_search_result.
  destruct (ExternalResearchAgent.raw_content result) as [[|c t]|] eqn:Ec.
  - destruct (ExternalResearchAgent.raw_url result) as [u|] eqn:Eu; [|discriminate].
    destruct (extract u) as [text|] eqn:Ee; [|discriminate].
    intros H. injection H as <-. cbn [sh_relevance_score sh_credibility_score sh_content].
    split; [reflexivity|]. split; [reflexivity|]. right. now exists u.
  - intros H. injection H as <-. cbn [sh_relevance_score sh_credibility_score sh_content].
    split; [reflexivity|]. split; [reflexivity|]. now left.
  - destruct (ExternalResearchAgent.raw_url result) as [u|] eqn:Eu; [|discriminate].
    destruct (extract u) as [text|] eqn:Ee; [|discriminate].
    intros H. injection H as <-. cbn [sh_relevance_score sh_credibility_score sh_content].
    split; [reflexivity|]. split; [reflexivity|]. right. now exists u.
Qed.

Lemma processed_results_In (sio : ExternalResearchAgent.SearchIO) (question0 : string)
    (results : list ExternalResearchAgent.RawResult) (h : SearchHit) :
  In h (ExternalResearchAgent.processed_results sio question0 results) ->
  exists result,
    In result results
    /\ ExternalResearchAgent._process_search_result
         (ExternalResearchAgent.extract_content sio) result question0 = Some h.
Proof.
  induction results as [|r rs IH]; simpl; [intros []|].
  destruct (ExternalResearchAgent._process_search_result _ r question0) as [p|] eqn:E.
  - intros [<-|H]; [exists r; auto|].
    destruct (IH H) as [x [Hx Hp]]. exists x. auto.
  - intros H. destruct (IH H) as [x [Hx Hp]]. exists x. auto.
Qed.

Lemma processed_results_length (sio : ExternalResearchAgent.SearchIO)
    (question0 : string) (results : list ExternalResearchAgent.RawResult) :
  (List.length (ExternalResearchAgent.processed_results sio question0 results)
   <= List.length results)%nat.
Proof.
  induction results as [|r rs IH]; simpl; [lia|].
  destruct (ExternalResearchAgent._process_search_result _ r question0); simpl; lia.
Qed.

(** X19. Every result the external search of one question returns is
    scored: its relevance lies between 0.1 and 1 and its credibility between
    0.5 and 1.  So the credibility threshold 0.4 of the quality filter never
    removes such a result: the source built from it is kept exactly when its
    relevance is at least 0.3 and its content has at least 200 characters
    (characters, not bytes: an accented letter counts once). *)
Theorem searched_results_scored (sio : ExternalResearchAgent.SearchIO)
    (question0 : string) (h : SearchHit) :
  In h (ExternalResearchAgent._research_question sio question0) ->
  exists r c,
    sh_relevance_score h = Some r
    /\ sh_credibility_score h = Some c
    /\ (1 # 10 <= r)%Q /\ (r <= 1)%Q
    /\ (5 # 10 <= c)%Q /\ (c <= 1)%Q
    /\ ExternalResearchAgent.is_quality_source
         (ExternalResearchAgent.source_of_hit question0 h)
       = Qge_bool r (3 # 10) && (200 <=? PyStr.len (sh_content h))%nat.
Proof.
  unfold ExternalResearchAgent._research_question. intros H.
  apply processed_results_In in H. destruct H as [result [_ Hp]].
  apply process_search_result_scores in Hp. destruct Hp as [Hr [Hc _]].
  pose proof (relevance_bounds (Some (sh_content h)) question0) as [R1 R2].
  destruct (credibility_range result (sh_content h)) as [C1 C2].
  eexists. eexists. split; [exact Hr|]. split; [exact Hc|].
  split; [exact R1|]. split; [exact R2|]. split; [exact C1|]. split; [exact C2|].
  unfold ExternalResearchAgent.is_quality_source.
  cbn [relevance_score credibility_score content ExternalResearchAgent.source_of_hit].
  rewrite Hr, Hc.
  assert (Hq : Qge_bool (ExternalResearchAgent._score_credibility result (sh_content h))
                 (4 # 10) = true).
  { apply Qge_bool_iff. eapply Qle_trans; [|exact C1]. discriminate. }
  rewrite Hq. now rewrite andb_true_r.
Qed.

(** X20. The external search of one question runs at most three searches:
    the question itself, the extracted keywords unless they are empty (also
    after a failed completion), and the rephrased question unless it equals
    the question (also after a failed completion).  It returns at most one
    hit per raw result, so at most 11 when the search service honours its
    result limits, and at most 5 when both completions fail. *)
Theorem search_strategies_bounded (sio : ExternalResearchAgent.SearchIO)
    (question0 : string)
    (Hmax : forall q n, (List.length (ExternalResearchAgent.search sio q n) <= n)%nat) :
  (List.length (ExternalResearchAgent._research_question sio question0) <= 11)%nat
  /\ (List.length (ExternalResearchAgent._research_question sio question0)
      <= List.length (ExternalResearchAgent.all_results sio question0))%nat
  /\ match ExternalResearchAgent.keywords_completion sio,
           ExternalResearchAgent.rephrase_completion sio with
     | Raised _, Raised _ =>
         ExternalResearchAgent.all_results sio question0
         = ExternalResearchAgent.search sio question0 5
         /\ (List.length (ExternalResearchAgent._research_question sio question0)
             <= 5)%nat
     | _, _ => True
     end.
Proof.
  assert (Hlen : (List.length (ExternalResearchAgent._research_question sio question0)
                  <= List.length (ExternalResearchAgent.all_results sio question0))%nat)
    by apply processed_results_length.
  assert (Hall : (List.length (ExternalResearchAgent.all_results sio question0)
                  <= 11)%nat).
  { unfold ExternalResearchAgent.all_results. cbv zeta. rewrite !length_app.
    pose proof (Hmax question0 5%nat).
    assert ((List.length
               match ExternalResearchAgent._extract_keywords sio with
               | EmptyString => []
               | String _ _ =>
                   ExternalResearchAgent.search sio
                     (ExternalResearchAgent._extract_keywords sio) 3
               end <= 3)%nat).
    { destruct (ExternalResearchAgent._extract_keywords sio); [simpl; lia | apply Hmax]. }
    assert ((List.length
               (if String.eqb (ExternalResearchAgent._rephrase_question sio question0)
                     question0
                then []
                else ExternalResearchAgent.search sio
                       (ExternalResearchAgent._rephrase_question sio question0) 3)
             <= 3)%nat).
    { destruct (String.eqb _ _); [simpl; lia | apply Hmax]. }
    lia. }
  split; [lia|]. split; [exact Hlen|].
  destruct (ExternalResearchAgent.keywords_completion sio) eqn:Ek; [exact I|].
  destruct (ExternalResearchAgent.rephrase_completion sio) eqn:Er; [exact I|].
  assert (Hd : ExternalResearchAgent.all_results sio question0
               = ExternalResearchAgent.search sio question0 5).
  { unfold ExternalResearchAgent.all_results, ExternalResearchAgent._extract_keywords,
      ExternalResearchAgent._rephrase_question. cbv zeta.
    rewrite Ek, Er, String.eqb_refl. now rewrite !app_nil_r. }
  split; [exact Hd|]. rewrite Hd in Hlen. specialize (Hmax question0 5%nat). lia.
Qed.

(** ** The scores of the quality assessment *)

Lemma fold_Qplus_bounds (l : list Q) :
  Forall unit_score l ->
  forall a : Q,
    (a <= fold_left Qplus l a)%Q
    /\ (fold_left Qplus l a <= a + inject_Z (Z.of_nat (List.length l)))%Q.
Proof.
  induction 1 as [|x xs [Hx0 Hx1] _ IH]; intros a.
  - simpl. split; [apply Qle_refl|]. rewrite Qplus_0_r. apply Qle_refl.
  - cbn [fold_left]. destruct (IH (a + x)%Q) as [H1 H2]. split.
    + eapply Qle_trans; [|exact H1]. lra.
    + eapply Qle_trans; [exact H2|].
      replace (Z.of_nat (List.length (x :: xs)))
        with (Z.of_nat (List.length xs) + 1)%Z by (simpl List.length; lia).
      rewrite inject_Z_plus. change (inject_Z 1) with 1%Q. lra.
Qed.

Lemma Qlen_pos {A : Type} (x : A) (xs : list A) : (0 < Qlen (x :: xs))%Q.
Proof. unfold Qlen, Qlt, inject_Z. simpl. lia. Qed.

Lemma Qmean_unit (x : Q) (xs : list Q) :
  Forall unit_score (x :: xs) -> unit_score (Qmean (x :: xs)).
Proof.
  intros H. destruct (fold_Qplus_bounds _ H 0%Q) as [H0 H1].
  unfold Qmean, Qsum, unit_score. pose proof (Qlen_pos x xs) as Hp.
  fold (Qlen (x :: xs)) in H1. split.
  - apply Qle_shift_div_l; [exact Hp|]. lra.
  - apply Qle_shift_div_r; [exact Hp|]. lra.
Qed.

Lemma diversity_unit (internal external : list Source) :
  unit_score (QualityAssessorAgent._assess_source_diversity internal external).
Proof.
  unfold QualityAssessorAgent._assess_source_diversity, unit_score. cbv zeta.
  destruct (_ =? 0)%nat; [split; discriminate|].
  split; [apply Q.le_max_l|].
  apply Q.max_lub; [discriminate | apply Q.le_min_l].
Qed.

Lemma question_coverage_unit (float : string -> option PyFloat)
    (completion : string -> Result string) (question0 : string)
    (sources : list Source) :
  Forall (fun x => unit_score (relevance_score x)) sources ->
  unit_score
    (QualityAssessorAgent._calculate_question_coverage float completion question0
       sources).
Proof.
  intros H. unfold QualityAssessorAgent._calculate_question_coverage.
  destruct sources as [|x xs]; [split; discriminate|].
  destruct (completion _).
  - destruct (float _); [apply clamp01_range | split; discriminate].
  - cbn [map]. apply Qmean_unit. change (relevance_score x :: map relevance_score xs)
      with (map relevance_score (x :: xs)).
    apply Forall_map. exact H.
Qed.

Lemma coverage_scores_unit (float : string -> option PyFloat)
    (io : QualityAssessorAgent.IO) (questions : list string) (sources : list Source) :
  Forall (fun x => unit_score (relevance_score x)) sources ->
  forall i, Forall unit_score
              (QualityAssessorAgent.coverage_scores float io i questions sources).
Proof.
  intros H. induction questions as [|q qs IH]; intros i; simpl; [constructor|].
  constructor; [|apply IH].
  destruct (QualityAssessorAgent.related_to q sources) as [|x xs] eqn:E;
    [split; discriminate|].
  apply question_coverage_unit. rewrite <- E.
  unfold QualityAssessorAgent.related_to. rewrite Forall_forall in *.
  intros y Hy. apply filter_In in Hy. now apply H.
Qed.

Lemma content_coverage_unit (float : string -> option PyFloat)
    (io : QualityAssessorAgent.IO) (questions : list string) (sources : list Source) :
  Forall (fun x => unit_score (relevance_score x)) sources ->
  unit_score (QualityAssessorAgent._assess_content_coverage float io questions sources).
Proof.
  intros H. unfold QualityAssessorAgent._assess_content_coverage.
  destruct questions as [|q qs]; [split; discriminate|].
  destruct sources as [|x xs]; [split; discriminate|].
  pose proof (coverage_scores_unit float io (q :: qs) (x :: xs) H 0%nat) as Hc.
  cbn [QualityAssessorAgent.coverage_scores] in *.
  now apply Qmean_unit.
Qed.

Lemma source_credibility_unit (sources : list Source) :
  Forall (fun x => unit_score (credibility_score x)) sources ->
  unit_score (QualityAssessorAgent._assess_source_credibility sources).
Proof.
  intros H. unfold QualityAssessorAgent._assess_source_credibility.
  destruct sources as [|x xs]; [split; discriminate|].
  cbn [map]. apply Qmean_unit.
  change (credibility_score x :: map credibility_score xs)
    with (map credibility_score (x :: xs)).
  apply Forall_map. exact H.
Qed.

Lemma gaps_sublist (questions : list string) (sources : list Source) :
  exists keep : string -> bool,
    QualityAssessorAgent._identify_information_gaps questions sources
    = filter keep questions
    /\ forall q, QualityAssessorAgent.related_to q sources = [] -> keep q = true.
Proof.
  exists (fun q =>
            match QualityAssessorAgent.related_to q sources with
            | [] => true
            | x :: xs =>
                (fold_left Nat.add
                   (map (fun s => PyStr.len (content s)) (x :: xs)) 0 <? 1000)%nat
                || negb (Qge_bool (Qmean (map relevance_score (x :: xs))) (4 # 10))
            end).
  split.
  - induction questions as [|q qs IH]; [reflexivity|].
    cbn [QualityAssessorAgent._identify_information_gaps filter].
    destruct (QualityAssessorAgent.related_to q sources) as [|x xs];
      [now rewrite IH|].
    destruct (_ || _); now rewrite IH.
  - intros q H. now rewrite H.
Qed.

Lemma gaps_length (questions : list string) (sources : list Source) :
  (List.length (QualityAssessorAgent._identify_information_gaps questions sources)
   <= List.length questions)%nat.
Proof.
  destruct (gaps_sublist questions sources) as [keep [H _]]. rewrite H.
  apply filter_length_le.
Qed.

Lemma gap_share_unit (gaps questions : list string) (q : string) :
  (List.length gaps <= List.length (q :: questions))%nat ->
  unit_score (1 - Qlen gaps / Qlen (q :: questions))%Q.
Proof.
  intros H. pose proof (Qlen_pos q questions) as Hp.
  assert (H0 : (0 <= Qlen gaps / Qlen (q :: questions))%Q).
  { apply Qle_shift_div_l; [exact Hp|]. rewrite Qmult_0_l.
    unfold Qlen, Qle, inject_Z. simpl. lia. }
  assert (H1 : (Qlen gaps / Qlen (q :: questions) <= 1)%Q).
  { apply Qle_shift_div_r; [exact Hp|]. rewrite Qmult_1_l.
    unfold Qlen. rewrite <- Zle_Qle. lia. }
  unfold unit_score. split; lra.
Qed.

(** X21. The parts of the assessment stay in range: when the relevance and
    credibility of every source of the record lie between 0 and 1, the
    score the assessor stores is never negative; without questions it is
    the default 0.6, and with questions an assessment is stored whose
    overall score is the stored quality score, whose diversity, coverage
    and credibility each lie between 0 and 1, and which lists no more gaps
    than there are questions.  (No upper bound is stated for the weighted
    sum itself: the weights add up to 1 exactly here, and to a value one
    rounding step above 1 in floating point.) *)
Theorem assessment_parts_in_range (float : string -> option PyFloat)
    (s : ResearchState) (io : QualityAssessorAgent.IO)
    (Hbounded : scores_bounded (internal_sources s ++ external_sources s)) :
  let s' := QualityAssessorAgent.execute float s io in
  (0 <= quality_score s')%Q
  /\ match research_questions s with
     | [] => quality_score s' = 6 # 10
     | _ :: _ =>
         exists a,
           quality_assessment s' = Some a
           /\ quality_score s' = overall_score a
           /\ unit_score (source_diversity a)
           /\ unit_score (content_coverage a)
           /\ unit_score (source_credibility a)
           /\ (List.length (information_gaps a)
               <= List.length (research_questions s))%nat
     end.
Proof.
  cbv zeta. unfold QualityAssessorAgent.execute,
    QualityAssessorAgent._assess_research_quality.
  destruct (research_questions s) as [|q qs] eqn:Eq.
  - cbn [quality_score QualityAssessorAgent._handle_error set_current_step set_errors
         set_all_sources set_quality_score].
    split; [discriminate | reflexivity].
  - cbv zeta.
    cbn [quality_score quality_assessment set_current_step set_all_sources
         set_quality_score set_quality_assessment
         QualityAssessorAgent._calculate_overall_score overall_score source_diversity
         content_coverage source_credibility information_gaps].
    assert (Hrel : Forall (fun x => unit_score (relevance_score x))
                     (internal_sources s ++ external_sources s)).
    { eapply Forall_impl; [|exact Hbounded]. now intros x [H _]. }
    assert (Hcred : Forall (fun x => unit_score (credibility_score x))
                      (internal_sources s ++ external_sources s)).
    { eapply Forall_impl; [|exact Hbounded]. now intros x [_ H]. }
    pose proof (diversity_unit (internal_sources s) (external_sources s)) as [D0 D1].
    pose proof (content_coverage_unit float io (q :: qs) _ Hrel) as [C0 C1].
    pose proof (source_credibility_unit _ Hcred) as [R0 R1].
    pose proof (gaps_length (q :: qs) (internal_sources s ++ external_sources s)) as Hg.
    pose proof (gap_share_unit _ qs q Hg) as [G0 G1].
    split.
    + lra.
    + eexists. split; [reflexivity|]. split; [reflexivity|].
      repeat split; assumption.
Qed.

Lemma gaps_without_sources (questions : list string) :
  QualityAssessorAgent._identify_information_gaps questions [] = questions.
Proof.
  induction questions as [|q qs IH]; [reflexivity|].
  cbn [QualityAssessorAgent._identify_information_gaps QualityAssessorAgent.related_to
       filter]. now rewrite IH.
Qed.

(** X22. An empty source pool scores zero: for a record with questions and
    no internal or external source the assessment succeeds with diversity,
    coverage and credibility 0, every question reported as an information
    gap, and a quality score equal to 0; without a critical error and below
    the iteration cap the router then sends the run back to the planner. *)
Theorem empty_pool_scores_zero (float : string -> option PyFloat)
    (s : ResearchState) (io : QualityAssessorAgent.IO)
    (Hquestions : research_questions s <> [])
    (Hinternal : internal_sources s = []) (Hexternal : external_sources s = []) :
  let s' := QualityAssessorAgent.execute float s io in
  (quality_score s' == 0)%Q
  /\ errors s' = errors s
  /\ all_sources s' = []
  /\ (exists a,
        quality_assessment s' = Some a
        /\ source_diversity a = 0%Q
        /\ content_coverage a = 0%Q
        /\ source_credibility a = 0%Q
        /\ information_gaps a = research_questions s)
  /\ (no_critical (errors s) -> iteration_count s < 3 ->
      _quality_router s' = route_replan).
Proof.
  cbv zeta. unfold QualityAssessorAgent.execute,
    QualityAssessorAgent._assess_research_quality.
  rewrite Hinternal, Hexternal. cbn [app].
  destruct (research_questions s) as [|q qs] eqn:Eq; [contradiction|].
  rewrite gaps_without_sources. cbv zeta.
  assert (Hscore :
            (QualityAssessorAgent._assess_source_diversity [] [] * (2 # 10)
             + QualityAssessorAgent._assess_content_coverage float io (q :: qs) []
               * (4 # 10)
             + QualityAssessorAgent._assess_source_credibility [] * (3 # 10)
             + (1 - Qlen (q :: qs) / Qlen (q :: qs)) * (1 # 10) == 0)%Q).
  { change (QualityAssessorAgent._assess_source_diversity [] []) with 0%Q.
    change (QualityAssessorAgent._assess_content_coverage float io (q :: qs) [])
      with 0%Q.
    change (QualityAssessorAgent._assess_source_credibility []) with 0%Q.
    pose proof (Qlen_pos q qs) as Hp.
    assert (H1 : (Qlen (q :: qs) / Qlen (q :: qs) == 1)%Q)
      by (field; intros E; rewrite E in Hp; discriminate).
    rewrite H1. reflexivity. }
  cbn [quality_score quality_assessment errors all_sources iteration_count
       set_current_step set_all_sources set_quality_score set_quality_assessment
       QualityAssessorAgent._calculate_overall_score overall_score].
  split; [exact Hscore|]. split; [reflexivity|]. split; [reflexivity|].
  split.
  { eexists. split; [reflexivity|]. repeat split; reflexivity. }
  intros Hc Hi. unfold _quality_router.
  cbn [quality_score errors iteration_count set_current_step set_all_sources
       set_quality_score set_quality_assessment
       QualityAssessorAgent._calculate_overall_score overall_score].
  rewrite (no_critical_filter _ Hc).
  assert ((iteration_count s >=? 3) = false) as ->.
  { rewrite Z.geb_leb. apply Z.leb_gt. lia. }
  rewrite (Qge_bool_compat _ 0 (7 # 10) Hscore), (Qge_bool_compat _ 0 (4 # 10) Hscore).
  reflexivity.
Qed.

Lemma empty_pool_scores_zero_witness :
  let s' := QualityAssessorAgent.execute sample_float state_one_question
              assessor_io_down in
  (quality_score s' == 0)%Q
  /\ errors s' = errors state_one_question
  /\ all_sources s' = []
  /\ (exists a,
        quality_assessment s' = Some a
        /\ source_diversity a = 0%Q
        /\ content_coverage a = 0%Q
        /\ source_credibility a = 0%Q
        /\ information_gaps a = research_questions state_one_question)
  /\ (no_critical (errors state_one_question) ->
      iteration_count state_one_question < 3 ->
      _quality_router s' = route_replan).
Proof.
  apply (empty_pool_scores_zero sample_float state_one_question assessor_io_down);
    [discriminate | reflexivity | reflexivity].
Defined.

(** X23. A pool drawn from one provider only is never diverse: with
    internal sources alone the diversity score is 0, and with external
    sources alone it is at most 0.4, however many domains they come from. *)
Theorem one_sided_pool_diversity (x : Source) (xs : list Source) :
  (QualityAssessorAgent._assess_source_diversity (x :: xs) [] == 0)%Q
  /\ (QualityAssessorAgent._assess_source_diversity [] (x :: xs) <= 4 # 10)%Q
  /\ QualityAssessorAgent._assess_source_diversity [] [] = 0%Q.
Proof.
  split; [|split; [|reflexivity]].
  - unfold QualityAssessorAgent._assess_source_diversity. cbv zeta.
    rewrite Nat.add_0_r. change (List.length (x :: xs) =? 0)%nat with false.
    cbv iota. fold (Qlen (x :: xs)).
    pose proof (Qlen_pos x xs) as Hp.
    assert (H1 : (Qlen (x :: xs) / Qlen (x :: xs) == 1)%Q)
      by (field; intros E; rewrite E in Hp; discriminate).
    cbn [map nodup List.length Nat.max].
    set (dd := Qmin _ 1).
    assert (Hdd : (dd == 0)%Q).
    { unfold dd. apply Q.min_l. discriminate. }
    rewrite H1, Hdd.
    assert (Habs : (Qabs (1 - (4 # 10)) == 6 # 10)%Q) by reflexivity.
    rewrite Habs.
    assert (Hv : ((1 - (6 # 10) / (4 # 10)) * (6 # 10) + 0 * (4 # 10) == - (3 # 10))%Q)
      by reflexivity.
    rewrite Hv. reflexivity.
  - unfold QualityAssessorAgent._assess_source_diversity. cbv zeta.
    change (List.length (@nil Source) + List.length (x :: xs) =? 0)%nat with false.
    cbv iota.
    set (dd := Qmin _ 1).
    assert (Hdd : (dd <= 1)%Q) by apply Q.le_min_r.
    assert (Hs : ((1 - Qabs (Qlen (@nil Source)
                              / inject_Z (Z.of_nat (List.length (@nil Source)
                                                    + List.length (x :: xs)))
                              - (4 # 10)) / (4 # 10)) == 0)%Q).
    { assert (H0 : (Qlen (@nil Source)
                    / inject_Z (Z.of_nat (List.length (@nil Source)
                                          + List.length (x :: xs))) == 0)%Q).
      { unfold Qdiv. apply Qmult_0_l. }
      rewrite H0. reflexivity. }
    rewrite Hs.
    apply Q.max_lub; [discriminate|].
    eapply Qle_trans; [apply Q.le_min_r|]. lra.
Qed.

(** X24. The information gaps are questions of the record, in the order of
    the questions and without inventing any: every question with no
    attributed source is reported, and with no source at all every question
    is. *)
Theorem gaps_are_questions (questions : list string) (sources : list Source) :
  let gaps := QualityAssessorAgent._identify_information_gaps questions sources in
  (exists keep : string -> bool, gaps = filter keep questions)
  /\ (forall q, In q gaps -> In q questions)
  /\ (forall q, In q questions ->
                QualityAssessorAgent.related_to q sources = [] -> In q gaps)
  /\ (List.length gaps <= List.length questions)%nat
  /\ QualityAssessorAgent._identify_information_gaps questions [] = questions.
Proof.
  cbv zeta. destruct (gaps_sublist questions sources) as [keep [H Hk]].
  split; [now exists keep|]. split; [|split; [|split]].
  - intros q Hq. rewrite H in Hq. now apply filter_In in Hq.
  - intros q Hq Hr. rewrite H. apply filter_In. split; [exact Hq | now apply Hk].
  - apply gaps_length.
  - apply gaps_without_sources.
Qed.

(** ** A run without questions *)

Section NoQuestions.

Variable hash : string -> Z.
Variable float : string -> option PyFloat.
Variable format_2f : Q -> string.
Variable str_float : Q -> string.
Variable seconds_between : string -> string -> Result Q.
Variable recursion_limit : nat.
Variable recursion_error : string.

Abbreviation run_on :=
  (ResearchWorkflow.run hash float format_2f str_float seconds_between
     recursion_error).

Lemma assessment_without_questions (s : ResearchState)
    (io : ResearchWorkflow.StepIO) :
  research_questions s = [] ->
  quality_score (ResearchWorkflow._quality_assessment_node float s io) = 6 # 10.
Proof.
  intros H. unfold ResearchWorkflow._quality_assessment_node,
    QualityAssessorAgent.execute, QualityAssessorAgent._assess_research_quality.
  cbn [research_questions set_current_step]. rewrite H. reflexivity.
Qed.

Lemma research_loop_without_questions (budget : nat) :
  forall (world : ResearchWorkflow.World) (k : nat) (n : ResearchWorkflow.Node)
         (s : ResearchState),
    n = ResearchWorkflow.parallel_research \/ n = ResearchWorkflow.quality_assessor ->
    research_questions s = [] ->
    iteration_count s < 3 ->
    no_critical (errors s) ->
    exists errs,
      run_on budget world k n s = ResearchWorkflow.GraphRaised recursion_error errs.
Proof.
  induction budget as [|b IH]; intros world k n s Hn Hq Hi Hc.
  - eexists. reflexivity.
  - cbn [ResearchWorkflow.run].
    set (io := ResearchWorkflow.step_io world k).
    pose proof (run_node_errors hash float format_2f str_float seconds_between n s io)
      as He.
    pose proof (extends_no_critical _ _ He Hc) as Hc'.
    destruct Hn as [-> | ->];
      cbn [ResearchWorkflow.run_node ResearchWorkflow.successor] in *.
    + destruct (parallel_same_plan hash s io) as [_ [_ [Hq' Hi']]].
      apply IH; [now right | congruence | congruence | exact Hc'].
    + destruct (assessment_same_plan float s io) as [_ [_ [Hq' Hi']]].
      pose proof (assessment_without_questions s io Hq) as Hs.
      set (s' := ResearchWorkflow._quality_assessment_node float s io) in *.
      assert (Hr : _quality_router s' = route_retry_research).
      { unfold _quality_router. rewrite (no_critical_filter _ Hc'), Hs.
        assert ((iteration_count s' >=? 3) = false) as ->.
        { rewrite Z.geb_leb. apply Z.leb_gt. lia. }
        reflexivity. }
      rewrite Hr. cbn [ResearchWorkflow.route_target].
      apply IH; [now left | congruence | congruence | exact Hc'].
Qed.

Lemma planning_questions (s : ResearchState) (io : ResearchWorkflow.StepIO) :
  research_questions (ResearchWorkflow._planning_node s io)
  = match ResearchPlannerAgent.questions_completion
            (ResearchWorkflow.planner_io io) with
    | Returned response => ResearchPlannerAgent.parse_questions response
    | Raised _ => research_questions s
    end.
Proof.
  unfold ResearchWorkflow._planning_node, ResearchPlannerAgent.execute,
    ResearchPlannerAgent._generate_research_questions.
  destruct (ResearchPlannerAgent.questions_completion
              (ResearchWorkflow.planner_io io));
    cbn [research_questions set_iteration_count set_current_step
         set_research_questions set_research_plan
         ResearchPlannerAgent._handle_error set_errors];
    destruct (start_time (set_current_step PLANNING s)) as [[|]|]; reflexivity.
Qed.

(** X25. A run without questions never reports: when the first planner
    invocation on the record built for a topic stores no question (its
    completion fails, or holds no line that parses as a question), every
    assessment fails to the default 0.6, the router answers
    [retry_research] each time and the iteration count never moves, so the
    run circles between research and assessment until the graph's recursion
    limit; the caller gets the guard's failure report. *)
Theorem run_without_questions_hits_limit (world : ResearchWorkflow.World)
    (topic0 now0 : string)
    (Hnone : planned_questions
               (ResearchWorkflow.planner_io (ResearchWorkflow.step_io world 0)) = []) :
  let r :=
    ResearchWorkflow.execute hash float format_2f str_float seconds_between
      recursion_limit recursion_error world (initial_state topic0 now0) in
  final_report r = Some ("Workflow execution failed: " +:+ recursion_error)
  /\ In (workflow_failure recursion_error) (errors r)
  /\ current_step r = REPORT_COMPLETE
  /\ research_questions r = []
  /\ report_sections r = [].
Proof.
  cbv zeta. unfold ResearchWorkflow.execute, ResearchWorkflow.ainvoke.
  assert (Hrun : exists errs,
             run_on recursion_limit world 0 ResearchWorkflow.planner
               (initial_state topic0 now0)
             = ResearchWorkflow.GraphRaised recursion_error errs).
  { destruct recursion_limit as [|b]; [eexists; reflexivity|].
    cbn [ResearchWorkflow.run ResearchWorkflow.run_node ResearchWorkflow.successor].
    set (io := ResearchWorkflow.step_io world 0) in *.
    pose proof (run_node_errors hash float format_2f str_float seconds_between
                  ResearchWorkflow.planner (initial_state topic0 now0) io) as He.
    cbn [ResearchWorkflow.run_node] in He.
    assert (Hc : no_critical (errors (initial_state topic0 now0))) by constructor.
    pose proof (extends_no_critical _ _ He Hc) as Hc'.
    pose proof (planning_iteration_count (initial_state topic0 now0) io) as Hi.
    apply research_loop_without_questions; [now left | | | exact Hc'].
    - rewrite planning_questions. unfold planned_questions in Hnone.
      destruct (ResearchPlannerAgent.questions_completion
                  (ResearchWorkflow.planner_io io)); [exact Hnone | reflexivity].
    - rewrite Hi. cbn [iteration_count initial_state].
      destruct (ResearchPlannerAgent.questions_completion _); lia. }
  destruct Hrun as [errs ->].
  cbn [final_report errors current_step research_questions report_sections
       set_end_time set_current_step set_errors set_final_report initial_state].
  repeat split. apply in_or_app. right. now left.
Qed.

Lemma planning_assessment (s : ResearchState) (io : ResearchWorkflow.StepIO) :
  quality_assessment (ResearchWorkflow._planning_node s io) = quality_assessment s.
Proof.
  unfold ResearchWorkflow._planning_node, ResearchPlannerAgent.execute.
  destruct (ResearchPlannerAgent._generate_research_questions _);
    cbn [quality_assessment set_iteration_count set_current_step
         set_research_questions set_research_plan
         ResearchPlannerAgent._handle_error set_errors];
    destruct (start_time (set_current_step PLANNING s)) as [[|]|]; reflexivity.
Qed.

Lemma parallel_assessment (s : ResearchState) (io : ResearchWorkflow.StepIO) :
  quality_assessment (ResearchWorkflow._parallel_research_node hash s io)
  = quality_assessment s.
Proof.
  unfold ResearchWorkflow._parallel_research_node, ResearchWorkflow.gather_research,
    ResearchWorkflow.research_task.
  destruct (ResearchWorkflow.external_first io),
    (ResearchWorkflow.internal_escaped io), (ResearchWorkflow.external_escaped io);
    reflexivity.
Qed.

Lemma generation_assessment (s : ResearchState) (io : ResearchWorkflow.StepIO) :
  quality_assessment (ResearchWorkflow._report_generation_node s io)
  = quality_assessment s.
Proof.
  unfold ResearchWorkflow._report_generation_node, ReportGeneratorAgent.execute.
  destruct (ReportGeneratorAgent.failure _); [reflexivity|].
  cbn [all_sources set_current_step].
  destruct (all_sources s); reflexivity.
Qed.

Lemma synthesis_assessment (s : ResearchState) (io : ResearchWorkflow.StepIO) :
  quality_assessment
    (ResearchWorkflow._synthesis_node format_2f str_float seconds_between s io)
  = quality_assessment s.
Proof.
  unfold ResearchWorkflow._synthesis_node, ReportSynthesizerAgent.execute.
  cbn [report_sections set_current_step].
  destruct (report_sections s); [reflexivity|].
  destruct (ReportSynthesizerAgent._synthesize_report _ _ _ _ _ _); reflexivity.
Qed.

(** An assessment that leaves the record without a stored assessment found
    none and failed: the score is the default. *)
Lemma assessment_still_missing (s : ResearchState) (io : ResearchWorkflow.StepIO) :
  quality_assessment (ResearchWorkflow._quality_assessment_node float s io) = None ->
  quality_assessment s = None
  /\ quality_score (ResearchWorkflow._quality_assessment_node float s io) = 6 # 10.
Proof.
  unfold ResearchWorkflow._quality_assessment_node, QualityAssessorAgent.execute.
  destruct (QualityAssessorAgent._assess_research_quality _ _ _ _ _).
  - cbn [quality_assessment set_current_step set_all_sources set_quality_score
         set_quality_assessment]. discriminate.
  - cbn [quality_assessment quality_score QualityAssessorAgent._handle_error
         set_current_step set_errors set_all_sources set_quality_score].
    intros H. split; [exact H | reflexivity].
Qed.

Lemma run_assessed (budget : nat) :
  forall (world : ResearchWorkflow.World) (k : nat) (n : ResearchWorkflow.Node)
         (s final_state : ResearchState),
    no_critical (errors s) ->
    match n with
    | ResearchWorkflow.planner =>
        quality_assessment s = None -> iteration_count s <= 0
    | ResearchWorkflow.parallel_research | ResearchWorkflow.quality_assessor =>
        quality_assessment s = None -> iteration_count s <= 1
    | ResearchWorkflow.report_generator | ResearchWorkflow.synthesizer =>
        quality_assessment s <> None
    | ResearchWorkflow.error_recovery => False
    end ->
    run_on budget world k n s = ResearchWorkflow.Finished final_state ->
    quality_assessment final_state <> None.
Proof.
  induction budget as [|b IH]; intros world k n s final_state Hc Hinv Hrun;
    [discriminate|].
  cbn [ResearchWorkflow.run] in Hrun.
  set (io := ResearchWorkflow.step_io world k) in *.
  pose proof (run_node_errors hash float format_2f str_float seconds_between n s io)
    as He.
  pose proof (extends_no_critical _ _ He Hc) as Hc'.
  destruct n; cbn [ResearchWorkflow.run_node ResearchWorkflow.successor] in *.
  - apply (IH _ _ _ _ _ Hc' ) in Hrun; [exact Hrun|].
    rewrite planning_assessment, planning_iteration_count. intros Hq.
    specialize (Hinv Hq).
    destruct (ResearchPlannerAgent.questions_completion _); lia.
  - apply (IH _ _ _ _ _ Hc') in Hrun; [exact Hrun|].
    rewrite parallel_assessment.
    destruct (parallel_same_plan hash s io) as [_ [_ [_ Hi]]]. rewrite Hi. exact Hinv.
  - set (s' := ResearchWorkflow._quality_assessment_node float s io) in *.
    apply (IH _ _ _ _ _ Hc') in Hrun; [exact Hrun|].
    destruct (assessment_same_plan float s io) as [_ [_ [_ Hi]]]. fold s' in Hi.
    destruct (quality_assessment s') eqn:Hq.
    + destruct (_quality_router s') eqn:Hr; cbn [ResearchWorkflow.route_target];
        try discriminate.
      exfalso. revert Hr. now apply no_critical_route.
    + destruct (assessment_still_missing s io Hq) as [Hq0 Hs]. fold s' in Hs.
      specialize (Hinv Hq0).
      assert (Hr : _quality_router s' = route_retry_research).
      { unfold _quality_router. rewrite (no_critical_filter _ Hc'), Hs.
        assert ((iteration_count s' >=? 3) = false) as ->.
        { rewrite Z.geb_leb. apply Z.leb_gt. lia. }
        reflexivity. }
      rewrite Hr. cbn [ResearchWorkflow.route_target]. intros _. lia.
  - apply (IH _ _ _ _ _ Hc') in Hrun; [exact Hrun|].
    now rewrite generation_assessment.
  - injection Hrun as <-. now rewrite synthesis_assessment.
  - destruct Hinv.
Qed.

(** X26. A finished run was assessed: when the graph, started on the record
    built for a topic, reaches its end instead of the recursion limit, the
    final record holds a stored quality assessment.  A failed assessment
    scores 0.6, which sends the run back to research, and the iteration cap
    is only reached through re-planning, which needs a successful assessment
    below 0.4; so nothing reaches report generation unassessed, and the
    synthesizer of such a run always finds the assessment its methodology
    section reads. *)
Theorem finished_run_was_assessed (world : ResearchWorkflow.World)
    (topic0 now0 : string) (final_state : ResearchState)
    (Hdone : ResearchWorkflow.ainvoke hash float format_2f str_float
               seconds_between recursion_limit recursion_error world
               (initial_state topic0 now0)
             = ResearchWorkflow.Finished final_state) :
  exists assessment,
    quality_assessment final_state = Some assessment
    /\ ResearchWorkflow.execute hash float format_2f str_float seconds_between
         recursion_limit recursion_error world (initial_state topic0 now0)
       = final_state.
Proof.
  assert (H : quality_assessment final_state <> None).
  { eapply run_assessed; [| |exact Hdone]; [constructor|].
    cbn [iteration_count initial_state]. intros _. lia. }
  destruct (quality_assessment final_state) as [a|]; [|congruence].
  exists a. split; [reflexivity|].
  unfold ResearchWorkflow.execute. now rewrite Hdone.
Qed.

End NoQuestions.

(** ** The report of a run *)








Section RunReport.

Variable hash : string -> Z.
Variable float : string -> option PyFloat.
Variable format_2f : Q -> string.
Variable str_float : Q -> string.
Variable seconds_between : string -> string -> Result Q.
Variable recursion_limit : nat.
Variable recursion_error : string.







End RunReport.


(** ** Report sections *)

(** X27. A failing section never fails the report: unless an exception
    escapes the generator itself, a pass stores exactly the six sections in
    their fixed order, records no error and moves to [SECTIONS_GENERATED].
    With sources, each of the five written sections holds its task's text
    or, when that task failed, a placeholder naming the section and the
    error; the failure of one section leaves the others as they are and is
    not reported in the error list. *)
Theorem section_failures_stay_in_sections (s : ResearchState)
    (io : ReportGeneratorAgent.IO)
    (Hok : ReportGeneratorAgent.failure io = None) :
  let r := ReportGeneratorAgent.execute s io in
  map fst (report_sections r) = six_sections
  /\ errors r = errors s
  /\ current_step r = SECTIONS_GENERATED
  /\ (all_sources s <> [] ->
      (forall name, In name ReportGeneratorAgent.completion_sections ->
         dict_get name (report_sections r) = Some (section_text io name))
      /\ dict_get "references" (report_sections r)
         = Some (ReportGeneratorAgent._generate_references (all_sources s))).
Proof.
  cbv zeta. unfold ReportGeneratorAgent.execute. rewrite Hok.
  destruct (all_sources s) as [|x l] eqn:Hs.
  - split; [reflexivity|split; [reflexivity|split; [reflexivity|]]].
    intros Hne. now destruct Hne.
  - cbn [report_sections errors current_step set_current_step set_report_sections].
    split; [|split; [reflexivity|split; [reflexivity|]]].
    + unfold ReportGeneratorAgent.completion_sections, ReportGeneratorAgent.section_slot.
      cbn [map app].
      repeat match goal with
             | |- context [ReportGeneratorAgent.section_result io ?n] =>
                 destruct (ReportGeneratorAgent.section_result io n)
             end; reflexivity.
    + intros _. split; [|].
      * intros name Hin. unfold section_text.
        unfold ReportGeneratorAgent.completion_sections in *.
        cbn [map app]. unfold ReportGeneratorAgent.section_slot.
        cbn [In] in Hin.
        destruct Hin as [<-|[<-|[<-|[<-|[<-|[]]]]]];
          repeat match goal with
                 | |- context [ReportGeneratorAgent.section_result io ?n] =>
                     destruct (ReportGeneratorAgent.section_result io n)
                 end; reflexivity.
      * unfold ReportGeneratorAgent.completion_sections, ReportGeneratorAgent.section_slot.
        cbn [map app].
        repeat match goal with
               | |- context [ReportGeneratorAgent.section_result io ?n] =>
                   destruct (ReportGeneratorAgent.section_result io n)
               end; reflexivity.
Qed.

Lemma section_failures_stay_in_sections_witness :
  map fst (report_sections (ReportGeneratorAgent.execute
                              (set_all_sources [sample_source] sample_state)
                              generator_io_down))
  = six_sections
  /\ dict_get "introduction"
       (report_sections (ReportGeneratorAgent.execute
                           (set_all_sources [sample_source] sample_state)
                           generator_io_down))
     = Some "Error generating introduction: OpenAI API error: Connection error.".
Proof.
  destruct (section_failures_stay_in_sections
              (set_all_sources [sample_source] sample_state) generator_io_down
              eq_refl) as [H1 [_ [_ H4]]].
  split; [exact H1|].
  destruct (H4 ltac:(discriminate)) as [H5 _].
  apply (H5 "introduction"). simpl. auto.
Defined.

(** ** What the section prompts quote *)

Lemma preview_len_le (n : nat) (x : Source) :
  (PyStr.len (ReportGeneratorAgent.bullet +:+ PyStr.take n (content x) +:+ "...")
   <= n + 5)%nat.
Proof.
  rewrite !len_append. pose proof (take_len_le n (content x)).
  change (PyStr.len ReportGeneratorAgent.bullet) with 2%nat.
  change (PyStr.len "...") with 3%nat. lia.
Qed.

Lemma question_findings_length (sources : list Source) (question0 : string) :
  (List.length (ReportGeneratorAgent.question_findings sources question0) <= 4)%nat.
Proof.
  unfold ReportGeneratorAgent.question_findings.
  destruct (filter _ sources) as [|x l] eqn:E; [simpl; lia|].
  cbn [List.length]. rewrite length_map.
  pose proof (firstn_le_length 3 (x :: l)). lia.
Qed.

(** X28. What the section prompts quote from the sources is bounded,
    however large the pool: the executive summary quotes at most 10
    sources with at most 300 characters each, the conclusion at most 3
    internal and 5 external sources with at most 250 characters each (the
    bounds 305 and 255 add the bullet, a space and the three dots;
    characters are counted, not bytes), the
    detailed analysis at most 15 sources, all of them sources of the pool,
    and the key findings at most a heading and 3 sources per question, and
    nothing for a question without a source. *)
Theorem prompt_material_bounded (sources : list Source) (questions : list string) :
  (List.length (ReportGeneratorAgent._extract_key_points sources) <= 10)%nat
  /\ Forall (fun point => (PyStr.len point <= 305)%nat)
       (ReportGeneratorAgent._extract_key_points sources)
  /\ (List.length (ReportGeneratorAgent._extract_conclusion_points sources) <= 8)%nat
  /\ Forall (fun point => (PyStr.len point <= 255)%nat)
       (ReportGeneratorAgent._extract_conclusion_points sources)
  /\ (List.length (ReportGeneratorAgent.analysis_sources sources) <= 15)%nat
  /\ (forall x, In x (ReportGeneratorAgent.analysis_sources sources) -> In x sources)
  /\ (List.length (flat_map (ReportGeneratorAgent.question_findings sources) questions)
      <= 4 * List.length questions)%nat
  /\ (forall question0,
        (forall x, In x sources -> question x <> question0) ->
        ReportGeneratorAgent.question_findings sources question0 = []).
Proof.
  split.
  { unfold ReportGeneratorAgent._extract_key_points. rewrite length_map.
    apply firstn_le_length. }
  split.
  { unfold ReportGeneratorAgent._extract_key_points. apply Forall_map.
    apply Forall_forall. intros x _. apply (preview_len_le 300). }
  split.
  { unfold ReportGeneratorAgent._extract_conclusion_points,
      ReportGeneratorAgent.conclusion_sources.
    rewrite length_map, length_app.
    pose proof (firstn_le_length 3
                  (filter (ReportGeneratorAgent.is_type "internal") sources)).
    pose proof (firstn_le_length 5
                  (filter (ReportGeneratorAgent.is_type "external") sources)).
    lia. }
  split.
  { unfold ReportGeneratorAgent._extract_conclusion_points. apply Forall_map.
    apply Forall_forall. intros x _. apply (preview_len_le 250). }
  split.
  { unfold ReportGeneratorAgent.analysis_sources. apply firstn_le_length. }
  split.
  { unfold ReportGeneratorAgent.analysis_sources. intros x H.
    apply firstn_incl in H.
    eapply Permutation_in; [|exact H]. symmetry. apply sorted_desc_perm. }
  split.
  { induction questions as [|q qs IH]; [simpl; lia|].
    cbn [flat_map List.length]. rewrite length_app.
    pose proof (question_findings_length sources q). lia. }
  intros question0 H. unfold ReportGeneratorAgent.question_findings.
  assert (E : filter (fun s => String.eqb (question s) question0) sources = []).
  { induction sources as [|x l IH]; [reflexivity|]. simpl.
    destruct (String.eqb (question x) question0) eqn:Hq.
    - apply String.eqb_eq in Hq. exfalso. apply (H x); [now left | exact Hq].
    - apply IH. intros y Hy. apply H. now right. }
  now rewrite E.
Qed.

(** ** The request handlers *)

Section Handlers.

Variable str_http : nat -> string -> string.
Variable workflow_execute : ResearchState -> ResearchState.

(** X29. The research endpoint answers with a file or with status 500,
    nothing else: the 400 responses it raises for a missing topic and for an
    empty vector store are caught by its own handler and sent as 500 with
    the text of the 400 inside the detail.  A file is sent only for a
    non-empty topic with data loaded, when the workflow's report is not
    empty and the document was rendered; its name is the topic with spaces
    replaced by underscores. *)
Theorem research_endpoint_responses (io : App.RequestIO) :
  match App.conduct_research str_http workflow_execute io with
  | App.HTTPException status_code detail =>
      status_code = 500%nat /\ exists e, detail = "Research failed: " +:+ e
  | App.FileResponse path filename media_type =>
      exists topic0 report,
        App.body_topic io = Returned (Some topic0) /\ topic0 <> ""
        /\ App.data_loaded io = true
        /\ final_report
             (workflow_execute (initial_state topic0 (App.request_now io)))
           = Some report
        /\ report <> ""
        /\ App.document io = Returned path
        /\ filename = PyStr.replace_char " " "_" topic0 +:+ "_research_report.docx"
        /\ media_type = App.docx_media_type
  | App.PlanResponse _ _ _ _ => False
  end
  /\ (App.body_topic io = Returned None \/ App.body_topic io = Returned (Some "") ->
      App.conduct_research str_http workflow_execute io
      = App.HTTPException 500
          ("Research failed: " +:+ str_http 400 "Topic is required"))
  /\ (App.data_loaded io = false ->
      exists e,
        App.conduct_research str_http workflow_execute io
        = App.HTTPException 500 ("Research failed: " +:+ e)).
Proof.
  unfold App.conduct_research.
  destruct (App.body_topic io) as [[[|c t]|]|e] eqn:Hb.
  - split; [split; [reflexivity | eexists; reflexivity]|].
    split; [reflexivity | intros _; eexists; reflexivity].
  - destruct (App.data_loaded io) eqn:Hd; cbn [negb].
    + split; [|split; [intros [H|H]; discriminate | discriminate]].
      destruct (final_report (workflow_execute _)) as [[|r rs]|] eqn:Hf;
        try (split; [reflexivity | eexists; reflexivity]).
      destruct (App.document io) as [doc_path|e] eqn:Hdoc;
        [|split; [reflexivity | eexists; reflexivity]].
      exists (String c t), (String r rs).
      repeat split; try reflexivity; try discriminate. exact Hf.
    + split; [split; [reflexivity | eexists; reflexivity]|].
      split; [intros [H|H]; discriminate | intros _; eexists; reflexivity].
  - split; [split; [reflexivity | eexists; reflexivity]|].
    split; [reflexivity | intros _; eexists; reflexivity].
  - split; [split; [reflexivity | eexists; reflexivity]|].
    split; [intros [H|H]; discriminate | intros _; eexists; reflexivity].
Qed.

(** X30. The planning endpoint reports a failed planner as a generated
    plan: for a topic with data loaded, when the questions completion fails
    the response still has status [plan_generated], with no plan and an
    empty question list; the planner's error entry is dropped with the
    record.  When the completion answers, the response carries the parsed
    questions, which are also those of the plan. *)
Theorem planning_endpoint_hides_failure (io : App.RequestIO)
    (planner_io : ResearchPlannerAgent.IO) (topic0 : string)
    (Htopic : App.body_topic io = Returned (Some topic0))
    (Hname : topic0 <> "")
    (Hdata : App.data_loaded io = true) :
  match ResearchPlannerAgent.questions_completion planner_io with
  | Raised _ =>
      App.generate_plan str_http io planner_io
      = App.PlanResponse topic0 None [] "plan_generated"
  | Returned response =>
      exists plan,
        App.generate_plan str_http io planner_io
        = App.PlanResponse topic0 (Some plan)
            (ResearchPlannerAgent.parse_questions response) "plan_generated"
        /\ plan_questions plan = ResearchPlannerAgent.parse_questions response
        /\ plan_topic plan = topic0
  end.
Proof.
  unfold App.generate_plan. rewrite Htopic, Hdata.
  destruct topic0 as [|c t]; [congruence|]. cbn [negb].
  unfold ResearchPlannerAgent.execute, ResearchPlannerAgent._generate_research_questions.
  destruct (ResearchPlannerAgent.questions_completion planner_io).
  - eexists. split; [reflexivity|]. split; reflexivity.
  - reflexivity.
Qed.

End Handlers.

Lemma planning_endpoint_hides_failure_witness :
  App.generate_plan sample_str_http sample_request planner_io_down
  = App.PlanResponse "Quantum Computing Applications" None [] "plan_generated".
Proof.
  apply (planning_endpoint_hides_failure sample_str_http sample_request
           planner_io_down "Quantum Computing Applications");
    [reflexivity | discriminate | reflexivity].
Defined.

(** ** Instances on the sample run *)

Lemma capped_run_reports_witness :
  ResearchWorkflow.run sample_hash sample_float sample_format_2f sample_format_2f
    sample_seconds_between sample_limit_error 3 world_no_sources 0
    ResearchWorkflow.quality_assessor state_at_cap
  = ResearchWorkflow.Finished
      (ResearchWorkflow._synthesis_node sample_format_2f sample_format_2f
         sample_seconds_between
         (ResearchWorkflow._report_generation_node
            (ResearchWorkflow._quality_assessment_node sample_float state_at_cap
               step_no_sources)
            step_no_sources)
         step_no_sources).
Proof.
  refine (proj1 (capped_run_reports sample_hash sample_float sample_format_2f
                   sample_format_2f sample_seconds_between sample_limit_error
                   world_no_sources state_at_cap 0 0 _ _)).
  - simpl. lia.
  - constructor.
Defined.

Lemma critical_error_short_circuits_witness :
  _quality_router
    (ResearchWorkflow._quality_assessment_node sample_float state_with_critical
       step_no_sources)
  = route_error.
Proof.
  refine (proj2 (critical_error_short_circuits sample_hash sample_float
                   sample_format_2f sample_format_2f sample_seconds_between
                   sample_limit_error world_no_sources state_with_critical 0 0 _)).
  exists {| type := "critical_provider_outage"; message := "vector store unreachable";
            step := "startup" |}, "", "_provider_outage".
  split; [now left | reflexivity].
Defined.

Lemma external_sources_meet_thresholds_witness :
  (3 # 10 <= relevance_score
               (ExternalResearchAgent.source_of_hit sample_question sample_search_hit))%Q
  /\ (200 <= String.length
               (content
                  (ExternalResearchAgent.source_of_hit sample_question
                     sample_search_hit)))%nat.
Proof.
  destruct (external_sources_meet_thresholds state_one_question external_io_one
              (ExternalResearchAgent.source_of_hit sample_question sample_search_hit))
    as [H1 [_ [H3 _]]].
  - vm_compute. now left.
  - split; [exact H1 | exact H3].
Defined.

Lemma searched_results_scored_witness :
  exists r c,
    sh_relevance_score sample_search_hit = Some r
    /\ sh_credibility_score sample_search_hit = Some c
    /\ (1 # 10 <= r)%Q /\ (r <= 1)%Q
    /\ (5 # 10 <= c)%Q /\ (c <= 1)%Q
    /\ ExternalResearchAgent.is_quality_source
         (ExternalResearchAgent.source_of_hit sample_question sample_search_hit)
       = Qge_bool r (3 # 10) && (200 <=? PyStr.len (sh_content sample_search_hit))%nat.
Proof.
  apply (searched_results_scored sample_search_io sample_question sample_search_hit).
  vm_compute. now left.
Defined.

Lemma search_strategies_bounded_witness :
  (List.length (ExternalResearchAgent._research_question sample_search_io sample_question)
   <= 11)%nat.
Proof.
  refine (proj1 (search_strategies_bounded sample_search_io sample_question _)).
  intros q n. cbn [ExternalResearchAgent.search sample_search_io].
  apply firstn_le_length.
Defined.

Lemma assessment_parts_in_range_witness :
  (0 <= quality_score
          (QualityAssessorAgent.execute sample_float state_one_source
             assessor_io_down))%Q.
Proof.
  refine (proj1 (assessment_parts_in_range sample_float state_one_source
                   assessor_io_down _)).
  apply Forall_cons; [|constructor].
  repeat split; unfold Qle; simpl; lia.
Defined.

Lemma run_without_questions_hits_limit_witness :
  final_report (sample_execute world_down sample_state)
  = Some ("Workflow execution failed: " +:+ sample_limit_error).
Proof.
  refine (proj1 (run_without_questions_hits_limit sample_hash sample_float
                   sample_format_2f sample_format_2f sample_seconds_between 25
                   sample_limit_error world_down "Quantum Computing Applications"
                   "2024-05-01T09:00:00" _)).
  reflexivity.
Defined.

Lemma finished_run_was_assessed_witness :
  exists assessment,
    quality_assessment (sample_execute world_no_sources sample_state) = Some assessment
    /\ sample_execute world_no_sources sample_state
       = sample_execute world_no_sources sample_state.
Proof.
  apply (finished_run_was_assessed sample_hash sample_float sample_format_2f
           sample_format_2f sample_seconds_between 25 sample_limit_error
           world_no_sources "Quantum Computing Applications" "2024-05-01T09:00:00"
           (sample_execute world_no_sources sample_state)).
  vm_compute. reflexivity.
Defined.
